(** * Salamoonder client: task protocol, Akamai extractors, DataDome parsers

    A shallow embedding of [salamoonder/client.py], [salamoonder/tasks.py],
    [salamoonder/utils/akamai.py] and [salamoonder/utils/datadome.py], and
    the properties of the specification that hold of it.

    - Python values are an inductive type; a dictionary is an association
      list in insertion order with unique keys.
    - Text is a byte string holding UTF-8; a lone surrogate, which a Python
      [str] can hold, keeps its three-byte form.
    - The HTTP transport (curl_cffi) is an external collaborator.  A call
      consumes the next scripted response of the remote side and is
      recorded, together with every [time.sleep], in a trace.  The cookie
      jar of the session maps names to values; the cookies of a response
      replace those of the same name.  Domains, paths and expiry are not
      modelled.
    - The library functions the code calls on data are modelled where a
      statement needs their result ([str.split], [json.loads], [urlencode],
      [base64.b64decode], the regular expressions); [repr], the truth of a
      float, [urlparse] and [urljoin] are parameters, taken to be total.
    - Not modelled: logging, the recursion limit of the interpreter inside
      [json.loads], digits outside ASCII for the pattern [\d].
    - The polling interval is a natural number of seconds. *)

From Stdlib Require Import String Ascii List ZArith NArith Lia Bool DecimalString.
Import ListNotations.
Open Scope string_scope.
Open Scope list_scope.
Set Warnings "-register-all".

(** ** Python values *)

Inductive value : Type :=
| VNone
| VBool (b : bool)
| VInt (z : Z)
| VFloat (lexeme : string)
| VStr (s : string)
| VList (items : list value)
| VDict (entries : list (string * value)).

(** What the interpreter and [urllib.parse] provide and the repository only
    calls: [repr] of floats and containers, truth of a float, URL splitting
    and joining. *)
Record ParseResult := { scheme : string; netloc : string; path : string }.

Class Runtime := {
  py_repr : value -> string;
  float_bool : string -> bool;
  urlparse : string -> ParseResult;
  urljoin : string -> string -> string
}.

Definition str_of_Z (z : Z) : string := NilZero.string_of_int (Z.to_int z).

(** ** Dictionaries: insertion order, unique keys *)

Definition dict (A : Type) := list (string * A).

Fixpoint dict_get {A} (k : string) (d : dict A) : option A :=
  match d with
  | [] => None
  | (k', v) :: d' => if String.eqb k' k then Some v else dict_get k d'
  end.

Definition dict_in {A} (k : string) (d : dict A) : bool :=
  match dict_get k d with Some _ => true | None => false end.

Fixpoint dict_set {A} (k : string) (v : A) (d : dict A) : dict A :=
  match d with
  | [] => [(k, v)]
  | (k', v') :: d' =>
      if String.eqb k' k then (k', v) :: d' else (k', v') :: dict_set k v d'
  end.

Fixpoint dict_del {A} (k : string) (d : dict A) : dict A :=
  match d with
  | [] => []
  | (k', v') :: d' => if String.eqb k' k then d' else (k', v') :: dict_del k d'
  end.

(** [d.update(e)], also [{**d, **e}] *)
Definition dict_update {A} (d e : dict A) : dict A :=
  fold_left (fun acc kv => dict_set (fst kv) (snd kv) acc) e d.

Definition dict_keys {A} (d : dict A) : list string := map fst d.

(** [d.get(k)] on a dict of values: [None] when the key is missing *)
Definition py_get (d : dict value) (k : string) : value :=
  match dict_get k d with Some v => v | None => VNone end.

(** [v == "literal"] *)
Definition py_eq_str (v : value) (s : string) : bool :=
  match v with VStr t => String.eqb t s | _ => false end.

Section PythonRuntime.
Context {RT : Runtime}.

(** [bool(v)] *)
Definition truthy (v : value) : bool :=
  match v with
  | VNone => false
  | VBool b => b
  | VInt z => negb (Z.eqb z 0)
  | VFloat l => float_bool l
  | VStr s => negb (String.eqb s EmptyString)
  | VList l => match l with [] => false | _ => true end
  | VDict d => match d with [] => false | _ => true end
  end.

(** [a or b] *)
Definition py_or (a b : value) : value := if truthy a then a else b.

(** [str(v)], also [f"{v}"] *)
Definition py_str (v : value) : string :=
  match v with
  | VNone => "None"
  | VBool true => "True"
  | VBool false => "False"
  | VInt z => str_of_Z z
  | VStr s => s
  | VFloat _ | VList _ | VDict _ => py_repr v
  end.
End PythonRuntime.

(** ** Exceptions, outcomes and the world *)

Inductive exn : Type :=
| APIError (msg : value)
| MissingAPIKeyError (msg : string)
| RuntimeError (msg : string)
| AttributeError
| UnicodeEncodeError.

(** [Blocked]: the call has sent a request and waits for a response the
    remote side has not produced. *)
Inductive outcome (A : Type) : Type :=
| Return (a : A)
| Raise (e : exn)
| Blocked.
Arguments Return {A} a.
Arguments Raise {A} e.
Arguments Blocked {A}.

Record Session := {
  session_headers : dict string;
  session_cookies : dict string
}.

Record Response := {
  status_code : Z;
  text : string;
  json_body : option value;    (* [resp.json()]; [None] when it raises ValueError *)
  cookies : dict string        (* cookies set by this response *)
}.

Inductive http_method := GET | POST.

Record Request := {
  req_method : http_method;
  req_url : string;
  req_headers : dict string;
  req_json : option value;
  req_proxy : option string;
  req_impersonate : string;
  req_verify : option bool;
  req_session : Session        (* session headers and cookie jar the request is sent with *)
}.

Inductive event :=
| EvRequest (r : Request)
| EvSleep (seconds : N).

Record world := {
  session : Session;
  remote : list Response;
  trace : list event
}.

Definition M (A : Type) := world -> outcome A * world.

Definition ret {A} (a : A) : M A := fun w => (Return a, w).
Definition raise {A} (e : exn) : M A := fun w => (Raise e, w).
Definition bind {A B} (m : M A) (k : A -> M B) : M B :=
  fun w =>
    match m w with
    | (Return a, w') => k a w'
    | (Raise e, w') => (Raise e, w')
    | (Blocked, w') => (Blocked, w')
    end.

Notation "x <- m ;; k" := (bind m (fun x => k))
  (at level 61, m at next level, right associativity).
Notation "m ;;; k" := (bind m (fun _ => k))
  (at level 61, right associativity).

Definition emit (e : event) : M unit :=
  fun w => (Return tt,
            {| session := session w; remote := remote w; trace := trace w ++ [e] |}).

(** [time.sleep(interval)] *)
Definition sleep (interval : N) : M unit := emit (EvSleep interval).

(** [x.get(k)] on an arbitrary value: only a dict has the method *)
Definition attr_get (x : value) (k : string) : M value :=
  match x with
  | VDict d => ret (py_get d k)
  | _ => raise AttributeError
  end.

(** The session sends the request; the response's cookies enter the jar. *)
Definition session_request (m : http_method) (url : string) (hdrs : dict string)
    (js : option value) (proxy : option string) (imp : string)
    (verify : option bool) : M Response :=
  fun w =>
    let rq := {| req_method := m; req_url := url; req_headers := hdrs;
                 req_json := js; req_proxy := proxy; req_impersonate := imp;
                 req_verify := verify; req_session := session w |} in
    match remote w with
    | [] =>
        (Blocked, {| session := session w; remote := [];
                     trace := trace w ++ [EvRequest rq] |})
    | r :: rs =>
        (Return r,
         {| session := {| session_headers := session_headers (session w);
                          session_cookies :=
                            dict_update (session_cookies (session w)) (cookies r) |};
            remote := rs;
            trace := trace w ++ [EvRequest rq] |})
    end.

(** [session.headers.clear()] *)
Definition session_headers_clear : M unit :=
  fun w => (Return tt,
            {| session := {| session_headers := [];
                             session_cookies := session_cookies (session w) |};
               remote := remote w; trace := trace w |}).

Definition get_session : M Session := fun w => (Return (session w), w).

(** [if proxy:] *)
Definition proxy_arg (proxy : option string) : option string :=
  match proxy with
  | Some p => if String.eqb p EmptyString then None else Some p
  | None => None
  end.

(** ** client.py *)

Module Client.

Record t := {
  api_key : string;
  base_url : string;
  impersonate : string
}.

Definition is_space (c : ascii) : bool :=
  let n := N_of_ascii c in
  ((9 <=? n) && (n <=? 13) || (28 <=? n) && (n <=? 32))%N.

Definition byte_is (c : ascii) (n : N) : bool := N.eqb (N_of_ascii c) n.

(** [not s.strip()]: every character is white space (Unicode white space
    in its UTF-8 form) *)
Fixpoint blank (s : string) : bool :=
  match s with
  | EmptyString => true
  | String c r =>
      if is_space c then blank r
      else
        match r with
        | String d r' =>
            if byte_is c 194 && (byte_is d 133 || byte_is d 160) then blank r'
            else
              match r' with
              | String e r'' =>
                  let n := N_of_ascii e in
                  if (byte_is c 225 && byte_is d 154 && byte_is e 128)
                     || (byte_is c 226 && byte_is d 128 &&
                         ((128 <=? n) && (n <=? 138) || (n =? 168) || (n =? 169)
                          || (n =? 175))%N)
                     || (byte_is c 226 && byte_is d 129 && byte_is e 159)
                     || (byte_is c 227 && byte_is d 128 && byte_is e 128)
                  then blank r''
                  else false
              | EmptyString => false
              end
        | EmptyString => false
        end
  end.

(** [not api_key or not api_key.strip()] *)
Definition key_missing (k : string) : bool := String.eqb k EmptyString || blank k.

Definition __init__ (api_key base_url impersonate : string) : outcome t :=
  if key_missing api_key then
    Raise (MissingAPIKeyError "API key is required. Pass it when creating the client.")
  else
    Return {| api_key := api_key; base_url := base_url; impersonate := impersonate |}.

Section WithRuntime.
Context {RT : Runtime}.

Definition _post (self : t) (url : string) (payload : dict value)
    (proxy : option string) : M value :=
  if key_missing (api_key self) then
    raise (MissingAPIKeyError "API key is required")
  else
    let body := dict_update [("api_key", VStr (api_key self))] payload in
    resp <- session_request POST url [] (Some (VDict body)) (proxy_arg proxy)
              (impersonate self) None ;;
    match json_body resp with
    | None =>
        raise (APIError (VStr ("Invalid response from API ("
                                 ++ str_of_Z (status_code resp) ++ ")")))
    | Some data =>
        if (400 <=? status_code resp)%Z then
          e1 <- attr_get data "error_description" ;;
          if truthy e1 then raise (APIError e1)
          else
            e2 <- attr_get data "error" ;;
            raise (APIError (py_or e2 (VStr "Request failed")))
        else ret data
    end.

(** [get(url, proxy, headers, **kwargs)]; of the keyword arguments the
    callers pass [verify] and [impersonate], which replaces the client's *)
Definition get (self : t) (url : string) (proxy : option string)
    (headers : dict string) (verify : option bool) (imp : option string)
    : M Response :=
  session_request GET url headers None (proxy_arg proxy)
    (match imp with Some i => i | None => impersonate self end) verify.

(** [post(url, proxy, headers, data, json, **kwargs)]; no caller passes
    [data].  [if json:] drops a body that is empty. *)
Definition json_arg (j : option value) : option value :=
  match j with
  | Some v => if truthy v then Some v else None
  | None => None
  end.

Definition post (self : t) (url : string) (proxy : option string)
    (headers : dict string) (json : option value) (verify : option bool)
    (imp : option string) : M Response :=
  session_request POST url headers (json_arg json) (proxy_arg proxy)
    (match imp with Some i => i | None => impersonate self end) verify.
End WithRuntime.

End Client.

(** ** tasks.py *)

Module Tasks.

Definition create_url := "https://salamoonder.com/api/createTask".
Definition get_url := "https://salamoonder.com/api/getTaskResult".

(** [task[k] = kwargs.get(src)] *)
Definition put (k src : string) (kwargs task : dict value) : dict value :=
  dict_set k (py_get kwargs src) task.

(** [if src in kwargs: task[k] = kwargs.get(src)] *)
Definition put_if (k src : string) (kwargs task : dict value) : dict value :=
  if dict_in src kwargs then dict_set k (py_get kwargs src) task else task.

(** The [task] dictionary [createTask] builds before it posts it. *)
Definition createTask_task (task_type : string) (kwargs : dict value)
    : dict value :=
  let task := [("type", VStr task_type)] in
  if String.eqb task_type "KasadaCaptchaSolver" then
    put "cdOnly" "cd_only" kwargs (put "pjs" "pjs_url" kwargs task)
  else if String.eqb task_type "Twitch_PublicIntegrity" then
    put_if "client_id" "client_id" kwargs
      (put_if "device_id" "device_id" kwargs
         (put "proxy" "proxy" kwargs (put "access_token" "access_token" kwargs task)))
  else if String.eqb task_type "IncapsulaReese84Solver" then
    put_if "user_agent" "user_agent" kwargs
      (put "submit_payload" "submit_payload" kwargs
         (put "website" "website" kwargs
            (dict_set "type" (VStr "IncapsulaReese84Solver") task)))
  else if String.eqb task_type "IncapsulaUTMVCSolver" then
    put_if "user_agent" "user_agent" kwargs
      (put "website" "website" kwargs
         (dict_set "type" (VStr "IncapsulaUTMVCSolver") task))
  else if String.eqb task_type "AkamaiWebSensorSolver" then
    put_if "user_agent" "user_agent" kwargs
      (put "data" "data" kwargs
         (put "count" "count" kwargs
            (put "sensor_url" "sensor_url" kwargs
               (put "script" "script" kwargs
                  (put "bmsz" "bmsz" kwargs
                     (put "abck" "abck" kwargs
                        (put "url" "url" kwargs
                           (dict_set "type" (VStr "AkamaiWebSensorSolver") task))))))))
  else if String.eqb task_type "AkamaiSBSDSolver" then
    put_if "user_agent" "user_agent" kwargs
      (put "script" "script" kwargs
         (put "sbsd_url" "sbsd_url" kwargs
            (put "cookie" "cookie" kwargs
               (put "url" "url" kwargs
                  (dict_set "type" (VStr "AkamaiSBSDSolver") task)))))
  else if String.eqb task_type "DataDomeSliderSolver" then
    put "country_code" "country_code" kwargs
      (put_if "user_agent" "user_agent" kwargs
         (put "captcha_url" "captcha_url" kwargs
            (dict_set "type" (VStr "DataDomeSliderSolver") task)))
  else if String.eqb task_type "DataDomeInterstitialSolver" then
    put "country_code" "country_code" kwargs
      (put_if "user_agent" "user_agent" kwargs
         (put "captcha_url" "captcha_url" kwargs
            (dict_set "type" (VStr "DataDomeInterstitialSolver") task)))
  else task.

Section WithRuntime.
Context {RT : Runtime}.

Definition createTask (client : Client.t) (task_type : string)
    (kwargs : dict value) : M value :=
  let task := createTask_task task_type kwargs in
  data <- Client._post client create_url [("task", VDict task)] None ;;
  task_id <- attr_get data "taskId" ;;
  ret task_id.

(** The [while True] loop; [fuel] bounds the iterations and is chosen by
    [getTaskResult] so that it is never used up ([getTaskResult_fuel]
    below): an iteration reads one scripted response. *)
Fixpoint getTaskResult_loop (fuel : nat) (client : Client.t)
    (task_id : value) (interval : N) : M value :=
  match fuel with
  | O => fun w => (Blocked, w)
  | S fuel' =>
      data <- Client._post client get_url [("taskId", task_id)] None ;;
      status <- attr_get data "status" ;;
      if py_eq_str status "PENDING" then
        sleep interval ;;;
        getTaskResult_loop fuel' client task_id interval
      else if py_eq_str status "ready" then
        attr_get data "solution"
      else
        raise (APIError (VStr ("Unexpected task status: " ++ py_str status)))
  end.

Definition getTaskResult (client : Client.t) (task_id : value)
    (interval : N) : M value :=
  fun w => getTaskResult_loop (S (List.length (remote w))) client task_id interval w.
End WithRuntime.

End Tasks.

(** ** Text primitives *)

Definition dq : string := String (ascii_of_nat 34) EmptyString.   (* the double quote *)
Definition sq : string := String (ascii_of_nat 39) EmptyString.   (* the single quote *)
Definition nl : ascii := ascii_of_nat 10.

Definition code (c : ascii) : N := N_of_ascii c.

Definition between (lo hi : N) (c : ascii) : bool :=
  ((lo <=? code c) && (code c <=? hi))%N.

Definition is_digit (c : ascii) : bool := between 48 57 c.
Definition is_upper (c : ascii) : bool := between 65 90 c.
Definition is_lower (c : ascii) : bool := between 97 122 c.
Definition is_alnum (c : ascii) : bool := is_digit c || is_upper c || is_lower c.
Definition is_char (n : N) (c : ascii) : bool := N.eqb (code c) n.
Definition is_quote (c : ascii) : bool := is_char 34 c || is_char 39 c.

Definition lower (c : ascii) : ascii :=
  if is_upper c then ascii_of_N (code c + 32) else c.

Fixpoint drop (n : nat) (s : string) : string :=
  match n, s with
  | O, _ => s
  | S n', String _ s' => drop n' s'
  | S _, EmptyString => EmptyString
  end.

Fixpoint take_while (p : ascii -> bool) (s : string) : string :=
  match s with
  | String c s' => if p c then String c (take_while p s') else EmptyString
  | EmptyString => EmptyString
  end.

Fixpoint drop_while (p : ascii -> bool) (s : string) : string :=
  match s with
  | String c s' => if p c then drop_while p s' else s
  | EmptyString => EmptyString
  end.

(** [s.startswith(p)] *)
Fixpoint starts_with (p s : string) : bool :=
  match p, s with
  | EmptyString, _ => true
  | String a p', String b s' => Ascii.eqb a b && starts_with p' s'
  | String _ _, EmptyString => false
  end.

(** [p], a pattern of ASCII characters, at the head of [s] under
    [re.IGNORECASE]: the text after the match.  Besides the two cases of a
    letter, the pattern letters i, k and s match the code points U+0130 and
    U+0131, U+212A, and U+017F. *)
Definition folds_to (a : ascii) (s : string) : option string :=
  match s with
  | String b (String c r) =>
      if is_char 105 (lower a) && is_char 196 b && (is_char 176 c || is_char 177 c)
      then Some r
      else if is_char 115 (lower a) && is_char 197 b && is_char 191 c
      then Some r
      else
        match r with
        | String d r' =>
            if is_char 107 (lower a) && is_char 226 b && is_char 132 c && is_char 170 d
            then Some r' else None
        | EmptyString => None
        end
  | _ => None
  end.

Fixpoint match_ci (p s : string) : option string :=
  match p with
  | EmptyString => Some s
  | String a p' =>
      match s with
      | String b s' =>
          if Ascii.eqb (lower a) (lower b) then match_ci p' s'
          else match folds_to a s with
               | Some r => match_ci p' r
               | None => None
               end
      | EmptyString => None
      end
  end.

(** The leftmost suffix of [s] on which [f] answers: how [re.search] tries
    the start positions from left to right. *)
Fixpoint search (f : string -> option string) (s : string) : option string :=
  match f s with
  | Some r => Some r
  | None => match s with
            | String _ s' => search f s'
            | EmptyString => None
            end
  end.

(** [p] occurs in [s] under [re.IGNORECASE] with at least one character
    after it *)
Fixpoint occurs_ci_before_more (p s : string) : bool :=
  match match_ci p s with
  | Some (String _ _) => true
  | _ => match s with
         | String _ s' => occurs_ci_before_more p s'
         | EmptyString => false
         end
  end.

(** ** utils/akamai.py *)

Module Akamai.

(** [re.search(r'Chrome/(\d+)', user_agent)], group 1; [\d] on ASCII
    digits *)
Definition chrome_at (s : string) : option string :=
  if starts_with "Chrome/" s then
    let ds := take_while is_digit (drop 7 s) in
    if String.eqb ds EmptyString then None else Some ds
  else None.

Definition _extract_sec_ch_ua (user_agent : string) : string :=
  match search chrome_at user_agent with
  | Some version =>
      dq ++ "Chromium" ++ dq ++ ";v=" ++ dq ++ version ++ dq ++ ", "
         ++ dq ++ "Google Chrome" ++ dq ++ ";v=" ++ dq ++ version ++ dq ++ ", "
         ++ dq ++ "Not?A_Brand" ++ dq ++ ";v=" ++ dq ++ "99" ++ dq
  | None =>
      dq ++ "Chromium" ++ dq ++ ";v=" ++ dq ++ "122" ++ dq ++ ", "
         ++ dq ++ "Google Chrome" ++ dq ++ ";v=" ++ dq ++ "122" ++ dq ++ ", "
         ++ dq ++ "Not?A_Brand" ++ dq ++ ";v=" ++ dq ++ "99" ++ dq
  end.

(** The navigation headers both extractors start from; [accept] differs. *)
Definition navigation_headers (sec_user_agent user_agent accept : string)
    : dict string :=
  [("sec-ch-ua", sec_user_agent);
   ("sec-ch-ua-mobile", "?0");
   ("sec-ch-ua-platform", (dq ++ "Windows" ++ dq)%string);
   ("upgrade-insecure-requests", "1");
   ("user-agent", user_agent);
   ("accept", accept);
   ("sec-fetch-site", "none");
   ("sec-fetch-mode", "navigate");
   ("sec-fetch-user", "?1");
   ("sec-fetch-dest", "document");
   ("accept-language", "en-US,en;q=0.9");
   ("priority", "u=0, i")].

(** The assignments and [del]s that turn them into script-fetch headers. *)
Definition script_headers (headers : dict string) (website_url base_url : string)
    : dict string :=
  dict_del "priority"
    (dict_del "sec-fetch-user"
       (dict_del "upgrade-insecure-requests"
          (dict_set "sec-fetch-mode" "no-cors"
             (dict_set "sec-fetch-dest" "script"
                (dict_set "sec-fetch-site" "same-origin"
                   (dict_set "accept" "*/*"
                      (dict_set "origin" base_url
                         (dict_set "referer" website_url headers)))))))).

(** [if not x] on a value that is a [str] or [None] *)
Definition nonempty (c : option string) : option string :=
  match c with
  | Some v => if String.eqb v EmptyString then None else Some v
  | None => None
  end.

Section WithRuntime.
Context {RT : Runtime}.

(** [f"{parsed.scheme}://{parsed.netloc}"] *)
Definition origin_of (url : string) : string :=
  scheme (urlparse url) ++ "://" ++ netloc (urlparse url).
End WithRuntime.

End Akamai.

Module AkamaiWeb.
Import Akamai.

(** [((/[0-9A-Za-z\-\_]+)+)]: the characters of a path *)
Definition is_word (c : ascii) : bool :=
  is_alnum c || is_char 45 c || is_char 95 c.
Definition is_path_char (c : ascii) : bool := is_char 47 c || is_word c.

(** A run of path characters is a match of the group when it is made of
    one or more segments, a slash and then at least one word character
    each. *)
Fixpoint segments (s : string) : bool :=
  match s with
  | EmptyString => true
  | String c s' =>
      if is_char 47 c then
        match s' with
        | String d _ => is_word d && segments s'
        | EmptyString => false
        end
      else is_word c && segments s'
  end.

Definition path_ok (s : string) : bool :=
  match s with
  | String c _ => is_char 47 c && segments s
  | EmptyString => false
  end.

(** The tail of the pattern at the head of [s]: the attribute [src], its
    opening quote, the group, the closing quote and the end of the tag.
    The group is followed by a double quote, which is no path character:
    it is the whole run of path characters. *)
Definition src_here (s : string) : option string :=
  if starts_with ("src=" ++ dq) s then
    let t := drop 5 s in
    let run := take_while is_path_char t in
    if path_ok run && starts_with (dq ++ ">") (drop (String.length run) t)
    then Some run else None
  else None.

(** The lazy [.*?] before it tries the nearest position first and never
    crosses a newline. *)
Fixpoint lazy_src (s : string) : option string :=
  match src_here s with
  | Some r => Some r
  | None =>
      match s with
      | String c s' => if Ascii.eqb c nl then None else lazy_src s'
      | EmptyString => None
      end
  end.

Definition script_tag : string :=
  "<script type=" ++ dq ++ "text/javascript" ++ dq.

Definition script_at (s : string) : option string :=
  if starts_with script_tag s
  then lazy_src (drop (String.length script_tag) s)
  else None.

Section WithRuntime.
Context {RT : Runtime}.

(** [(base_url, akamai_url)], or [None] for [(None, None)] *)
Definition _get_akamai_url (html website_url : string)
    : option (string * string) :=
  match search script_at html with
  | None => None
  | Some akamai_url_path =>
      if String.eqb akamai_url_path EmptyString then None
      else
        let base_url := origin_of website_url in
        Some (base_url, urljoin base_url akamai_url_path)
  end.

Definition fetch_and_extract (client : Client.t) (website_url user_agent : string)
    (proxy : option string) : M value :=
  session_headers_clear ;;;
  let sec_user_agent := _extract_sec_ch_ua user_agent in
  let headers :=
    navigation_headers sec_user_agent user_agent
      "text/html,application/xhtml+xml,application/xml;q=0.9,image/avif,image/webp,image/apng,*/*;q=0.8,application/signed-exchange;v=b3;q=0.7" in
  resp <- Client.get client website_url proxy headers (Some false)
            (Some "chrome133a") ;;
  if negb (status_code resp =? 200)%Z then ret VNone
  else
    match _get_akamai_url (text resp) website_url with
    | None => ret VNone
    | Some (base_url, akamai_url) =>
        if String.eqb akamai_url EmptyString then ret VNone
        else
          match nonempty (dict_get "_abck" (cookies resp)) with
          | None => ret VNone
          | Some abck =>
              let headers := script_headers headers website_url base_url in
              script_resp <- Client.get client akamai_url proxy headers
                               (Some false) (Some "chrome133a") ;;
              if negb (status_code script_resp =? 200)%Z then ret VNone
              else
                sess <- get_session ;;
                match nonempty (dict_get "bm_sz" (session_cookies sess)) with
                | None => ret VNone
                | Some bm_sz =>
                    ret (VDict [("base_url", VStr base_url);
                                ("akamai_url", VStr akamai_url);
                                ("script_data", VStr (text script_resp));
                                ("abck", VStr abck);
                                ("bm_sz", VStr bm_sz)])
                end
          end
    end.

(** The headers [post_sensor] sends *)
Definition sensor_headers (sec_user_agent user_agent base_url website_url : string)
    : dict string :=
  [("sec-ch-ua", sec_user_agent);
   ("sec-ch-ua-mobile", "?0");
   ("sec-ch-ua-platform", (dq ++ "Windows" ++ dq)%string);
   ("user-agent", user_agent);
   ("content-type", "application/json");
   ("accept", "*/*");
   ("origin", base_url);
   ("referer", website_url);
   ("sec-fetch-site", "same-origin");
   ("sec-fetch-mode", "cors");
   ("sec-fetch-dest", "empty");
   ("accept-language", "en-US,en;q=0.9")].

(** [a or b] for two results of [cookies.get] *)
Definition cookie_or (a b : option string) : value :=
  match nonempty a with
  | Some v => VStr v
  | None => match b with Some v => VStr v | None => VNone end
  end.

(** [dict(session.cookies)] as a value *)
Definition cookies_value (jar : dict string) : value :=
  VDict (map (fun kv => (fst kv, VStr (snd kv))) jar).

(** When the status is not 201 the body is read inside a [try] whose
    handler passes; every path of that branch returns [None]. *)
Definition post_sensor (client : Client.t) (akamai_url : string)
    (sensor_data : value) (user_agent website_url : string)
    (proxy : option string) : M value :=
  let sec_user_agent := _extract_sec_ch_ua user_agent in
  let base_url := origin_of website_url in
  let headers := sensor_headers sec_user_agent user_agent base_url website_url in
  let payload := VDict [("sensor_data", sensor_data)] in
  resp <- Client.post client akamai_url proxy headers (Some payload)
            (Some false) (Some "chrome133a") ;;
  if negb (status_code resp =? 201)%Z then
    match json_body resp with
    | Some (VDict json_resp) =>
        if py_eq_str (py_get json_resp "success") "false" then ret VNone
        else ret VNone
    | _ => ret VNone
    end
  else
    match nonempty (dict_get "_abck" (cookies resp)) with
    | None => ret VNone
    | Some abck =>
        sess <- get_session ;;
        let bm_sz := cookie_or (dict_get "bm_sz" (cookies resp))
                       (dict_get "bm_sz" (session_cookies sess)) in
        ret (VDict [("_abck", VStr abck);
                    ("bm_sz", bm_sz);
                    ("cookies", cookies_value (session_cookies sess))])
    end.
End WithRuntime.

End AkamaiWeb.

(** ** base64 and UTF-8, as [post_sbsd] uses them *)

Module Base64.

(** The value of a character of the alphabet *)
Definition sextet (c : ascii) : option N :=
  if is_upper c then Some (code c - 65)%N
  else if is_lower c then Some (code c - 97 + 26)%N
  else if is_digit c then Some (code c - 48 + 52)%N
  else if is_char 43 c then Some 62%N
  else if is_char 47 c then Some 63%N
  else None.

Definition byte (n : N) : ascii := ascii_of_N (n mod 256).

(** [binascii.a2b_base64] without strict mode: characters outside the
    alphabet are skipped, a pad that completes a quad ends the input, and
    a quad left open at the end is an error ([None]).  [quad_pos] is the
    position in the current quad, [leftchar] the bits not yet written,
    [pads] the pads seen since the last character of the alphabet. *)
Fixpoint a2b (s : string) (quad_pos : nat) (leftchar : N) (pads : nat)
    : option string :=
  match s with
  | EmptyString =>
      match quad_pos with O => Some EmptyString | _ => None end
  | String c s' =>
      if is_char 61 c then
        if (2 <=? quad_pos)%nat then
          if (4 <=? quad_pos + S pads)%nat then Some EmptyString
          else a2b s' quad_pos leftchar (S pads)
        else a2b s' quad_pos leftchar pads
      else
        match sextet c with
        | None => a2b s' quad_pos leftchar pads
        | Some v =>
            match quad_pos with
            | 0%nat => a2b s' 1%nat v 0%nat
            | 1%nat =>
                option_map (String (byte (N.lor (N.shiftl leftchar 2) (N.shiftr v 4))))
                  (a2b s' 2%nat (N.land v 15) 0%nat)
            | 2%nat =>
                option_map (String (byte (N.lor (N.shiftl leftchar 4) (N.shiftr v 2))))
                  (a2b s' 3%nat (N.land v 3) 0%nat)
            | _ =>
                option_map (String (byte (N.lor (N.shiftl leftchar 6) v)))
                  (a2b s' 0%nat 0%N 0%nat)
            end
        end
  end.

Definition is_ascii (c : ascii) : bool := (code c <? 128)%N.

Fixpoint all_ascii (s : string) : bool :=
  match s with
  | EmptyString => true
  | String c s' => is_ascii c && all_ascii s'
  end.

(** [base64.b64decode(s)] for a [str]: the text is encoded as ASCII first *)
Definition b64decode (s : string) : option string :=
  if all_ascii s then a2b s 0%nat 0%N 0%nat else None.

(** [bytes.decode("utf-8")]: the well-formed byte sequences *)
Definition cont (c : ascii) : bool := between 128 191 c.

Fixpoint utf8_valid (s : string) : bool :=
  match s with
  | EmptyString => true
  | String a s1 =>
      if is_ascii a then utf8_valid s1
      else
        match s1 with
        | EmptyString => false
        | String b s2 =>
            if between 194 223 a then cont b && utf8_valid s2
            else
              match s2 with
              | EmptyString => false
              | String c s3 =>
                  if between 224 239 a then
                    (if is_char 224 a then between 160 191 b
                     else if is_char 237 a then between 128 159 b
                     else cont b)
                    && cont c && utf8_valid s3
                  else
                    match s3 with
                    | EmptyString => false
                    | String d s4 =>
                        between 240 244 a
                        && (if is_char 240 a then between 144 191 b
                            else if is_char 244 a then between 128 143 b
                            else cont b)
                        && cont c && cont d && utf8_valid s4
                    end
              end
        end
  end.

(** [base64.b64decode(s).decode("utf-8")]; [None] when either step raises *)
Definition decode_text (s : string) : option string :=
  match b64decode s with
  | Some bytes => if utf8_valid bytes then Some bytes else None
  | None => None
  end.

End Base64.

Module AkamaiSBSD.
Import Akamai.

Definition not_quote (c : ascii) : bool := negb (is_quote c).

(** The tail of the pattern at the head of [s]: [src=], a quote, the group
    and a quote.  The group holds no quote and a quote follows it, so it
    is the run up to the next quote; it matches when the path segment
    occurs in it with at least one character after it. *)
Definition src_here (s : string) : option string :=
  match match_ci "src=" s with
  | Some (String q t) =>
      if is_quote q then
        let run := take_while not_quote t in
        match drop (String.length run) t with
        | String _ _ =>
            if occurs_ci_before_more "/.well-known/sbsd/" run then Some run else None
        | EmptyString => None
        end
      else None
  | _ => None
  end.

(** The greedy [[^>]+] before it: of the positions it can reach, the last
    one where the tail matches. *)
Fixpoint greedy_src (s : string) : option string :=
  match s with
  | EmptyString => None
  | String c s' =>
      match (if is_char 62 c then None else greedy_src s') with
      | Some r => Some r
      | None => src_here s
      end
  end.

Definition script_at (s : string) : option string :=
  match match_ci "<script" s with
  | Some (String c s') => if is_char 62 c then None else greedy_src s'
  | _ => None
  end.

Section WithRuntime.
Context {RT : Runtime}.

Definition _get_sbsd_url (html base_url : string) : option string :=
  match search script_at html with
  | None => None
  | Some m => Some (urljoin base_url m)
  end.

Definition fetch_and_extract (client : Client.t) (website_url user_agent : string)
    (proxy : option string) : M value :=
  session_headers_clear ;;;
  let sec_user_agent := _extract_sec_ch_ua user_agent in
  let headers :=
    navigation_headers sec_user_agent user_agent
      "text/html,application/xhtml+xml,application/xml;q=0.9,*/*;q=0.8" in
  resp <- Client.get client website_url proxy headers (Some false)
            (Some "chrome133a") ;;
  if negb (status_code resp =? 200)%Z then ret VNone
  else
    let base_url := origin_of website_url in
    match nonempty (_get_sbsd_url (text resp) base_url) with
    | None => ret VNone
    | Some sbsd_url =>
        let headers := script_headers headers website_url base_url in
        script_resp <- Client.get client sbsd_url proxy headers
                         (Some false) (Some "chrome133a") ;;
        if negb (status_code script_resp =? 200)%Z then ret VNone
        else
          sess <- get_session ;;
          let cookies := session_cookies sess in
          let bm_so := dict_get "bm_so" cookies in
          let sbsd_o := dict_get "sbsd_o" cookies in
          let result cookie_name cookie_value :=
            ret (VDict [("base_url", VStr base_url);
                        ("sbsd_url", VStr sbsd_url);
                        ("script_data", VStr (text script_resp));
                        ("cookie_name", VStr cookie_name);
                        ("cookie_value", VStr cookie_value)]) in
          match nonempty bm_so with
          | Some v => result "bm_so" v
          | None =>
              match nonempty sbsd_o with
              | Some v => result "sbsd_o" v
              | None => ret VNone
              end
          end
    end.

Definition post_headers (sec_ch_ua user_agent base_url website_url : string)
    : dict string :=
  [("sec-ch-ua", sec_ch_ua);
   ("sec-ch-ua-mobile", "?0");
   ("sec-ch-ua-platform", (dq ++ "Windows" ++ dq)%string);
   ("user-agent", user_agent);
   ("content-type", "application/json");
   ("accept", "*/*");
   ("origin", base_url);
   ("referer", website_url);
   ("sec-fetch-site", "same-origin");
   ("sec-fetch-mode", "cors");
   ("sec-fetch-dest", "empty");
   ("accept-language", "en-US,en;q=0.9");
   ("priority", "u=1, i")].

Definition post_sbsd (client : Client.t)
    (sbsd_payload post_url user_agent website_url : string)
    (proxy : option string) : M value :=
  match Base64.decode_text sbsd_payload with
  | None => ret VNone
  | Some decoded =>
      let body := VDict [("body", VStr decoded)] in
      let sec_ch_ua := _extract_sec_ch_ua user_agent in
      let base_url := origin_of website_url in
      let headers := post_headers sec_ch_ua user_agent base_url website_url in
      let parsed_post := urlparse post_url in
      let post_url :=
        (scheme parsed_post ++ "://" ++ netloc parsed_post ++ path parsed_post)%string in
      resp <- Client.post client post_url proxy headers (Some body)
                (Some false) (Some "chrome133a") ;;
      if negb (status_code resp =? 200)%Z then ret VNone
      else
        sess <- get_session ;;
        let cookies := session_cookies sess in
        match cookies with
        | [] => ret VNone
        | _ => ret (VDict [("cookies",
                            VDict (map (fun kv => (fst kv, VStr (snd kv))) cookies))])
        end
  end.
End WithRuntime.

End AkamaiSBSD.

(** ** [str.split], [str.replace], [json.loads], [urlencode] *)

(** Does [p] occur in [s] *)
Fixpoint occurs (p s : string) : bool :=
  starts_with p s
  || match s with
     | String _ s' => occurs p s'
     | EmptyString => false
     end.

(** [s.split(sep)] for a separator that is not empty: the pieces between
    the occurrences of [sep], found from left to right without overlap.
    [skip] counts the characters of a separator still to be passed over. *)
Fixpoint split_from (sep s : string) (skip : nat) : list string :=
  match s with
  | EmptyString => [EmptyString]
  | String c s' =>
      match skip with
      | S k => split_from sep s' k
      | O =>
          if starts_with sep s then
            EmptyString :: split_from sep s' (String.length sep - 1)
          else
            match split_from sep s' 0 with
            | piece :: pieces => String c piece :: pieces
            | [] => [String c EmptyString]
            end
      end
  end.

Definition py_split (sep s : string) : list string := split_from sep s 0.

(** [s.replace(a, b)] for single characters *)
Fixpoint replace_char (a b : ascii) (s : string) : string :=
  match s with
  | EmptyString => EmptyString
  | String c s' => String (if Ascii.eqb c a then b else c) (replace_char a b s')
  end.

Module Json.

Definition is_ws (c : ascii) : bool :=
  is_char 32 c || is_char 9 c || is_char 10 c || is_char 13 c.

Definition skip_ws (s : string) : string := drop_while is_ws s.

Definition hexval (c : ascii) : option N :=
  if is_digit c then Some (code c - 48)%N
  else if between 97 102 c then Some (code c - 87)%N
  else if between 65 70 c then Some (code c - 55)%N
  else None.

Definition hex4 (a b c d : ascii) : option N :=
  match hexval a, hexval b, hexval c, hexval d with
  | Some x, Some y, Some z, Some w => Some (((x * 16 + y) * 16 + z) * 16 + w)%N
  | _, _, _, _ => None
  end.

Definition chr (n : N) : string := String (ascii_of_N n) EmptyString.

(** UTF-8 of a code point; a lone surrogate keeps its three-byte form *)
Definition utf8 (cp : N) : string :=
  (if cp <? 128 then chr cp
   else if cp <? 2048 then
     chr (192 + cp / 64) ++ chr (128 + cp mod 64)
   else if cp <? 65536 then
     chr (224 + cp / 4096) ++ chr (128 + (cp / 64) mod 64) ++ chr (128 + cp mod 64)
   else
     chr (240 + cp / 262144) ++ chr (128 + (cp / 4096) mod 64)
       ++ chr (128 + (cp / 64) mod 64) ++ chr (128 + cp mod 64))%N%string.

Definition is_high (u : N) : bool := ((55296 <=? u) && (u <=? 56319))%N.
Definition is_low (u : N) : bool := ((56320 <=? u) && (u <=? 57343))%N.
Definition join (hi lo : N) : N := (65536 + (hi - 55296) * 1024 + (lo - 56320))%N.

(** The character a one-letter escape stands for *)
Definition escape (c : ascii) : option ascii :=
  if is_char 34 c || is_char 92 c || is_char 47 c then Some c
  else if is_char 98 c then Some (ascii_of_N 8)
  else if is_char 102 c then Some (ascii_of_N 12)
  else if is_char 110 c then Some (ascii_of_N 10)
  else if is_char 114 c then Some (ascii_of_N 13)
  else if is_char 116 c then Some (ascii_of_N 9)
  else None.

Definition prepend (p : string) (r : option (string * string))
    : option (string * string) :=
  match r with
  | Some (str, rest) => Some ((p ++ str)%string, rest)
  | None => None
  end.

(** The scanner of string literals, entered after the opening quote:
    the decoded text and what follows the closing quote.  Control
    characters are refused, as the decoder is strict by default. *)
Fixpoint scan_string (s : string) : option (string * string) :=
  match s with
  | EmptyString => None
  | String c s1 =>
      if is_char 34 c then Some (EmptyString, s1)
      else if is_char 92 c then
        match s1 with
        | EmptyString => None
        | String e s2 =>
            if is_char 117 e then
              match s2 with
              | String h1 (String h2 (String h3 (String h4 s6))) =>
                  match hex4 h1 h2 h3 h4 with
                  | None => None
                  | Some u =>
                      match s6 with
                      | String b (String v (String g1 (String g2 (String g3 (String g4 s12))))) =>
                          match hex4 g1 g2 g3 g4 with
                          | Some lo =>
                              if is_high u && is_char 92 b && is_char 117 v && is_low lo
                              then prepend (utf8 (join u lo)) (scan_string s12)
                              else prepend (utf8 u) (scan_string s6)
                          | None => prepend (utf8 u) (scan_string s6)
                          end
                      | _ => prepend (utf8 u) (scan_string s6)
                      end
                  end
              | _ => None
              end
            else
              match escape e with
              | Some ch => prepend (String ch EmptyString) (scan_string s2)
              | None => None
              end
        end
      else if (code c <=? 31)%N then None
      else prepend (String c EmptyString) (scan_string s1)
  end.

Definition digits (s : string) : string := take_while is_digit s.

Definition after (p s : string) : string := drop (String.length p) s.

(** The integer part of a number: a zero, or digits that start with none *)
Definition int_part (s : string) : option string :=
  match s with
  | String c _ =>
      if is_char 48 c then Some "0"
      else if is_digit c then Some (digits s)
      else None
  | EmptyString => None
  end.

(** A fraction: a dot and at least one digit *)
Definition frac_part (s : string) : string :=
  match s with
  | String c s' =>
      if is_char 46 c && negb (String.eqb (digits s') EmptyString)
      then String c (digits s') else EmptyString
  | EmptyString => EmptyString
  end.

(** An exponent: e or E, an optional sign and at least one digit *)
Definition exp_part (s : string) : string :=
  match s with
  | String c s' =>
      if is_char 101 c || is_char 69 c then
        match s' with
        | String g s'' =>
            if is_char 43 g || is_char 45 g then
              if String.eqb (digits s'') EmptyString then EmptyString
              else String c (String g (digits s''))
            else if String.eqb (digits s') EmptyString then EmptyString
                 else String c (digits s')
        | EmptyString => EmptyString
        end
      else EmptyString
  | EmptyString => EmptyString
  end.

Fixpoint nat_of_digits (s : string) (acc : Z) : Z :=
  match s with
  | EmptyString => acc
  | String c s' => nat_of_digits s' (10 * acc + Z.of_N (code c - 48))%Z
  end.

(** The interpreter refuses to convert more digits than this to an [int]
    (its default setting). *)
Definition int_max_str_digits : nat := 4300.

(** A number at the head of [s]: an [int] when it has neither fraction
    nor exponent, a [float] otherwise *)
Definition scan_number (s : string) : option (value * string) :=
  let sign := if starts_with "-" s then "-" else EmptyString in
  let s1 := after sign s in
  match int_part s1 with
  | None => None
  | Some i =>
      let s2 := after i s1 in
      let f := frac_part s2 in
      let s3 := after f s2 in
      let e := exp_part s3 in
      let s4 := after e s3 in
      if String.eqb f EmptyString && String.eqb e EmptyString then
        if (int_max_str_digits <? String.length i)%nat then None
        else
          let n := nat_of_digits i 0 in
          Some (VInt (if String.eqb sign EmptyString then n else (- n)%Z), s4)
      else Some (VFloat (sign ++ i ++ f ++ e)%string, s4)
  end.

(** The constants, then numbers *)
Definition scan_atom (s : string) : option (value * string) :=
  if starts_with "null" s then Some (VNone, drop 4 s)
  else if starts_with "true" s then Some (VBool true, drop 4 s)
  else if starts_with "false" s then Some (VBool false, drop 5 s)
  else if starts_with "NaN" s then Some (VFloat "NaN", drop 3 s)
  else if starts_with "Infinity" s then Some (VFloat "Infinity", drop 8 s)
  else if starts_with "-Infinity" s then Some (VFloat "-Infinity", drop 9 s)
  else scan_number s.

(** The scanner of values.  [fuel] bounds the depth of the calls; twice
    the length of the text is enough ([scan_fuel] below), so [None] always
    stands for a text the decoder refuses. *)
Fixpoint scan_once (fuel : nat) (s : string) : option (value * string) :=
  match fuel with
  | O => None
  | S fuel' =>
      match s with
      | EmptyString => None
      | String c s' =>
          if is_char 34 c then
            match scan_string s' with
            | Some (str, rest) => Some (VStr str, rest)
            | None => None
            end
          else if is_char 123 c then
            match skip_ws s' with
            | String d rest =>
                if is_char 125 d then Some (VDict [], rest)
                else parse_object fuel' (skip_ws s') []
            | EmptyString => None
            end
          else if is_char 91 c then
            match skip_ws s' with
            | String d rest =>
                if is_char 93 d then Some (VList [], rest)
                else parse_array fuel' (skip_ws s') []
            | EmptyString => None
            end
          else scan_atom s
      end
  end

with parse_object (fuel : nat) (s : string) (acc : dict value)
    : option (value * string) :=
  match fuel with
  | O => None
  | S fuel' =>
      match s with
      | String q s1 =>
          if is_char 34 q then
            match scan_string s1 with
            | Some (key, r1) =>
                match skip_ws r1 with
                | String colon r2 =>
                    if is_char 58 colon then
                      match scan_once fuel' (skip_ws r2) with
                      | Some (v, r3) =>
                          let acc' := dict_set key v acc in
                          match skip_ws r3 with
                          | String d r4 =>
                              if is_char 125 d then Some (VDict acc', r4)
                              else if is_char 44 d
                                   then parse_object fuel' (skip_ws r4) acc'
                                   else None
                          | EmptyString => None
                          end
                      | None => None
                      end
                    else None
                | EmptyString => None
                end
            | None => None
            end
          else None
      | EmptyString => None
      end
  end

with parse_array (fuel : nat) (s : string) (acc : list value)
    : option (value * string) :=
  match fuel with
  | O => None
  | S fuel' =>
      match scan_once fuel' s with
      | Some (v, r1) =>
          match skip_ws r1 with
          | String d r2 =>
              if is_char 93 d then Some (VList (acc ++ [v]), r2)
              else if is_char 44 d
                   then parse_array fuel' (skip_ws r2) (acc ++ [v])
                   else None
          | EmptyString => None
          end
      | None => None
      end
  end.

(** [json.loads(s)]; [None] when it raises.  White space may surround the
    value and nothing else may follow it. *)
Definition loads (s : string) : option value :=
  match scan_once (2 * String.length s + 2) (skip_ws s) with
  | Some (v, rest) =>
      match skip_ws rest with
      | EmptyString => Some v
      | String _ _ => None
      end
  | None => None
  end.

End Json.

Module UrlEncode.

(** Characters [quote] never escapes *)
Definition always_safe (c : ascii) : bool :=
  is_alnum c || is_char 95 c || is_char 46 c || is_char 45 c || is_char 126 c.

Definition hexdigit (n : N) : ascii :=
  if (n <? 10)%N then ascii_of_N (48 + n) else ascii_of_N (55 + n).

Fixpoint quote_plus (s : string) : string :=
  match s with
  | EmptyString => EmptyString
  | String c s' =>
      if always_safe c then String c (quote_plus s')
      else if is_char 32 c then String (ascii_of_N 43) (quote_plus s')
      else String (ascii_of_N 37)
             (String (hexdigit (code c / 16))
                (String (hexdigit (code c mod 16)) (quote_plus s')))
  end.

(** The text holds a surrogate, which [str.encode] refuses: in the
    three-byte form, the byte 237 and then a byte from 160 on *)
Fixpoint has_surrogate (s : string) : bool :=
  match s with
  | String a ((String b _) as s') =>
      is_char 237 a && (160 <=? code b)%N || has_surrogate s'
  | _ => false
  end.

Fixpoint join_amp (l : list string) : string :=
  match l with
  | [] => EmptyString
  | [x] => x
  | x :: l' => (x ++ "&" ++ join_amp l')%string
  end.

Section WithRuntime.
Context {RT : Runtime}.

(** [urlencode(params)] for a dict with [str] keys; [None] when a text
    cannot be encoded *)
Definition urlencode (params : dict value) : option string :=
  if existsb (fun kv => has_surrogate (fst kv) || has_surrogate (py_str (snd kv)))
       params
  then None
  else Some (join_amp
               (map (fun kv => (quote_plus (fst kv) ++ "="
                                  ++ quote_plus (py_str (snd kv)))%string)
                  params)).
End WithRuntime.

End UrlEncode.

(** ** utils/datadome.py *)

Module Datadome.

Definition marker : string := "var dd=".
Definition closing : string := "</script>".

(** [html.split(marker)[1].split(closing)[0].replace(...)]; [None] when the
    index is out of range *)
Definition js_object (html : string) : option string :=
  match nth_error (py_split marker html) 1 with
  | None => None
  | Some part =>
      Some (replace_char (ascii_of_nat 39) (ascii_of_nat 34)
              (hd EmptyString (py_split closing part)))
  end.

(** The body of the [try]: [None] when any of its steps raises *)
Definition parse_object (html : string) : option value :=
  match js_object html with
  | None => None
  | Some text => Json.loads text
  end.

Section WithRuntime.
Context {RT : Runtime}.

Definition build_url (base : string) (params : dict value) : outcome value :=
  match UrlEncode.urlencode params with
  | Some query => Return (VStr (base ++ query))
  | None => Raise UnicodeEncodeError
  end.

Definition parse_slider_url (html datadome_cookie referer : string)
    : outcome value :=
  match parse_object html with
  | None => Raise (RuntimeError "Failed to parse object.")
  | Some (VDict parsed) =>
      if py_eq_str (py_get parsed "t") "bv" then Return VNone
      else
        let params :=
          [("initialCid", py_get parsed "cid");
           ("hash", py_get parsed "hsh");
           ("cid", VStr datadome_cookie);
           ("t", py_get parsed "t");
           ("referer", VStr referer);
           ("s", VStr (py_str (py_get parsed "s")));
           ("e", py_get parsed "e");
           ("dm", VStr "cd")] in
        build_url "https://geo.captcha-delivery.com/captcha/?" params
  | Some _ => Raise AttributeError
  end.

Definition parse_interstitial_url (html datadome_cookie referer : string)
    : outcome value :=
  match parse_object html with
  | None => Raise (RuntimeError "Failed to parse object.")
  | Some (VDict parsed) =>
      let params :=
        [("initialCid", py_get parsed "cid");
         ("hash", py_get parsed "hsh");
         ("cid", VStr datadome_cookie);
         ("referer", VStr referer);
         ("s", VStr (py_str (py_get parsed "s")));
         ("e", VStr (py_str (py_get parsed "e")));
         ("b", VStr (py_str (py_get parsed "b")));
         ("dm", VStr "cd")] in
      build_url "https://geo.captcha-delivery.com/interstitial/?" params
  | Some _ => Raise AttributeError
  end.
End WithRuntime.

End Datadome.

(** ** A runtime for examples

    Exact on what the examples below use: URLs of the form
    scheme://host/path?query#fragment, references that are absolute or start
    at the root, floats printed as they were written. *)

Module Plain.

Definition is_delim (c : ascii) : bool :=
  is_char 47 c || is_char 63 c || is_char 35 c.
Definition is_query_start (c : ascii) : bool := is_char 63 c || is_char 35 c.

(** The text before the first [://] and the text after it *)
Fixpoint cut_scheme (s : string) : option (string * string) :=
  if starts_with "://" s then Some (EmptyString, drop 3 s)
  else match s with
       | String c s' =>
           match cut_scheme s' with
           | Some (a, b) => Some (String c a, b)
           | None => None
           end
       | EmptyString => None
       end.

Definition parse (url : string) : ParseResult :=
  match cut_scheme url with
  | Some (sch, rest) =>
      let host := take_while (fun c => negb (is_delim c)) rest in
      {| scheme := sch; netloc := host;
         path := take_while (fun c => negb (is_query_start c))
                   (drop (String.length host) rest) |}
  | None =>
      {| scheme := EmptyString; netloc := EmptyString;
         path := take_while (fun c => negb (is_query_start c)) url |}
  end.

Definition join (base url : string) : string :=
  if starts_with "/" url then
    (scheme (parse base) ++ "://" ++ netloc (parse base) ++ url)%string
  else url.

Definition repr (v : value) : string :=
  match v with
  | VFloat l => l
  | VList _ => "[...]"
  | VDict _ => "{...}"
  | _ => EmptyString
  end.

Fixpoint any (p : ascii -> bool) (s : string) : bool :=
  match s with
  | EmptyString => false
  | String c s' => p c || any p s'
  end.

Definition float_truth (l : string) : bool :=
  any (fun c => between 49 57 c || is_upper c)
    (take_while (fun c => negb (is_char 101 c || is_char 69 c)) l).

Definition runtime : Runtime :=
  {| py_repr := repr; float_bool := float_truth;
     urlparse := parse; urljoin := join |}.

End Plain.

(** ** Vocabulary of the statements *)

(** What an observer of the transport sees of an event. *)
Inductive action :=
| Sent (m : http_method) (url : string) (body : option value)
| Slept (seconds : N).

Definition action_of (e : event) : action :=
  match e with
  | EvRequest r => Sent (req_method r) (req_url r) (req_json r)
  | EvSleep n => Slept n
  end.

Definition actions (tr : list event) : list action := map action_of tr.

(** A response the API client accepts: no error status, a JSON object. *)
Definition answer (r : Response) : option (dict value) :=
  if (400 <=? status_code r)%Z then None
  else match json_body r with
       | Some (VDict d) => Some d
       | _ => None
       end.

Definition is_pending (r : Response) : bool :=
  match answer r with
  | Some d => py_eq_str (py_get d "status") "PENDING"
  | None => false
  end.

Definition poll_body (client : Client.t) (task_id : value) : option value :=
  Some (VDict [("api_key", VStr (Client.api_key client)); ("taskId", task_id)]).

Definition poll_sent (client : Client.t) (task_id : value) : action :=
  Sent POST Tasks.get_url (poll_body client task_id).

(** One unsuccessful round of the polling loop: a request, then a sleep. *)
Definition poll_round (client : Client.t) (task_id : value) (interval : N)
    : list action :=
  [poll_sent client task_id; Slept interval].

Fixpoint poll_rounds (n : nat) (client : Client.t) (task_id : value)
    (interval : N) : list action :=
  match n with
  | O => []
  | S n' => poll_round client task_id interval
              ++ poll_rounds n' client task_id interval
  end.

(** The table of task types of the specification: the fields a type
    requires, the fields it accepts, and the keyword argument a field is
    taken from. *)
Module Table.

Definition required (task_type : string) : list string :=
  if String.eqb task_type "KasadaCaptchaSolver" then ["pjs"]
  else if String.eqb task_type "Twitch_PublicIntegrity" then ["access_token"; "proxy"]
  else if String.eqb task_type "IncapsulaReese84Solver" then ["website"; "submit_payload"]
  else if String.eqb task_type "IncapsulaUTMVCSolver" then ["website"]
  else if String.eqb task_type "AkamaiWebSensorSolver"
       then ["url"; "abck"; "bmsz"; "script"; "sensor_url"; "count"; "data"]
  else if String.eqb task_type "AkamaiSBSDSolver"
       then ["url"; "cookie"; "sbsd_url"; "script"]
  else if String.eqb task_type "DataDomeSliderSolver" then ["captcha_url"; "country_code"]
  else if String.eqb task_type "DataDomeInterstitialSolver"
       then ["captcha_url"; "country_code"]
  else [].

Definition optional (task_type : string) : list string :=
  if String.eqb task_type "KasadaCaptchaSolver" then ["cdOnly"]
  else if String.eqb task_type "Twitch_PublicIntegrity" then ["device_id"; "client_id"]
  else if String.eqb task_type "IncapsulaReese84Solver" then ["user_agent"]
  else if String.eqb task_type "IncapsulaUTMVCSolver" then ["user_agent"]
  else if String.eqb task_type "AkamaiWebSensorSolver" then ["user_agent"]
  else if String.eqb task_type "AkamaiSBSDSolver" then ["user_agent"]
  else if String.eqb task_type "DataDomeSliderSolver" then ["user_agent"]
  else if String.eqb task_type "DataDomeInterstitialSolver" then ["user_agent"]
  else [].

Definition kwarg (field : string) : string :=
  if String.eqb field "pjs" then "pjs_url"
  else if String.eqb field "cdOnly" then "cd_only"
  else field.

(** Is [k] a field the payload of the type holds for these arguments:
    the type tag, a required field, or an optional field that was
    supplied *)
Definition expected (task_type : string) (kwargs : dict value) (k : string)
    : bool :=
  String.eqb "type" k
  || existsb (fun f => String.eqb f k) (required task_type)
  || existsb (fun f => String.eqb f k && dict_in (kwarg f) kwargs)
       (optional task_type).

Definition other_types : list string :=
  ["Twitch_PublicIntegrity"; "IncapsulaReese84Solver"; "IncapsulaUTMVCSolver";
   "AkamaiWebSensorSolver"; "AkamaiSBSDSolver"; "DataDomeSliderSolver";
   "DataDomeInterstitialSolver"].

End Table.

(** The object of the round-trip example, as the page writes it and as
    [json.loads] reads it, and the script element that holds it. *)
Definition example_object : string :=
  "{'cid':'C','hsh':'H','t':'T','s':1,'e':'E'}".

Definition example_snippet : string :=
  ("var dd=" ++ example_object ++ "</script>")%string.

Definition example_url : string :=
  "https://geo.captcha-delivery.com/captcha/?initialCid=C&hash=H&cid=D&t=T&referer=https%3A%2F%2Fx%2F&s=1&e=E&dm=cd".

(** Values the examples run on. *)
Module Example.

Definition client : Client.t :=
  {| Client.api_key := "sk-example"; Client.base_url := "https://salamoonder.com/api";
     Client.impersonate := "chrome133a" |}.

Definition fresh : Session := {| session_headers := []; session_cookies := [] |}.

Definition start (rs : list Response) : world :=
  {| session := fresh; remote := rs; trace := [] |}.

Definition api (status : Z) (body : value) : Response :=
  {| status_code := status; text := EmptyString; json_body := Some body; cookies := [] |}.

Definition pending : Response := api 200 (VDict [("status", VStr "PENDING")]).
Definition ready : Response :=
  api 200 (VDict [("status", VStr "ready");
                  ("solution", VDict [("payload", VStr "abc")])]).
Definition failed : Response := api 200 (VDict [("status", VStr "failed")]).
Definition no_task_id : Response := api 200 (VDict [("status", VStr "ok")]).

Definition kasada_kwargs : dict value := [("pjs_url", VStr "https://example.com/pjs")].

Definition site : string := "https://www.example.com/".
Definition agent : string := "Mozilla/5.0 Chrome/141.0.0.0 Safari/537.36".

Definition page (status : Z) (html : string) (jar : dict string) : Response :=
  {| status_code := status; text := html; json_body := None; cookies := jar |}.

Definition akamai_html : string :=
  ("<html><script type=" ++ dq ++ "text/javascript" ++ dq ++ " src=" ++ dq
     ++ "/a1/b2" ++ dq ++ "></script></html>")%string.

Definition sbsd_html : string :=
  "<html><script src='/.well-known/sbsd/abc?v=1'></script></html>".

(** A session another target has left behind *)
Definition stale : Session :=
  {| session_headers := [("x-old", "1")];
     session_cookies := [("bm_sz", "stale"); ("bm_so", "old")] |}.

Definition stale_start (rs : list Response) : world :=
  {| session := stale; remote := rs; trace := [] |}.

Definition navigation : Response := page 200 akamai_html [("_abck", "fresh")].
Definition blocked_page : Response := page 403 akamai_html [("_abck", "fresh")].
Definition sbsd_navigation : Response := page 200 sbsd_html [].
Definition script (jar : dict string) : Response := page 200 "/* script */" jar.

Definition sbsd_post_url : string := "https://www.example.com/.well-known/sbsd/abc?v=1".

(** A page where a comment mentions the marker before the script does *)
Definition commented_page : string :=
  ("<html><!-- var dd= --><script>" ++ example_snippet ++ "</html>")%string.

Definition first_request (w : world) : option Request :=
  match trace w with
  | EvRequest rq :: _ => Some rq
  | _ => None
  end.

End Example.

(** The session after a request: its headers, and the jar with the cookies
    of the response. *)
Definition received (s : Session) (r : Response) : Session :=
  {| session_headers := session_headers s;
     session_cookies := dict_update (session_cookies s) (cookies r) |}.

Definition cleared (s : Session) : Session :=
  {| session_headers := []; session_cookies := session_cookies s |}.

(** A text made of characters of the base64 alphabet: no padding, nothing
    to skip. *)
Fixpoint unpadded (s : string) : bool :=
  match s with
  | EmptyString => true
  | String c s' =>
      match Base64.sextet c with Some _ => true | None => false end && unpadded s'
  end.

(** The dictionary the SBSD extractor returns. *)
Definition sbsd_result (base_url sbsd_url script_data cookie_name cookie_value : string)
    : value :=
  VDict [("base_url", VStr base_url);
         ("sbsd_url", VStr sbsd_url);
         ("script_data", VStr script_data);
         ("cookie_name", VStr cookie_name);
         ("cookie_value", VStr cookie_value)].

(** A cookie the extractors treat as missing: not in the jar, or empty. *)
Definition missing (c : option string) : Prop := c = None \/ c = Some EmptyString.

(** No occurrence of [sep] starts inside [pre] when [tail] follows it. *)
Fixpoint clear_before (sep pre tail : string) : bool :=
  match pre with
  | EmptyString => true
  | String _ pre' =>
      negb (starts_with sep (pre ++ tail)%string) && clear_before sep pre' tail
  end.

Definition parse_error : exn := RuntimeError "Failed to parse object.".

(** ** Vocabulary of the further statements *)

(** The request [_post] sends. *)
Definition api_request (client : Client.t) (url : string) (payload : dict value)
    (proxy : option string) (s : Session) : Request :=
  {| req_method := POST; req_url := url; req_headers := [];
     req_json := Some (VDict (dict_update
                                [("api_key", VStr (Client.api_key client))] payload));
     req_proxy := proxy_arg proxy;
     req_impersonate := Client.impersonate client;
     req_verify := None; req_session := s |}.

(** The message of the error [_post] raises for a response without a JSON
    body. *)
Definition invalid_response (r : Response) : exn :=
  APIError (VStr ("Invalid response from API (" ++ str_of_Z (status_code r) ++ ")")).

Definition missing_key : exn := MissingAPIKeyError "API key is required".

Section Outcomes.
Context {RT : Runtime}.

(** The message [_post] raises for an error status and an object body: the
    first of [error_description] and [error] that is true, or a fixed
    text. *)
Definition error_message (d : dict value) : value :=
  if truthy (py_get d "error_description") then py_get d "error_description"
  else if truthy (py_get d "error") then py_get d "error"
  else VStr "Request failed".

(** What [_post] makes of the response it reads. *)
Definition post_outcome (r : Response) : outcome value :=
  match json_body r with
  | None => Raise (invalid_response r)
  | Some data =>
      if (400 <=? status_code r)%Z then
        match data with
        | VDict d => Raise (APIError (error_message d))
        | _ => Raise AttributeError
        end
      else Return data
  end.

(** What [createTask] makes of it. *)
Definition create_outcome (r : Response) : outcome value :=
  match post_outcome r with
  | Return (VDict d) => Return (py_get d "taskId")
  | Return _ => Raise AttributeError
  | Raise e => Raise e
  | Blocked => Blocked
  end.

(** What [getTaskResult] makes of a response that ends the polling. *)
Definition poll_outcome (r : Response) : outcome value :=
  match post_outcome r with
  | Return (VDict d) =>
      if py_eq_str (py_get d "status") "ready" then Return (py_get d "solution")
      else Raise (APIError (VStr ("Unexpected task status: "
                                    ++ py_str (py_get d "status"))))
  | Return _ => Raise AttributeError
  | Raise e => Raise e
  | Blocked => Blocked
  end.
End Outcomes.

(** A request as the Akamai helpers send every one of theirs: without
    certificate verification, as chrome133a whatever the client was built
    with, through the proxy of the call. *)
Definition browser_request (m : http_method) (proxy : option string) (e : event)
    : Prop :=
  match e with
  | EvRequest rq =>
      req_method rq = m
      /\ req_verify rq = Some false
      /\ req_impersonate rq = "chrome133a"
      /\ req_proxy rq = proxy_arg proxy
  | EvSleep _ => False
  end.

(** The value of a cookie of a jar, [None] when the jar does not hold it. *)
Definition cookie_value (c : option string) : value :=
  match c with Some v => VStr v | None => VNone end.

(** The header value [_extract_sec_ch_ua] builds for a version. *)
Definition brands (version : string) : string :=
  dq ++ "Chromium" ++ dq ++ ";v=" ++ dq ++ version ++ dq ++ ", "
     ++ dq ++ "Google Chrome" ++ dq ++ ";v=" ++ dq ++ version ++ dq ++ ", "
     ++ dq ++ "Not?A_Brand" ++ dq ++ ";v=" ++ dq ++ "99" ++ dq.

Fixpoint all_chars (p : ascii -> bool) (s : string) : bool :=
  match s with
  | EmptyString => true
  | String c s' => p c && all_chars p s'
  end.

(** How many times the character with code [n] occurs in [s] *)
Fixpoint count_char (n : N) (s : string) : nat :=
  match s with
  | EmptyString => 0%nat
  | String c s' => ((if is_char n c then 1 else 0) + count_char n s')%nat
  end.

(** The text is empty or starts with an ASCII character that is no digit. *)
Definition no_digit_ahead (s : string) : bool :=
  match s with
  | String c _ => negb (is_digit c) && (code c <? 128)%N
  | EmptyString => true
  end.

(** The characters of an encoded query: those [quote_plus] leaves or
    writes, and the two separators. *)
Definition quoted_char (c : ascii) : bool :=
  UrlEncode.always_safe c || is_char 43 c || is_char 37 c.

Definition query_char (c : ascii) : bool :=
  quoted_char c || is_char 61 c || is_char 38 c.

Definition slider_base : string := "https://geo.captcha-delivery.com/captcha/?".
Definition interstitial_base : string := "https://geo.captcha-delivery.com/interstitial/?".

(** The text [json.loads] is given for an object as the page writes it. *)
Definition requoted (obj : string) : string :=
  replace_char (ascii_of_nat 39) (ascii_of_nat 34) obj.

Definition is_object (v : value) : bool :=
  match v with VDict _ => true | _ => false end.

Section Query.
Context {RT : Runtime}.

(** One parameter of the query as [urlencode] writes it *)
Definition pair_text (kv : string * value) : string :=
  (UrlEncode.quote_plus (fst kv) ++ "=" ++ UrlEncode.quote_plus (py_str (snd kv)))%string.
End Query.

(** Further values the examples run on. *)
Module Scenario.

Definition blank_client : Client.t :=
  {| Client.api_key := "   "; Client.base_url := "https://salamoonder.com/api";
     Client.impersonate := "chrome133a" |}.

Definition bad_gateway : Response := Example.page 502 "<html>Bad Gateway</html>" [].

Definition refused : Response :=
  Example.api 401 (VDict [("error_description", VStr EmptyString);
                          ("error", VStr "invalid_key")]).

Definition listing : Response := Example.api 200 (VList []).

Definition created : Response := Example.api 200 (VDict [("taskId", VStr "task-1")]).

Definition ok_sensor : Response := Example.api 200 (VDict [("success", VStr "true")]).

Definition accepted_sensor : Response := Example.page 201 EmptyString [("_abck", "new")].

Definition renewing_script : Response :=
  Example.script [("bm_sz", "B"); ("_abck", "newer")].

Definition empty_ok : Response := Example.page 200 EmptyString [].

Definition reese_kwargs : dict value :=
  [("website", VStr "https://example.com"); ("submit_payload", VBool true)].

End Scenario.

(** * Properties *)

(** ** The library models on known inputs *)

Example split_example :
  py_split "," "a,b,,c" = ["a"; "b"; EmptyString; "c"]
  /\ py_split "aba" "ababa" = [EmptyString; "ba"]
  /\ py_split "var dd=" "no marker here" = ["no marker here"].
Proof. repeat split; reflexivity. Qed.

Example b64decode_example :
  Base64.b64decode "aGVsbG8=" = Some "hello"
  /\ Base64.b64decode "aGk=!!" = Some "hi"
  /\ Base64.b64decode "!!!!" = Some EmptyString
  /\ Base64.b64decode "YQ=x=" = Some (String "a" (String (ascii_of_nat 12) EmptyString))
  /\ Base64.b64decode "aGVsbG8" = None
  /\ Base64.b64decode "a" = None.
Proof. repeat split; reflexivity. Qed.

Example loads_example :
  Json.loads (replace_char (ascii_of_nat 39) (ascii_of_nat 34)
                "{'a':1,'b':[true,null],'a':'z'}")
  = Some (VDict [("a", VStr "z"); ("b", VList [VBool true; VNone])])
  /\ Json.loads "[1,]" = None
  /\ Json.loads "01" = None
  /\ Json.loads " -12 " = Some (VInt (-12))
  /\ Json.loads "1.5e3" = Some (VFloat "1.5e3").
Proof. repeat split; vm_compute; reflexivity. Qed.

Example quote_plus_example :
  UrlEncode.quote_plus "https://x/?a=b c" = "https%3A%2F%2Fx%2F%3Fa%3Db+c".
Proof. reflexivity. Qed.

Example sec_ch_ua_example :
  Akamai._extract_sec_ch_ua "Mozilla/5.0 Chrome/141.0.0.0 Safari/537.36"
  = (dq ++ "Chromium" ++ dq ++ ";v=" ++ dq ++ "141" ++ dq ++ ", "
        ++ dq ++ "Google Chrome" ++ dq ++ ";v=" ++ dq ++ "141" ++ dq ++ ", "
        ++ dq ++ "Not?A_Brand" ++ dq ++ ";v=" ++ dq ++ "99" ++ dq)%string
  /\ Akamai._extract_sec_ch_ua "Mozilla/5.0 Firefox/120.0"
     = (dq ++ "Chromium" ++ dq ++ ";v=" ++ dq ++ "122" ++ dq ++ ", "
           ++ dq ++ "Google Chrome" ++ dq ++ ";v=" ++ dq ++ "122" ++ dq ++ ", "
           ++ dq ++ "Not?A_Brand" ++ dq ++ ";v=" ++ dq ++ "99" ++ dq)%string.
Proof. split; reflexivity. Qed.

Example script_patterns_example :
  search AkamaiWeb.script_at Example.akamai_html = Some "/a1/b2"
  /\ search AkamaiWeb.script_at "<script src='/a1/b2'></script>" = None
  /\ search AkamaiSBSD.script_at Example.sbsd_html
     = Some "/.well-known/sbsd/abc?v=1"
  /\ search AkamaiSBSD.script_at "<script src='/.well-known/sbsd/'></script>" = None.
Proof. repeat split; reflexivity. Qed.

Example key_missing_example :
  Client.key_missing "   " = true
  /\ Client.key_missing EmptyString = true
  /\ Client.key_missing " k " = false.
Proof. repeat split; reflexivity. Qed.

(** A client that [__init__] has built holds a key. *)
Lemma init_key_ok api_key base_url impersonate client :
  Client.__init__ api_key base_url impersonate = Return client ->
  Client.key_missing (Client.api_key client) = false.
Proof.
  unfold Client.__init__. destruct (Client.key_missing api_key) eqn:E; [discriminate|].
  intros [= <-]. exact E.
Qed.

(** ** The polling loop never runs out of fuel *)

Section PollingFuel.
Context {RT : Runtime}.

Lemma _post_consumes client url payload proxy w data w' :
  Client._post client url payload proxy w = (Return data, w') ->
  S (List.length (remote w')) = List.length (remote w).
Proof.
  unfold Client._post.
  destruct (Client.key_missing (Client.api_key client)); [discriminate|].
  unfold bind, session_request.
  destruct (remote w) as [|r rs]; [discriminate|].
  destruct (json_body r) as [d|]; [|discriminate].
  destruct (400 <=? status_code r)%Z.
  - unfold attr_get. destruct d; try discriminate.
    unfold ret. destruct (truthy _); discriminate.
  - intros [= _ <-]. reflexivity.
Qed.

Lemma getTaskResult_loop_S fuel client task_id interval w :
  Tasks.getTaskResult_loop (S fuel) client task_id interval w
  = (data <- Client._post client Tasks.get_url [("taskId", task_id)] None ;;
     status <- attr_get data "status" ;;
     if py_eq_str status "PENDING" then
       sleep interval ;;;
       Tasks.getTaskResult_loop fuel client task_id interval
     else if py_eq_str status "ready" then
       attr_get data "solution"
     else
       raise (APIError (VStr ("Unexpected task status: " ++ py_str status)))) w.
Proof. reflexivity. Qed.

Lemma getTaskResult_loop_fuel client task_id interval fuel :
  forall w,
    (List.length (remote w) < fuel)%nat ->
    Tasks.getTaskResult_loop fuel client task_id interval w
    = Tasks.getTaskResult_loop (S fuel) client task_id interval w.
Proof.
  induction fuel as [|fuel IH]; intros w H; [lia|].
  rewrite (getTaskResult_loop_S fuel), (getTaskResult_loop_S (S fuel)).
  unfold bind.
  destruct (Client._post client Tasks.get_url [("taskId", task_id)] None w)
    as [[data|e|] w'] eqn:E; try reflexivity.
  apply _post_consumes in E.
  destruct (attr_get data "status" w') as [[status|e|] w''] eqn:Es; try reflexivity.
  assert (w'' = w') as ->.
  { unfold attr_get in Es. destruct data; try discriminate.
    now injection Es as _ <-. }
  destruct (py_eq_str status "PENDING"); [|reflexivity].
  unfold sleep, emit. apply IH. cbn [remote]. lia.
Qed.

Lemma getTaskResult_fuel client task_id interval w extra :
  Tasks.getTaskResult_loop (S (List.length (remote w)) + extra) client task_id interval w
  = Tasks.getTaskResult client task_id interval w.
Proof.
  unfold Tasks.getTaskResult. induction extra as [|n IH].
  - now rewrite Nat.add_0_r.
  - rewrite <- IH. rewrite Nat.add_succ_r. symmetry.
    apply getTaskResult_loop_fuel. lia.
Qed.
End PollingFuel.

(** ** The task protocol *)

Section TaskProtocol.
Context {RT : Runtime}.
Variable client : Client.t.
Hypothesis key_ok : Client.key_missing (Client.api_key client) = false.

Lemma answer_inv r d :
  answer r = Some d ->
  (400 <=? status_code r)%Z = false /\ json_body r = Some (VDict d).
Proof.
  unfold answer. destruct (400 <=? status_code r)%Z; [discriminate|].
  destruct (json_body r) as [[]|]; try discriminate.
  intros [= ->]. auto.
Qed.

Lemma _post_answer url k v s r rs tr d :
  answer r = Some d ->
  exists s' rq,
    Client._post client url [(k, v)] None
      {| session := s; remote := r :: rs; trace := tr |}
    = (Return (VDict d), {| session := s'; remote := rs; trace := tr ++ [EvRequest rq] |})
    /\ action_of (EvRequest rq)
       = Sent POST url (Some (VDict (dict_update [("api_key", VStr (Client.api_key client))] [(k, v)]))).
Proof.
  intros Ha. apply answer_inv in Ha as [Hs Hj].
  unfold Client._post. rewrite key_ok.
  unfold bind, session_request. cbn [remote session trace].
  rewrite Hj, Hs. eexists _, _. split; reflexivity.
Qed.

Lemma _post_blocked url payload s tr :
  exists rq,
    Client._post client url payload None
      {| session := s; remote := []; trace := tr |}
    = (Blocked, {| session := s; remote := []; trace := tr ++ [EvRequest rq] |})
    /\ action_of (EvRequest rq)
       = Sent POST url (Some (VDict (dict_update [("api_key", VStr (Client.api_key client))] payload))).
Proof.
  unfold Client._post. rewrite key_ok.
  unfold bind, session_request. cbn [remote session trace].
  eexists. split; reflexivity.
Qed.

Lemma is_pending_answer r :
  is_pending r = true ->
  exists d, answer r = Some d /\ py_eq_str (py_get d "status") "PENDING" = true.
Proof.
  unfold is_pending. destruct (answer r) as [d|]; [|discriminate].
  intros H. exists d. auto.
Qed.

(** A round on a PENDING response: one request, one sleep, one response
    consumed, and the loop goes on. *)
Lemma loop_pending_step fuel task_id interval s r rs tr :
  is_pending r = true ->
  exists s' tr',
    Tasks.getTaskResult_loop (S fuel) client task_id interval
      {| session := s; remote := r :: rs; trace := tr |}
    = Tasks.getTaskResult_loop fuel client task_id interval
        {| session := s'; remote := rs; trace := tr' |}
    /\ actions tr' = actions tr ++ poll_round client task_id interval.
Proof.
  intros Hp. apply is_pending_answer in Hp as (d & Ha & Hst).
  destruct (_post_answer Tasks.get_url "taskId" task_id s r rs tr d Ha)
    as (s' & rq & Hpost & Hact).
  exists s', ((tr ++ [EvRequest rq]) ++ [EvSleep interval]). split.
  - cbn [Tasks.getTaskResult_loop]. unfold bind at 1. rewrite Hpost.
    unfold bind at 1. cbn [attr_get ret]. rewrite Hst.
    unfold bind, sleep, emit. reflexivity.
  - unfold actions in *. rewrite !map_app. cbn [map].
    rewrite Hact. rewrite <- app_assoc. reflexivity.
Qed.

Lemma loop_pending_prefix task_id interval pend :
  Forall (fun r => is_pending r = true) pend ->
  forall fuel s rest tr,
  exists s' tr',
    Tasks.getTaskResult_loop (List.length pend + fuel) client task_id interval
      {| session := s; remote := pend ++ rest; trace := tr |}
    = Tasks.getTaskResult_loop fuel client task_id interval
        {| session := s'; remote := rest; trace := tr' |}
    /\ actions tr' = actions tr ++ poll_rounds (List.length pend) client task_id interval.
Proof.
  induction 1 as [|r pend Hr _ IH]; intros fuel s rest tr.
  - exists s, tr. split; [reflexivity|]. cbn. now rewrite app_nil_r.
  - cbn [List.length Nat.add app].
    destruct (loop_pending_step (List.length pend + fuel) task_id interval
                s r (pend ++ rest) tr Hr) as (s1 & tr1 & Hstep & Hact1).
    destruct (IH fuel s1 rest tr1) as (s2 & tr2 & Hrest & Hact2).
    exists s2, tr2. split.
    + now rewrite Hstep.
    + rewrite Hact2, Hact1. cbn [poll_rounds]. now rewrite <- app_assoc.
Qed.

(** The round that ends the loop: the response is neither an error of the
    transport nor PENDING. *)
Lemma loop_final_step fuel task_id interval s r rs tr d :
  answer r = Some d ->
  py_eq_str (py_get d "status") "PENDING" = false ->
  exists s' tr',
    Tasks.getTaskResult_loop (S fuel) client task_id interval
      {| session := s; remote := r :: rs; trace := tr |}
    = ((if py_eq_str (py_get d "status") "ready"
        then Return (py_get d "solution")
        else Raise (APIError (VStr ("Unexpected task status: "
                                      ++ py_str (py_get d "status"))))),
       {| session := s'; remote := rs; trace := tr' |})
    /\ actions tr' = actions tr ++ [poll_sent client task_id].
Proof.
  intros Ha Hst.
  destruct (_post_answer Tasks.get_url "taskId" task_id s r rs tr d Ha)
    as (s' & rq & Hpost & Hact).
  exists s', (tr ++ [EvRequest rq]). split.
  - cbn [Tasks.getTaskResult_loop]. unfold bind at 1. rewrite Hpost.
    unfold bind at 1. cbn [attr_get ret]. rewrite Hst.
    destruct (py_eq_str (py_get d "status") "ready"); reflexivity.
  - unfold actions. rewrite map_app. cbn [map]. now rewrite Hact.
Qed.

Lemma loop_blocked fuel task_id interval s tr :
  exists tr',
    Tasks.getTaskResult_loop (S fuel) client task_id interval
      {| session := s; remote := []; trace := tr |}
    = (Blocked, {| session := s; remote := []; trace := tr' |})
    /\ actions tr' = actions tr ++ [poll_sent client task_id].
Proof.
  destruct (_post_blocked Tasks.get_url [("taskId", task_id)] s tr)
    as (rq & Hpost & Hact).
  exists (tr ++ [EvRequest rq]). split.
  - cbn [Tasks.getTaskResult_loop]. unfold bind at 1. now rewrite Hpost.
  - unfold actions. rewrite map_app. cbn [map]. now rewrite Hact.
Qed.

(** C1, as amended.  Among responses that [_post] accepts, a status below
    400 and a JSON object, polling ends at the first one that is not
    PENDING.  After [n] PENDING responses, each followed by one sleep of
    the interval, a response with status "ready" makes [getTaskResult]
    return its [solution] field, and a response with any other status
    makes it raise [APIError] with the status in the message; in both
    cases the last event is the request that fetched that response: no
    further sleep, no further request, and the responses after it are left
    unread. *)
Theorem getTaskResult_first_non_pending task_id interval s tr pend r rest d :
  Forall (fun r => is_pending r = true) pend ->
  answer r = Some d ->
  py_eq_str (py_get d "status") "PENDING" = false ->
  exists s' tr',
    Tasks.getTaskResult client task_id interval
      {| session := s; remote := pend ++ r :: rest; trace := tr |}
    = ((if py_eq_str (py_get d "status") "ready"
        then Return (py_get d "solution")
        else Raise (APIError (VStr ("Unexpected task status: "
                                      ++ py_str (py_get d "status"))))),
       {| session := s'; remote := rest; trace := tr' |})
    /\ actions tr'
       = actions tr ++ poll_rounds (List.length pend) client task_id interval
           ++ [poll_sent client task_id].
Proof.
  intros Hpend Ha Hst. unfold Tasks.getTaskResult. cbn [remote].
  rewrite length_app. cbn [List.length].
  replace (S (List.length pend + S (List.length rest)))
    with (List.length pend + S (S (List.length rest))) by lia.
  destruct (loop_pending_prefix task_id interval pend Hpend
              (S (S (List.length rest))) s (r :: rest) tr)
    as (s1 & tr1 & Hloop & Hact1).
  destruct (loop_final_step (S (List.length rest)) task_id interval
              s1 r rest tr1 d Ha Hst) as (s2 & tr2 & Hfin & Hact2).
  exists s2, tr2. split.
  - now rewrite Hloop.
  - rewrite Hact2, Hact1. now rewrite <- app_assoc.
Qed.

(** After [n] PENDING responses the call has neither returned nor raised;
    it has slept [n] times and has sent request number [n+1], whose
    response it awaits. *)
Lemma getTaskResult_pending_blocks task_id interval s tr pend :
  Forall (fun r => is_pending r = true) pend ->
  exists s' tr',
    Tasks.getTaskResult client task_id interval
      {| session := s; remote := pend; trace := tr |}
    = (Blocked, {| session := s'; remote := []; trace := tr' |})
    /\ actions tr'
       = actions tr ++ poll_rounds (List.length pend) client task_id interval
           ++ [poll_sent client task_id].
Proof.
  intros Hpend. unfold Tasks.getTaskResult. cbn [remote].
  replace (S (List.length pend)) with (List.length pend + 1) by lia.
  destruct (loop_pending_prefix task_id interval pend Hpend 1 s [] tr)
    as (s1 & tr1 & Hloop & Hact1).
  rewrite app_nil_r in Hloop.
  destruct (loop_blocked 0 task_id interval s1 tr1) as (tr2 & Hb & Hact2).
  exists s1, tr2. split.
  - now rewrite Hloop.
  - rewrite Hact2, Hact1. now rewrite <- app_assoc.
Qed.

(** C7. There is no cap on the number of attempts: for every [n], [n]
    PENDING responses leave the call running, with [n] sleeps done and
    request [n+1] sent; and a call that has returned or raised has read a
    response that is not PENDING. *)
Theorem getTaskResult_unbounded task_id interval :
  (forall n s tr pend,
      List.length pend = n ->
      Forall (fun r => is_pending r = true) pend ->
      exists s' tr',
        Tasks.getTaskResult client task_id interval
          {| session := s; remote := pend; trace := tr |}
        = (Blocked, {| session := s'; remote := []; trace := tr' |})
        /\ actions tr'
           = actions tr ++ poll_rounds n client task_id interval
               ++ [poll_sent client task_id])
  /\ (forall w res w',
        Tasks.getTaskResult client task_id interval w = (res, w') ->
        res <> Blocked ->
        Exists (fun r => is_pending r = false) (remote w)).
Proof.
  split.
  - intros n s tr pend <- Hpend.
    apply getTaskResult_pending_blocks; assumption.
  - intros [s rs tr] res w' Hrun Hres. cbn [remote].
    destruct (Forall_Exists_dec (fun r => is_pending r = true)
                (fun r => bool_dec (is_pending r) true) rs) as [Hall|Hex].
    + destruct (getTaskResult_pending_blocks task_id interval s tr rs Hall)
        as (s1 & tr1 & Hb & _).
      rewrite Hb in Hrun. injection Hrun as <- _. now elim Hres.
    + eapply Exists_impl; [|exact Hex].
      intros r Hr. cbv beta in Hr. now destruct (is_pending r).
Qed.

(** C10, as amended.  A response with a success status and a JSON object
    without [taskId] makes [createTask] return [None]; nothing is
    raised. *)
Theorem createTask_missing_taskId task_type kwargs s tr r rest d :
  answer r = Some d ->
  dict_get "taskId" d = None ->
  exists s' tr',
    Tasks.createTask client task_type kwargs
      {| session := s; remote := r :: rest; trace := tr |}
    = (Return VNone, {| session := s'; remote := rest; trace := tr' |})
    /\ actions tr'
       = actions tr
         ++ [Sent POST Tasks.create_url
               (Some (VDict [("api_key", VStr (Client.api_key client));
                             ("task", VDict (Tasks.createTask_task task_type kwargs))]))].
Proof.
  intros Ha Hno.
  destruct (_post_answer Tasks.create_url "task"
              (VDict (Tasks.createTask_task task_type kwargs)) s r rest tr d Ha)
    as (s' & rq & Hpost & Hact).
  exists s', (tr ++ [EvRequest rq]). split.
  - unfold Tasks.createTask. unfold bind at 1. rewrite Hpost.
    unfold bind, attr_get, ret, py_get. now rewrite Hno.
  - unfold actions. rewrite map_app. cbn [map]. now rewrite Hact.
Qed.
End TaskProtocol.

(** ** Splitting a text at a separator *)

Lemma starts_with_app p rest : starts_with p (p ++ rest)%string = true.
Proof.
  induction p as [|a p IH]; cbn; [reflexivity|].
  now rewrite Ascii.eqb_refl, IH.
Qed.

Lemma split_from_cons sep s k : split_from sep s k <> [].
Proof.
  revert k. induction s as [|c s IH]; intros k; cbn; [discriminate|].
  destruct k; [|apply IH].
  destruct (starts_with sep (String c s)); [discriminate|].
  destruct (split_from sep s 0); discriminate.
Qed.

Lemma split_skip sep x rest :
  split_from sep (x ++ rest)%string (String.length x) = split_from sep rest 0.
Proof.
  induction x as [|c x IH]; cbn; [|exact IH].
  destruct rest; reflexivity.
Qed.

Lemma split_match sep rest :
  sep <> EmptyString ->
  split_from sep (sep ++ rest)%string 0 = EmptyString :: split_from sep rest 0.
Proof.
  intros Hsep.
  pose proof (starts_with_app sep rest) as Hm.
  pose proof (split_skip sep) as Hs.
  destruct sep as [|a p]; [now elim Hsep|].
  cbn [String.append] in *. cbn [split_from]. rewrite Hm. f_equal.
  cbn [String.length Nat.sub]. rewrite Nat.sub_0_r.
  specialize (Hs p rest). exact Hs.
Qed.



Lemma split_at_first sep pre rest :
  sep <> EmptyString ->
  clear_before sep pre (sep ++ rest)%string = true ->
  py_split sep (pre ++ sep ++ rest)%string = pre :: py_split sep rest.
Proof.
  intros Hsep. unfold py_split. induction pre as [|c pre IH]; intros H.
  - cbn [String.append]. now apply split_match.
  - cbn [clear_before] in H. apply andb_prop in H as [H1 H2].
    apply negb_true_iff in H1. cbn [String.append] in *.
    cbn [split_from]. rewrite H1. rewrite (IH H2). reflexivity.
Qed.

(** The first piece of a text that starts with [pre], when no occurrence
    of the separator starts inside [pre]. *)
Lemma hd_split_prefix sep pre :
  forall tail,
    clear_before sep pre tail = true ->
    hd EmptyString (py_split sep (pre ++ tail)%string)
    = (pre ++ hd EmptyString (py_split sep tail))%string.
Proof.
  unfold py_split. induction pre as [|c pre IH]; intros tail H.
  - reflexivity.
  - cbn [clear_before] in H. apply andb_prop in H as [H1 H2].
    apply negb_true_iff in H1. cbn [String.append] in *.
    cbn [split_from]. rewrite H1.
    specialize (IH tail H2).
    destruct (split_from sep (pre ++ tail)%string 0) as [|a l] eqn:E.
    + now apply split_from_cons in E.
    + cbn [hd] in *. now rewrite IH.
Qed.

(** ** [json.loads] never fails for want of fuel *)

Lemma drop_length n s : String.length (drop n s) = (String.length s - n)%nat.
Proof.
  revert s. induction n as [|n IH]; intros [|c s]; cbn; try reflexivity.
  apply IH.
Qed.

Lemma drop_while_length p s : (String.length (drop_while p s) <= String.length s)%nat.
Proof.
  induction s as [|c s IH]; cbn; [lia|]. destruct (p c); cbn; lia.
Qed.

Lemma take_while_length p s : (String.length (take_while p s) <= String.length s)%nat.
Proof.
  induction s as [|c s IH]; cbn; [lia|]. destruct (p c); cbn; lia.
Qed.

Lemma starts_with_length p s :
  starts_with p s = true -> (String.length p <= String.length s)%nat.
Proof.
  revert s. induction p as [|a p IH]; intros [|b s]; cbn; try lia; try discriminate.
  intros H. apply andb_prop in H as [_ H]. apply IH in H. lia.
Qed.

Lemma prepend_Some p r str rest :
  Json.prepend p r = Some (str, rest) -> exists str', r = Some (str', rest).
Proof.
  destruct r as [[a b]|]; cbn; [|discriminate]. intros [= _ <-]. now exists a.
Qed.

Lemma scan_string_shorter n :
  forall s str rest,
    (String.length s <= n)%nat ->
    Json.scan_string s = Some (str, rest) ->
    (String.length rest < String.length s)%nat.
Proof.
  induction n as [|n IH]; intros s str rest Hn H.
  - destruct s; [discriminate|cbn in Hn; lia].
  - destruct s as [|c s1]; [discriminate|]. cbn [Json.scan_string] in H.
    cbn [String.length] in *.
    destruct (is_char 34 c).
    { injection H as _ <-. lia. }
    destruct (is_char 92 c).
    + destruct s1 as [|e s2]; [discriminate|]. cbn [String.length] in *.
      destruct (is_char 117 e).
      * destruct s2 as [|h1 [|h2 [|h3 [|h4 s6]]]]; try discriminate.
        cbn [String.length] in *.
        destruct (Json.hex4 h1 h2 h3 h4); [|discriminate].
        assert (Hs6 : forall str',
                   Json.scan_string s6 = Some (str', rest) ->
                   (String.length rest < String.length s6)%nat)
          by (intros str'; apply IH; lia).
        destruct s6 as [|b [|v [|g1 [|g2 [|g3 [|g4 s12]]]]]];
          try (apply prepend_Some in H as [str' H]; apply Hs6 in H;
               cbn [String.length] in *; lia).
        destruct (Json.hex4 g1 g2 g3 g4);
          [destruct (Json.is_high _ && is_char 92 b && is_char 117 v && Json.is_low _)|];
          apply prepend_Some in H as [str' H];
          try (apply Hs6 in H; cbn [String.length] in *; lia).
        apply IH in H; cbn [String.length] in *; lia.
      * destruct (Json.escape e); [|discriminate].
        apply prepend_Some in H as [str' H]. apply IH in H; lia.
    + destruct (code c <=? 31)%N; [discriminate|].
      apply prepend_Some in H as [str' H]. apply IH in H; lia.
Qed.

Lemma scan_string_consumes s str rest :
  Json.scan_string s = Some (str, rest) ->
  (String.length rest < String.length s)%nat.
Proof. apply (scan_string_shorter (String.length s)). lia. Qed.

Lemma skip_ws_length s : (String.length (Json.skip_ws s) <= String.length s)%nat.
Proof. apply drop_while_length. Qed.

Lemma after_length p s : (String.length (Json.after p s) <= String.length s)%nat.
Proof. unfold Json.after. rewrite drop_length. lia. Qed.

Lemma int_part_consumes s i :
  Json.int_part s = Some i ->
  (String.length (Json.after i s) < String.length s)%nat.
Proof.
  unfold Json.int_part, Json.after. destruct s as [|c s]; [discriminate|].
  destruct (is_char 48 c).
  - intros [= <-]. cbn. lia.
  - destruct (is_digit c) eqn:Ed; [|discriminate].
    intros [= <-]. unfold Json.digits. cbn [take_while]. rewrite Ed.
    cbn [String.length drop]. rewrite drop_length. lia.
Qed.

Lemma scan_number_consumes s v rest :
  Json.scan_number s = Some (v, rest) ->
  (String.length rest < String.length s)%nat.
Proof.
  unfold Json.scan_number.
  set (s1 := Json.after _ s).
  destruct (Json.int_part s1) as [i|] eqn:Ei; [|discriminate].
  apply int_part_consumes in Ei.
  set (s2 := Json.after i s1) in *.
  set (s3 := Json.after _ s2).
  set (s4 := Json.after _ s3).
  assert (String.length s4 < String.length s)%nat.
  { pose proof (after_length (if starts_with "-" s then "-" else EmptyString) s).
    pose proof (after_length (Json.frac_part s2) s2).
    pose proof (after_length (Json.exp_part s3) s3).
    fold s1 in H. fold s3 in H0. fold s4 in H1. lia. }
  destruct (_ && _).
  - destruct (_ <? _)%nat; [discriminate|]. intros [= _ <-]. assumption.
  - intros [= _ <-]. assumption.
Qed.

Lemma literal_consumes lit s :
  lit <> EmptyString ->
  starts_with lit s = true ->
  (String.length (drop (String.length lit) s) < String.length s)%nat.
Proof.
  intros Hne H. apply starts_with_length in H. rewrite drop_length.
  destruct lit; [now elim Hne|]. cbn in *. lia.
Qed.

Lemma scan_atom_consumes s v rest :
  Json.scan_atom s = Some (v, rest) ->
  (String.length rest < String.length s)%nat.
Proof.
  unfold Json.scan_atom.
  repeat match goal with
         | |- context [if starts_with ?l s then _ else _] =>
             destruct (starts_with l s) eqn:?;
             [intros [= _ <-];
              apply (literal_consumes l s); [discriminate|assumption]|]
         end.
  apply scan_number_consumes.
Qed.

Ltac len_facts :=
  repeat match goal with
         | H : Json.scan_string ?s = Some (_, _) |- _ =>
             apply scan_string_consumes in H
         | H : Json.skip_ws ?s = String _ _ |- _ =>
             let L := fresh "L" in
             pose proof (skip_ws_length s) as L; rewrite H in L; clear H
         end;
  cbn [String.length] in *.

Lemma scan_consumes fuel :
  (forall s v rest,
      Json.scan_once fuel s = Some (v, rest) ->
      (String.length rest < String.length s)%nat)
  /\ (forall s acc v rest,
         Json.parse_object fuel s acc = Some (v, rest) ->
         (String.length rest < String.length s)%nat)
  /\ (forall s acc v rest,
         Json.parse_array fuel s acc = Some (v, rest) ->
         (String.length rest < String.length s)%nat).
Proof.
  induction fuel as [|fuel (IHv & IHo & IHa)].
  { repeat split; intros; discriminate. }
  repeat split.
  - intros s v rest H. cbn [Json.scan_once] in H.
    destruct s as [|c s']; [discriminate|].
    destruct (is_char 34 c).
    { destruct (Json.scan_string s') as [[str r]|] eqn:E; [|discriminate].
      injection H as _ <-. len_facts. lia. }
    destruct (is_char 123 c).
    { destruct (Json.skip_ws s') as [|d r] eqn:E; [discriminate|].
      destruct (is_char 125 d).
      - injection H as _ <-. len_facts. lia.
      - apply IHo in H. rewrite <- E in H.
        pose proof (skip_ws_length s'). cbn [String.length]. lia. }
    destruct (is_char 91 c).
    { destruct (Json.skip_ws s') as [|d r] eqn:E; [discriminate|].
      destruct (is_char 93 d).
      - injection H as _ <-. len_facts. lia.
      - apply IHa in H. rewrite <- E in H.
        pose proof (skip_ws_length s'). cbn [String.length]. lia. }
    apply scan_atom_consumes in H. exact H.
  - intros s acc v rest H. cbn [Json.parse_object] in H.
    destruct s as [|q s1]; [discriminate|].
    destruct (is_char 34 q); [|discriminate].
    destruct (Json.scan_string s1) as [[key r1]|] eqn:E1; [|discriminate].
    destruct (Json.skip_ws r1) as [|colon r2] eqn:E2; [discriminate|].
    destruct (is_char 58 colon); [|discriminate].
    destruct (Json.scan_once fuel (Json.skip_ws r2)) as [[x r3]|] eqn:E3;
      [|discriminate].
    apply IHv in E3. pose proof (skip_ws_length r2).
    destruct (Json.skip_ws r3) as [|d r4] eqn:E4; [discriminate|].
    destruct (is_char 125 d).
    + injection H as _ <-. len_facts. lia.
    + destruct (is_char 44 d); [|discriminate].
      apply IHo in H. pose proof (skip_ws_length r4). len_facts. lia.
  - intros s acc v rest H. cbn [Json.parse_array] in H.
    destruct (Json.scan_once fuel s) as [[x r1]|] eqn:E1; [|discriminate].
    apply IHv in E1.
    destruct (Json.skip_ws r1) as [|d r2] eqn:E2; [discriminate|].
    destruct (is_char 93 d).
    + injection H as _ <-. len_facts. lia.
    + destruct (is_char 44 d); [|discriminate].
      apply IHa in H. pose proof (skip_ws_length r2). len_facts. lia.
Qed.

(** Past the bound, more fuel changes nothing. *)
Lemma scan_fuel f :
  forall g, (f <= g)%nat ->
    (forall s, (2 * String.length s <= f)%nat ->
               Json.scan_once f s = Json.scan_once g s)
    /\ (forall s acc, (2 * String.length s + 1 <= f)%nat ->
                      Json.parse_object f s acc = Json.parse_object g s acc)
    /\ (forall s acc, (2 * String.length s + 1 <= f)%nat ->
                      Json.parse_array f s acc = Json.parse_array g s acc).
Proof.
  induction f as [|f IH]; intros g Hg.
  { repeat split; intros s; intros; try lia.
    destruct s; [|cbn in *; lia]. destruct g; reflexivity. }
  destruct g as [|g]; [lia|].
  destruct (IH g ltac:(lia)) as (IHv & IHo & IHa).
  repeat split.
  - intros s Hs. cbn [Json.scan_once].
    destruct s as [|c s']; [reflexivity|]. cbn [String.length] in Hs.
    pose proof (skip_ws_length s').
    destruct (is_char 34 c); [reflexivity|].
    destruct (is_char 123 c).
    { destruct (Json.skip_ws s') as [|d r] eqn:E; [reflexivity|].
      destruct (is_char 125 d); [reflexivity|].
      apply IHo. lia. }
    destruct (is_char 91 c); [|reflexivity].
    destruct (Json.skip_ws s') as [|d r] eqn:E; [reflexivity|].
    destruct (is_char 93 d); [reflexivity|].
    apply IHa. lia.
  - intros s acc Hs. cbn [Json.parse_object].
    destruct s as [|q s1]; [reflexivity|]. cbn [String.length] in Hs.
    destruct (is_char 34 q); [|reflexivity].
    destruct (Json.scan_string s1) as [[key r1]|] eqn:E1; [|reflexivity].
    destruct (Json.skip_ws r1) as [|colon r2] eqn:E2; [reflexivity|].
    destruct (is_char 58 colon); [|reflexivity].
    pose proof (skip_ws_length r2). len_facts.
    rewrite <- (IHv (Json.skip_ws r2)) by lia.
    destruct (Json.scan_once f (Json.skip_ws r2)) as [[x r3]|] eqn:E3;
      [|reflexivity].
    apply (proj1 (scan_consumes f)) in E3.
    destruct (Json.skip_ws r3) as [|d r4] eqn:E4; [reflexivity|].
    destruct (is_char 125 d); [reflexivity|].
    destruct (is_char 44 d); [|reflexivity].
    pose proof (skip_ws_length r4). len_facts.
    apply IHo. lia.
  - intros s acc Hs. cbn [Json.parse_array].
    rewrite <- (IHv s) by lia.
    destruct (Json.scan_once f s) as [[x r1]|] eqn:E1; [|reflexivity].
    apply (proj1 (scan_consumes f)) in E1.
    destruct (Json.skip_ws r1) as [|d r2] eqn:E2; [reflexivity|].
    destruct (is_char 93 d); [reflexivity|].
    destruct (is_char 44 d); [|reflexivity].
    pose proof (skip_ws_length r2). len_facts.
    apply IHa. lia.
Qed.

(** [json.loads] never fails for want of fuel: any larger amount gives the
    same answer. *)
Lemma loads_fuel s extra :
  Json.scan_once (2 * String.length s + 2 + extra) (Json.skip_ws s)
  = Json.scan_once (2 * String.length s + 2) (Json.skip_ws s).
Proof.
  symmetry. apply scan_fuel; [lia|].
  pose proof (skip_ws_length s). lia.
Qed.

(** ** DataDome *)

(** The marker ends with the only [=] it holds, so an occurrence cannot
    begin in the text before a marker and end inside that marker. *)
Lemma marker_no_straddle pre rest :
  pre <> EmptyString ->
  starts_with Datadome.marker pre = false ->
  starts_with Datadome.marker (pre ++ Datadome.marker ++ rest)%string = false.
Proof.
  intros Hne H. unfold Datadome.marker in *.
  destruct pre as [|c1 [|c2 [|c3 [|c4 [|c5 [|c6 [|c7 pre]]]]]]];
    [now elim Hne| .. ]; cbn [String.append starts_with] in *;
    repeat match goal with
           | |- context [Ascii.eqb ?a ?c] =>
               is_var c; destruct (Ascii.eqb a c); cbn [andb]; try reflexivity
           end; try reflexivity; try assumption.
Qed.

Lemma marker_clear pre rest :
  occurs Datadome.marker pre = false ->
  clear_before Datadome.marker pre (Datadome.marker ++ rest)%string = true.
Proof.
  induction pre as [|c pre IH]; intros H; [reflexivity|].
  cbn [occurs] in H. apply orb_false_elim in H as [H1 H2].
  cbn [clear_before]. rewrite (IH H2), andb_true_r.
  apply negb_true_iff. apply marker_no_straddle; [discriminate|exact H1].
Qed.

Lemma marker_not_empty : Datadome.marker <> EmptyString.
Proof. discriminate. Qed.

Lemma closing_not_empty : Datadome.closing <> EmptyString.
Proof. discriminate. Qed.


(** When the first marker of the page opens the example, the text handed to
    [json.loads] is the example object with double quotes. *)
Lemma js_object_example pre post :
  occurs Datadome.marker pre = false ->
  Datadome.js_object (pre ++ example_snippet ++ post)%string
  = Some (replace_char (ascii_of_nat 39) (ascii_of_nat 34) example_object).
Proof.
  intros Hpre. unfold Datadome.js_object.
  replace (pre ++ example_snippet ++ post)%string
    with (pre ++ Datadome.marker
              ++ ((example_object ++ Datadome.closing) ++ post))%string
    by reflexivity.
  rewrite (split_at_first _ _ _ marker_not_empty (marker_clear _ _ Hpre)).
  cbn [nth_error].
  destruct (py_split Datadome.marker ((example_object ++ Datadome.closing) ++ post)%string)
    as [|part l] eqn:Hs; [now apply split_from_cons in Hs|].
  assert (Hpart : part = ((example_object ++ Datadome.closing)
                            ++ hd EmptyString (py_split Datadome.marker post))%string).
  { change part with (hd EmptyString (part :: l)). rewrite <- Hs.
    apply hd_split_prefix. reflexivity. }
  rewrite Hpart.
  replace ((example_object ++ Datadome.closing)
             ++ hd EmptyString (py_split Datadome.marker post))%string
    with (example_object ++ Datadome.closing
             ++ hd EmptyString (py_split Datadome.marker post))%string
    by reflexivity.
  rewrite (split_at_first _ _ _ closing_not_empty); [reflexivity|].
  reflexivity.
Qed.

Lemma py_eq_str_true v s : py_eq_str v s = true <-> v = VStr s.
Proof.
  destruct v; cbn; try (split; [discriminate|intros [=]]).
  rewrite String.eqb_eq. split; [now intros ->|now intros [= ->]].
Qed.

Section DataDomeProperties.
Context {RT : Runtime}.

Lemma build_url_not_None base params : Datadome.build_url base params <> Return VNone.
Proof. unfold Datadome.build_url. destruct UrlEncode.urlencode; discriminate. Qed.



(** C4, as amended.  When the first [var dd=] of the page is the one that
    opens the example object, the slider URL is the fixed base followed by
    the query in the order initialCid, hash, cid, t, referer, s, e, dm. *)
Theorem parse_slider_url_example pre post :
  occurs Datadome.marker pre = false ->
  Datadome.parse_slider_url (pre ++ example_snippet ++ post)%string "D" "https://x/"
  = Return (VStr example_url).
Proof.
  intros Hpre. unfold Datadome.parse_slider_url, Datadome.parse_object.
  rewrite (js_object_example pre post Hpre).
  vm_compute. reflexivity.
Qed.

End DataDomeProperties.

(** ** The payload of a task *)

(** C2, at the input where the code departs from it.  With [cd_only] not
    supplied, the payload of a KasadaCaptchaSolver task still holds
    [cdOnly], with the value [None]; the table does not expect the field
    there. *)
Theorem createTask_kasada_cdOnly_placeholder {RT : Runtime} :
  Tasks.createTask_task "KasadaCaptchaSolver" Example.kasada_kwargs
  = [("type", VStr "KasadaCaptchaSolver");
     ("pjs", VStr "https://example.com/pjs");
     ("cdOnly", VNone)]
  /\ dict_in "cd_only" Example.kasada_kwargs = false
  /\ Table.expected "KasadaCaptchaSolver" Example.kasada_kwargs "cdOnly" = false
  /\ exists rq,
       trace (snd (Tasks.createTask Example.client "KasadaCaptchaSolver"
                     Example.kasada_kwargs (Example.start [])))
       = [EvRequest rq]
       /\ req_json rq
          = Some (VDict [("api_key", VStr "sk-example");
                         ("task", VDict [("type", VStr "KasadaCaptchaSolver");
                                         ("pjs", VStr "https://example.com/pjs");
                                         ("cdOnly", VNone)])]).
Proof.
  repeat split. eexists. split; reflexivity.
Qed.


Lemma dict_in_set {A} k a (v : A) d :
  dict_in k (dict_set a v d) = String.eqb a k || dict_in k d.
Proof.
  unfold dict_in. induction d as [|[k' v'] d IH]; cbn.
  - destruct (String.eqb a k); reflexivity.
  - destruct (String.eqb_spec k' a) as [->|Hne]; cbn.
    + destruct (String.eqb a k); reflexivity.
    + destruct (String.eqb k' k); [now rewrite orb_true_r|exact IH].
Qed.

Lemma dict_in_single {A} k a (v : A) : dict_in k [(a, v)] = String.eqb a k.
Proof. unfold dict_in. cbn. now destruct (String.eqb a k). Qed.

Lemma dict_in_put k f src kwargs task :
  dict_in k (Tasks.put f src kwargs task) = String.eqb f k || dict_in k task.
Proof. apply dict_in_set. Qed.

Lemma dict_in_put_if k f src kwargs task :
  dict_in k (Tasks.put_if f src kwargs task)
  = String.eqb f k && dict_in src kwargs || dict_in k task.
Proof.
  unfold Tasks.put_if. destruct (dict_in src kwargs).
  - now rewrite dict_in_set, andb_true_r.
  - now rewrite andb_false_r.
Qed.

(** Comparisons of two literals are decided by evaluation; comparisons with
    a variable are left for case analysis. *)
Ltac decide_literals :=
  repeat match goal with
         | |- context [String.eqb ?a ?b] =>
             let v := eval vm_compute in (String.eqb a b) in
             first [constr_eq v true | constr_eq v false];
             change (String.eqb a b) with v; cbv iota
         end.

(** For the seven other types the payload holds the type tag, the required
    fields, and the optional fields that were supplied, and nothing else. *)
Lemma createTask_task_fields task_type kwargs k :
  In task_type Table.other_types ->
  dict_in k (Tasks.createTask_task task_type kwargs)
  = Table.expected task_type kwargs k.
Proof.
  intros Hty. cbn in Hty.
  repeat (destruct Hty as [<-|Hty]); [..|contradiction];
    unfold Table.expected, Tasks.createTask_task, Table.required,
           Table.optional, Table.kwarg;
    decide_literals; cbn [existsb]; decide_literals;
    repeat (rewrite dict_in_put || rewrite dict_in_put_if || rewrite dict_in_set);
    rewrite dict_in_single;
    repeat match goal with
           | |- context [String.eqb ?a k] => destruct (String.eqb a k); cbn [andb orb]
           end;
    try reflexivity;
    repeat match goal with
           | |- context [dict_in ?a kwargs] => destruct (dict_in a kwargs); cbn [andb orb]
           end;
    reflexivity.
Qed.

(** ** base64 text without padding *)

Lemma sextet_not_pad c v : Base64.sextet c = Some v -> is_char 61 c = false.
Proof.
  unfold Base64.sextet, is_upper, is_lower, is_digit, between, is_char.
  intros H. destruct (N.eqb_spec (code c) 61) as [E|]; [|reflexivity].
  rewrite E in H. cbn in H. discriminate.
Qed.

Lemma sextet_ascii c v : Base64.sextet c = Some v -> Base64.is_ascii c = true.
Proof.
  unfold Base64.sextet, Base64.is_ascii, is_upper, is_lower, is_digit, between, is_char.
  intros H. apply N.ltb_lt.
  repeat match type of H with
         | (if ?b then _ else _) = _ => destruct b eqn:?
         end; try discriminate;
    repeat match goal with
           | E : (_ && _) = true |- _ => apply andb_prop in E as [? ?]
           | E : (_ <=? _)%N = true |- _ => apply N.leb_le in E
           | E : (_ =? _)%N = true |- _ => apply N.eqb_eq in E
           end; lia.
Qed.

Lemma a2b_unpadded s :
  forall quad_pos leftchar pads,
    (quad_pos < 4)%nat ->
    unpadded s = true ->
    (Base64.a2b s quad_pos leftchar pads = None
     <-> (quad_pos + String.length s) mod 4 <> 0)%nat.
Proof.
  induction s as [|c s IH]; intros q l p Hq Hs.
  - cbn [Base64.a2b String.length]. rewrite Nat.add_0_r.
    destruct q as [|[|[|[|q]]]]; try lia; cbn; split; try congruence;
      try discriminate; intros; exfalso; auto.
  - cbn [unpadded] in Hs. apply andb_prop in Hs as [Hc Hs].
    destruct (Base64.sextet c) as [v|] eqn:Ev; [|discriminate].
    cbn [Base64.a2b String.length]. rewrite (sextet_not_pad c v Ev), Ev.
    destruct q as [|[|[|[|q]]]]; try lia.
    + rewrite (IH 1%nat v 0%nat) by (try lia; assumption).
      replace (0 + S (String.length s))%nat with (1 + String.length s)%nat by lia.
      reflexivity.
    + destruct (Base64.a2b s 2 _ 0) eqn:E.
      * cbn [option_map]. split; [discriminate|].
        intros H. exfalso. apply H.
        destruct (Nat.eq_dec ((2 + String.length s) mod 4) 0) as [Hz|Hnz].
        -- replace (1 + S (String.length s))%nat with (2 + String.length s)%nat by lia.
           exact Hz.
        -- apply (IH 2%nat (N.land v 15) 0%nat) in Hnz; [|lia|assumption].
           congruence.
      * cbn [option_map]. split; [|reflexivity]. intros _.
        replace (1 + S (String.length s))%nat with (2 + String.length s)%nat by lia.
        apply (IH 2%nat (N.land v 15) 0%nat); [lia|assumption|exact E].
    + destruct (Base64.a2b s 3 _ 0) eqn:E.
      * cbn [option_map]. split; [discriminate|].
        intros H. exfalso. apply H.
        destruct (Nat.eq_dec ((3 + String.length s) mod 4) 0) as [Hz|Hnz].
        -- replace (2 + S (String.length s))%nat with (3 + String.length s)%nat by lia.
           exact Hz.
        -- apply (IH 3%nat (N.land v 3) 0%nat) in Hnz; [|lia|assumption].
           congruence.
      * cbn [option_map]. split; [|reflexivity]. intros _.
        replace (2 + S (String.length s))%nat with (3 + String.length s)%nat by lia.
        apply (IH 3%nat (N.land v 3) 0%nat); [lia|assumption|exact E].
    + assert (Hm : ((3 + S (String.length s)) mod 4
                    = (0 + String.length s) mod 4)%nat).
      { replace (3 + S (String.length s))%nat
          with (String.length s + 1 * 4)%nat by lia.
        now rewrite Nat.Div0.mod_add. }
      rewrite Hm.
      destruct (Base64.a2b s 0 0 0) eqn:E.
      * cbn [option_map]. split; [discriminate|].
        intros H. apply (IH 0%nat 0%N 0%nat) in H; [|lia|assumption]. congruence.
      * cbn [option_map]. split; [|reflexivity]. intros _.
        apply (IH 0%nat 0%N 0%nat); [lia|assumption|exact E].
Qed.

(** A text of characters of the alphabet, without padding, is base64
    exactly when its length is a multiple of four. *)
Lemma b64decode_unpadded s :
  unpadded s = true ->
  (Base64.b64decode s = None <-> String.length s mod 4 <> 0)%nat.
Proof.
  intros Hs. unfold Base64.b64decode.
  assert (Ha : Base64.all_ascii s = true).
  { induction s as [|c s IH]; [reflexivity|].
    cbn [unpadded] in Hs. apply andb_prop in Hs as [Hc Hs].
    cbn [Base64.all_ascii]. rewrite (IH Hs), andb_true_r.
    destruct (Base64.sextet c) eqn:E; [|discriminate].
    now apply sextet_ascii in E. }
  rewrite Ha. now apply (a2b_unpadded s 0%nat 0%N 0%nat); [lia|].
Qed.

(** ** Akamai extractors *)

Section AkamaiProperties.
Context {RT : Runtime}.

Lemma nonempty_Some c v : Akamai.nonempty c = Some v -> c = Some v /\ v <> EmptyString.
Proof.
  destruct c as [x|]; cbn; [|discriminate].
  destruct (String.eqb_spec x EmptyString); [discriminate|].
  intros [= ->]. auto.
Qed.

Lemma nonempty_missing c : Akamai.nonempty c = None <-> missing c.
Proof.
  unfold missing. destruct c as [x|]; cbn.
  - destruct (String.eqb_spec x EmptyString) as [->|Hne].
    + split; auto.
    + split; [discriminate|]. intros [H|[= H]]; [discriminate|contradiction].
  - split; auto.
Qed.


(** C8, as amended.  Each extractor clears the headers of the session
    before its first request and leaves the cookie jar as it was: the
    first request is sent with no session header and with every cookie
    the session held before. *)
Theorem fetch_and_extract_clears_headers_only client website_url user_agent proxy w :
  (exists rq tail,
      trace (snd (AkamaiWeb.fetch_and_extract client website_url user_agent proxy w))
      = trace w ++ EvRequest rq :: tail
      /\ req_session rq = cleared (session w))
  /\ (exists rq tail,
         trace (snd (AkamaiSBSD.fetch_and_extract client website_url user_agent proxy w))
         = trace w ++ EvRequest rq :: tail
         /\ req_session rq = cleared (session w)).
Proof.
  destruct w as [s rs tr]. split.
  - unfold AkamaiWeb.fetch_and_extract, Client.get, bind, session_headers_clear,
      session_request, get_session, ret, cleared.
    cbn [remote session trace session_headers session_cookies].
    destruct rs as [|r rs]; [now eexists _, []|].
    destruct (negb (status_code r =? 200)%Z); [now eexists _, []|].
    destruct (AkamaiWeb._get_akamai_url (text r) website_url) as [[b u]|];
      [|now eexists _, []].
    destruct (String.eqb u EmptyString); [now eexists _, []|].
    destruct (Akamai.nonempty (dict_get "_abck" (cookies r)));
      [|now eexists _, []].
    cbn [remote session trace].
    destruct rs as [|r2 rs];
      [eexists _, [_]; cbn [snd trace]; rewrite <- app_assoc; split; reflexivity|].
    cbn [remote session trace session_cookies].
    destruct (negb (status_code r2 =? 200)%Z);
      [eexists _, [_]; cbn [snd trace]; rewrite <- app_assoc; split; reflexivity|].
    destruct (Akamai.nonempty _);
      eexists _, [_]; cbn [snd trace]; rewrite <- app_assoc; split; reflexivity.
  - unfold AkamaiSBSD.fetch_and_extract, Client.get, bind, session_headers_clear,
      session_request, get_session, ret, cleared.
    cbn [remote session trace session_headers session_cookies].
    destruct rs as [|r rs]; [now eexists _, []|].
    destruct (negb (status_code r =? 200)%Z); [now eexists _, []|].
    destruct (Akamai.nonempty (AkamaiSBSD._get_sbsd_url _ _));
      [|now eexists _, []].
    cbn [remote session trace].
    destruct rs as [|r2 rs];
      [eexists _, [_]; cbn [snd trace]; rewrite <- app_assoc; split; reflexivity|].
    cbn [remote session trace session_cookies].
    destruct (negb (status_code r2 =? 200)%Z);
      [eexists _, [_]; cbn [snd trace]; rewrite <- app_assoc; split; reflexivity|].
    destruct (Akamai.nonempty _);
      [|destruct (Akamai.nonempty _)];
      eexists _, [_]; cbn [snd trace]; rewrite <- app_assoc; split; reflexivity.
Qed.

(** C9, as amended.  After a successful fetch of the SBSD script the
    extractor looks at the jar of the session: a [bm_so] cookie with a
    value that is not empty is returned, whatever [sbsd_o] is; failing
    that, an [sbsd_o] cookie with a value that is not empty is returned;
    failing both, the result is [None].  An empty cookie counts as
    missing. *)
Theorem sbsd_fetch_and_extract_cookie_choice
    client website_url user_agent proxy s r1 r2 rest tr sbsd_url :
  status_code r1 = 200%Z ->
  AkamaiSBSD._get_sbsd_url (text r1) (Akamai.origin_of website_url) = Some sbsd_url ->
  sbsd_url <> EmptyString ->
  status_code r2 = 200%Z ->
  let jar := session_cookies (received (received (cleared s) r1) r2) in
  let result :=
    fst (AkamaiSBSD.fetch_and_extract client website_url user_agent proxy
           {| session := s; remote := r1 :: r2 :: rest; trace := tr |}) in
  let found name v :=
    Return (sbsd_result (Akamai.origin_of website_url) sbsd_url (text r2) name v) in
  (forall v, dict_get "bm_so" jar = Some v -> v <> EmptyString ->
             result = found "bm_so" v)
  /\ (forall v, missing (dict_get "bm_so" jar) ->
                dict_get "sbsd_o" jar = Some v -> v <> EmptyString ->
                result = found "sbsd_o" v)
  /\ (missing (dict_get "bm_so" jar) -> missing (dict_get "sbsd_o" jar) ->
      result = Return VNone).
Proof.
  intros H1 Hurl Hne H2 jar result found.
  assert (Hrun : result
                 = match Akamai.nonempty (dict_get "bm_so" jar) with
                   | Some v => found "bm_so" v
                   | None =>
                       match Akamai.nonempty (dict_get "sbsd_o" jar) with
                       | Some v => found "sbsd_o" v
                       | None => Return VNone
                       end
                   end).
  { subst result jar found.
    unfold AkamaiSBSD.fetch_and_extract, Client.get, bind, session_headers_clear,
      session_request, get_session, ret, received, cleared, sbsd_result.
    cbn [remote session trace session_headers session_cookies].
    rewrite H1. cbn [Z.eqb Pos.eqb negb]. rewrite Hurl.
    cbn [Akamai.nonempty].
    destruct (String.eqb_spec sbsd_url EmptyString); [contradiction|].
    cbn [remote session trace session_headers session_cookies].
    rewrite H2. cbn [Z.eqb Pos.eqb negb].
    destruct (Akamai.nonempty (dict_get "bm_so" _)); [reflexivity|].
    destruct (Akamai.nonempty (dict_get "sbsd_o" _)); reflexivity. }
  repeat split.
  - intros v Hv Hvne. rewrite Hrun, Hv. cbn.
    now destruct (String.eqb_spec v EmptyString).
  - intros v Hso Hv Hvne. apply nonempty_missing in Hso.
    rewrite Hrun, Hso, Hv. cbn.
    now destruct (String.eqb_spec v EmptyString).
  - intros Hso Ho. apply nonempty_missing in Hso, Ho.
    now rewrite Hrun, Hso, Ho.
Qed.

(** C3, as amended.  [post_sbsd] returns [None] with nothing raised, no
    request sent and the session left as it was exactly for the payloads
    that [base64.b64decode] refuses or whose decoded bytes are not UTF-8.
    The decoder discards the characters outside the alphabet, so a text
    made of such characters is not refused: every other payload is
    posted. *)
Theorem post_sbsd_undecodable
    client sbsd_payload post_url user_agent website_url proxy w :
  Base64.b64decode sbsd_payload = None
  \/ (exists bytes, Base64.b64decode sbsd_payload = Some bytes
                    /\ Base64.utf8_valid bytes = false)
  <-> AkamaiSBSD.post_sbsd client sbsd_payload post_url user_agent website_url proxy w
      = (Return VNone, w).
Proof.
  unfold AkamaiSBSD.post_sbsd, Base64.decode_text. split.
  - intros [->|(bytes & -> & ->)]; reflexivity.
  - destruct (Base64.b64decode sbsd_payload) as [bytes|]; [|now left].
    destruct (Base64.utf8_valid bytes) eqn:Hvalid; [|right; now exists bytes].
    intros H. exfalso.
    assert (Hlen : List.length (trace w) = S (List.length (trace w))); [|lia].
    destruct w as [s rs tr].
    unfold Client.post, bind, session_request, get_session, ret in H.
    cbn [remote session trace] in H.
    destruct rs as [|r rs]; [discriminate H|].
    cbn [trace].
    destruct (negb (status_code r =? 200)%Z);
      [|cbn [session session_cookies] in H;
        destruct (dict_update (session_cookies s) (cookies r))];
      apply (f_equal (fun p => List.length (trace (snd p)))) in H;
      cbn [snd trace] in H; rewrite length_app in H; cbn [List.length] in H; lia.
Qed.
End AkamaiProperties.

(** ** The statements at concrete inputs *)

(** Witness of C1: two PENDING responses and then a ready one; one PENDING
    response and then a failed one. *)
Lemma getTaskResult_first_non_pending_witness :
  Client.key_missing (Client.api_key Example.client) = false
  /\ (exists s' tr',
         Tasks.getTaskResult (RT := Plain.runtime) Example.client (VStr "task-1") 1
           (Example.start [Example.pending; Example.pending; Example.ready; Example.failed])
         = (Return (VDict [("payload", VStr "abc")]),
            {| session := s'; remote := [Example.failed]; trace := tr' |})
         /\ actions tr'
            = poll_rounds 2 Example.client (VStr "task-1") 1
                ++ [poll_sent Example.client (VStr "task-1")])
  /\ (exists s' tr',
         Tasks.getTaskResult (RT := Plain.runtime) Example.client (VStr "task-1") 1
           (Example.start [Example.pending; Example.failed; Example.ready])
         = (Raise (APIError (VStr "Unexpected task status: failed")),
            {| session := s'; remote := [Example.ready]; trace := tr' |})
         /\ actions tr'
            = poll_rounds 1 Example.client (VStr "task-1") 1
                ++ [poll_sent Example.client (VStr "task-1")]).
Proof.
  split; [reflexivity|]. split.
  - apply (getTaskResult_first_non_pending (RT := Plain.runtime) Example.client
             eq_refl (VStr "task-1") 1%N Example.fresh []
             [Example.pending; Example.pending] Example.ready [Example.failed]
             [("status", VStr "ready"); ("solution", VDict [("payload", VStr "abc")])]);
      [repeat constructor | reflexivity | reflexivity].
  - apply (getTaskResult_first_non_pending (RT := Plain.runtime) Example.client
             eq_refl (VStr "task-1") 1%N Example.fresh []
             [Example.pending] Example.failed [Example.ready]
             [("status", VStr "failed")]);
      [repeat constructor | reflexivity | reflexivity].
Defined.

(** Witness of C7: three PENDING responses and no fourth. *)
Lemma getTaskResult_unbounded_witness :
  Client.key_missing (Client.api_key Example.client) = false
  /\ exists s' tr',
       Tasks.getTaskResult (RT := Plain.runtime) Example.client (VStr "task-1") 1
         (Example.start [Example.pending; Example.pending; Example.pending])
       = (Blocked, {| session := s'; remote := []; trace := tr' |})
       /\ actions tr'
          = actions [] ++ poll_rounds 3 Example.client (VStr "task-1") 1
              ++ [poll_sent Example.client (VStr "task-1")].
Proof.
  split; [reflexivity|].
  apply (proj1 (getTaskResult_unbounded (RT := Plain.runtime) Example.client
                  eq_refl (VStr "task-1") 1%N)
           3%nat Example.fresh []
           [Example.pending; Example.pending; Example.pending]);
    [reflexivity | repeat constructor].
Defined.

(** Witness of C10: a success response that holds a status and no task
    identifier. *)
Lemma createTask_missing_taskId_witness :
  Client.key_missing (Client.api_key Example.client) = false
  /\ exists s' tr',
       Tasks.createTask (RT := Plain.runtime) Example.client "KasadaCaptchaSolver"
         Example.kasada_kwargs (Example.start [Example.no_task_id])
       = (Return VNone, {| session := s'; remote := []; trace := tr' |})
       /\ actions tr'
          = actions []
            ++ [Sent POST Tasks.create_url
                  (Some (VDict [("api_key", VStr (Client.api_key Example.client));
                                ("task", VDict (Tasks.createTask_task "KasadaCaptchaSolver"
                                                  Example.kasada_kwargs))]))].
Proof.
  split; [reflexivity|].
  apply (createTask_missing_taskId (RT := Plain.runtime) Example.client eq_refl
           "KasadaCaptchaSolver" Example.kasada_kwargs Example.fresh []
           Example.no_task_id [] [("status", VStr "ok")]);
    reflexivity.
Defined.

(** Counterexample to C1 as stated: a response is not always an accepted object.  A
    success response whose body is a list ends the polling with
    [AttributeError], which carries no status; an error response whose
    body has the status "ready" ends it with the error of [_post], not
    with the solution. *)
Lemma getTaskResult_unaccepted_response_counterexample :
  status_code (Example.api 200 (VList [])) = 200%Z
  /\ fst (Tasks.getTaskResult (RT := Plain.runtime) Example.client (VStr "task-1") 1
            (Example.start [Example.api 200 (VList []); Example.ready]))
     = Raise AttributeError
  /\ fst (Tasks.getTaskResult (RT := Plain.runtime) Example.client (VStr "task-1") 1
            (Example.start
               [Example.api 500
                  (VDict [("status", VStr "ready");
                          ("solution", VDict [("payload", VStr "abc")])])]))
     = Raise (APIError (VStr "Request failed"))
  /\ fst (Tasks.getTaskResult (RT := Plain.runtime) Example.client (VStr "task-1") 1
            (Example.start
               [Example.page 200 "<html>maintenance</html>" []; Example.ready]))
     = Raise (APIError (VStr "Invalid response from API (200)")).
Proof. repeat split; vm_compute; reflexivity. Qed.

(** Counterexample to C10 as stated: a success response whose body is JSON and no
    object, a list or null, has no [taskId] field either, and [createTask]
    raises [AttributeError] on it. *)
Lemma createTask_non_object_counterexample :
  status_code (Example.api 200 (VList [])) = 200%Z
  /\ json_body (Example.api 200 (VList [])) = Some (VList [])
  /\ fst (Tasks.createTask (RT := Plain.runtime) Example.client "KasadaCaptchaSolver"
            Example.kasada_kwargs (Example.start [Example.api 200 (VList [])]))
     = Raise AttributeError
  /\ json_body (Example.api 200 VNone) = Some VNone
  /\ fst (Tasks.createTask (RT := Plain.runtime) Example.client "KasadaCaptchaSolver"
            Example.kasada_kwargs (Example.start [Example.api 200 VNone]))
     = Raise AttributeError.
Proof. repeat split; vm_compute; reflexivity. Qed.

(** Witness of C4, as amended: the example inside a script element. *)
Lemma parse_slider_url_example_witness :
  occurs Datadome.marker "<html><script>" = false
  /\ Datadome.parse_slider_url (RT := Plain.runtime)
       ("<html><script>" ++ example_snippet ++ "</html>")%string "D" "https://x/"
     = Return (VStr example_url).
Proof.
  split; [reflexivity|].
  apply (parse_slider_url_example (RT := Plain.runtime) "<html><script>" "</html>").
  reflexivity.
Defined.

(** Counterexample to C4 as stated: a page that mentions the marker before the script
    element holds the example and yet is refused. *)
Lemma parse_slider_url_first_marker_counterexample :
  Example.commented_page
  = ("<html><!-- var dd= --><script>" ++ example_snippet ++ "</html>")%string
  /\ Datadome.parse_slider_url (RT := Plain.runtime) Example.commented_page
       "D" "https://x/"
     = Raise parse_error.
Proof. split; vm_compute; reflexivity. Qed.


(** Counterexample to C8 as stated: the cookies another target left in the session are
    sent with the first request of the run, and one of them comes back as
    the [bm_sz], and as the [bm_so], of the new target. *)
Lemma fetch_and_extract_stale_cookies_counterexample :
  option_map req_session
    (Example.first_request
       (snd (AkamaiWeb.fetch_and_extract (RT := Plain.runtime) Example.client
               Example.site Example.agent None
               (Example.stale_start [Example.navigation; Example.script []]))))
  = Some {| session_headers := [];
            session_cookies := [("bm_sz", "stale"); ("bm_so", "old")] |}
  /\ fst (AkamaiWeb.fetch_and_extract (RT := Plain.runtime) Example.client
            Example.site Example.agent None
            (Example.stale_start [Example.navigation; Example.script []]))
     = Return (VDict [("base_url", VStr "https://www.example.com");
                      ("akamai_url", VStr "https://www.example.com/a1/b2");
                      ("script_data", VStr "/* script */");
                      ("abck", VStr "fresh");
                      ("bm_sz", VStr "stale")])
  /\ option_map req_session
       (Example.first_request
          (snd (AkamaiSBSD.fetch_and_extract (RT := Plain.runtime) Example.client
                  Example.site Example.agent None
                  (Example.stale_start [Example.sbsd_navigation; Example.script []]))))
     = Some {| session_headers := [];
               session_cookies := [("bm_sz", "stale"); ("bm_so", "old")] |}
  /\ fst (AkamaiSBSD.fetch_and_extract (RT := Plain.runtime) Example.client
            Example.site Example.agent None
            (Example.stale_start [Example.sbsd_navigation; Example.script []]))
     = Return (sbsd_result "https://www.example.com"
                 "https://www.example.com/.well-known/sbsd/abc?v=1"
                 "/* script */" "bm_so" "old").
Proof. repeat split; vm_compute; reflexivity. Qed.

(** Witness of C9, as amended: both cookies set, [sbsd_o] first. *)
Lemma sbsd_fetch_and_extract_cookie_choice_witness :
  status_code Example.sbsd_navigation = 200%Z
  /\ AkamaiSBSD._get_sbsd_url (RT := Plain.runtime) (text Example.sbsd_navigation)
       (Akamai.origin_of (RT := Plain.runtime) Example.site)
     = Some Example.sbsd_post_url
  /\ Example.sbsd_post_url <> EmptyString
  /\ dict_get "bm_so"
       (session_cookies
          (received (received (cleared Example.fresh) Example.sbsd_navigation)
             (Example.script [("sbsd_o", "B"); ("bm_so", "A")])))
     = Some "A"
  /\ fst (AkamaiSBSD.fetch_and_extract (RT := Plain.runtime) Example.client
            Example.site Example.agent None
            (Example.start [Example.sbsd_navigation;
                            Example.script [("sbsd_o", "B"); ("bm_so", "A")]]))
     = Return (sbsd_result "https://www.example.com" Example.sbsd_post_url
                 "/* script */" "bm_so" "A").
Proof.
  split; [reflexivity|]. split; [reflexivity|]. split; [discriminate|].
  split; [reflexivity|].
  apply (proj1 (sbsd_fetch_and_extract_cookie_choice (RT := Plain.runtime)
                  Example.client Example.site Example.agent None Example.fresh
                  Example.sbsd_navigation
                  (Example.script [("sbsd_o", "B"); ("bm_so", "A")]) [] []
                  Example.sbsd_post_url eq_refl eq_refl
                  ltac:(discriminate) eq_refl) "A");
    [reflexivity | discriminate].
Defined.

(** Counterexample to C9 as stated: with both cookies in the jar and [bm_so] empty, the
    extractor returns [sbsd_o]; with an empty [bm_so] alone it returns
    [None]. *)
Lemma sbsd_empty_bm_so_counterexample :
  dict_get "bm_so"
    (session_cookies
       (received (received (cleared Example.fresh) Example.sbsd_navigation)
          (Example.script [("bm_so", EmptyString); ("sbsd_o", "B")])))
  = Some EmptyString
  /\ dict_get "sbsd_o"
       (session_cookies
          (received (received (cleared Example.fresh) Example.sbsd_navigation)
             (Example.script [("bm_so", EmptyString); ("sbsd_o", "B")])))
     = Some "B"
  /\ fst (AkamaiSBSD.fetch_and_extract (RT := Plain.runtime) Example.client
            Example.site Example.agent None
            (Example.start [Example.sbsd_navigation;
                            Example.script [("bm_so", EmptyString); ("sbsd_o", "B")]]))
     = Return (sbsd_result "https://www.example.com" Example.sbsd_post_url
                 "/* script */" "sbsd_o" "B")
  /\ fst (AkamaiSBSD.fetch_and_extract (RT := Plain.runtime) Example.client
            Example.site Example.agent None
            (Example.start [Example.sbsd_navigation;
                            Example.script [("bm_so", EmptyString)]]))
     = Return VNone.
Proof. repeat split; vm_compute; reflexivity. Qed.

(** Witness of C3, as amended: a payload with incorrect padding, and a
    payload that decodes to a byte that is not UTF-8. *)
Lemma post_sbsd_undecodable_witness :
  (Base64.b64decode "abc" = None
   /\ AkamaiSBSD.post_sbsd (RT := Plain.runtime) Example.client "abc"
        Example.sbsd_post_url Example.agent Example.site None (Example.start [])
      = (Return VNone, Example.start []))
  /\ (Base64.b64decode "/w==" = Some (String (ascii_of_nat 255) EmptyString)
      /\ Base64.utf8_valid (String (ascii_of_nat 255) EmptyString) = false
      /\ AkamaiSBSD.post_sbsd (RT := Plain.runtime) Example.client "/w=="
           Example.sbsd_post_url Example.agent Example.site None (Example.start [])
         = (Return VNone, Example.start [])).
Proof.
  split.
  - split; [reflexivity|].
    apply (proj1 (post_sbsd_undecodable (RT := Plain.runtime) Example.client "abc"
                    Example.sbsd_post_url Example.agent Example.site None
                    (Example.start []))).
    left. reflexivity.
  - split; [reflexivity|]. split; [reflexivity|].
    apply (proj1 (post_sbsd_undecodable (RT := Plain.runtime) Example.client "/w=="
                    Example.sbsd_post_url Example.agent Example.site None
                    (Example.start []))).
    right. exists (String (ascii_of_nat 255) EmptyString). split; reflexivity.
Defined.

(** Counterexample to C3 as stated: on a payload that is not base64 nothing is raised;
    the call returns [None].  And a text without one character of the
    alphabet is decoded, to the empty text, and posted. *)
Lemma post_sbsd_not_raised_counterexample :
  Base64.b64decode "abc" = None
  /\ fst (AkamaiSBSD.post_sbsd (RT := Plain.runtime) Example.client "abc"
            Example.sbsd_post_url Example.agent Example.site None (Example.start []))
     = Return VNone
  /\ ~ (exists e,
           fst (AkamaiSBSD.post_sbsd (RT := Plain.runtime) Example.client "abc"
                  Example.sbsd_post_url Example.agent Example.site None
                  (Example.start []))
           = Raise e)
  /\ Base64.decode_text "!!!!" = Some EmptyString
  /\ actions
       (trace (snd (AkamaiSBSD.post_sbsd (RT := Plain.runtime) Example.client "!!!!"
                      Example.sbsd_post_url Example.agent Example.site None
                      (Example.start [Example.script []]))))
     = [Sent POST "https://www.example.com/.well-known/sbsd/abc"
          (Some (VDict [("body", VStr EmptyString)]))].
Proof.
  split; [reflexivity|]. split; [reflexivity|].
  split; [intros [e H]; vm_compute in H; discriminate H|].
  split; vm_compute; reflexivity.
Qed.

(** * Further properties *)

(** ** The API client on every response *)

Section ApiClient.
Context {RT : Runtime}.
Variable client : Client.t.

(** X1.  Without a key no call reaches the transport: [_post], [createTask] and
    [getTaskResult] raise [MissingAPIKeyError] and leave the session, the
    responses and the trace as they were. *)
Theorem api_calls_without_key w :
  Client.key_missing (Client.api_key client) = true ->
  (forall url payload proxy,
      Client._post client url payload proxy w = (Raise missing_key, w))
  /\ (forall task_type kwargs,
         Tasks.createTask client task_type kwargs w = (Raise missing_key, w))
  /\ (forall task_id interval,
         Tasks.getTaskResult client task_id interval w = (Raise missing_key, w)).
Proof.
  intros Hk.
  assert (Hp : forall url payload proxy,
             Client._post client url payload proxy w = (Raise missing_key, w)).
  { intros. unfold Client._post. now rewrite Hk. }
  repeat split.
  - exact Hp.
  - intros. unfold Tasks.createTask, bind. now rewrite Hp.
  - intros. unfold Tasks.getTaskResult. cbn [Tasks.getTaskResult_loop].
    unfold bind. now rewrite Hp.
Qed.

Hypothesis key_ok : Client.key_missing (Client.api_key client) = false.

Lemma _post_run url payload proxy s r rs tr :
  Client._post client url payload proxy
    {| session := s; remote := r :: rs; trace := tr |}
  = (post_outcome r,
     {| session := received s r; remote := rs;
        trace := tr ++ [EvRequest (api_request client url payload proxy s)] |}).
Proof.
  unfold Client._post. rewrite key_ok.
  unfold bind, session_request, received, api_request, post_outcome, error_message.
  cbn [remote session trace].
  destruct (json_body r) as [data|]; [|reflexivity].
  destruct (400 <=? status_code r)%Z; [|reflexivity].
  destruct data; try reflexivity.
  cbn [attr_get ret]. unfold py_or.
  destruct (truthy (py_get entries "error_description")); [reflexivity|].
  cbn [attr_get ret]. destruct (truthy (py_get entries "error")); reflexivity.
Qed.

Lemma createTask_run task_type kwargs s r rs tr :
  Tasks.createTask client task_type kwargs
    {| session := s; remote := r :: rs; trace := tr |}
  = (create_outcome r,
     {| session := received s r; remote := rs;
        trace := tr ++ [EvRequest
                          (api_request client Tasks.create_url
                             [("task", VDict (Tasks.createTask_task task_type kwargs))]
                             None s)] |}).
Proof.
  unfold Tasks.createTask, bind at 1. rewrite _post_run.
  unfold create_outcome.
  destruct (post_outcome r) as [data|e|]; try reflexivity.
  destruct data; reflexivity.
Qed.

(** The round that ends the polling, whatever the response is. *)
Lemma loop_last_step fuel task_id interval s r rs tr :
  is_pending r = false ->
  Tasks.getTaskResult_loop (S fuel) client task_id interval
    {| session := s; remote := r :: rs; trace := tr |}
  = (poll_outcome r,
     {| session := received s r; remote := rs;
        trace := tr ++ [EvRequest
                          (api_request client Tasks.get_url [("taskId", task_id)]
                             None s)] |}).
Proof.
  intros Hp. cbn [Tasks.getTaskResult_loop]. unfold bind at 1. rewrite _post_run.
  unfold poll_outcome. unfold is_pending, answer in Hp. unfold post_outcome in *.
  destruct (json_body r) as [data|]; [|reflexivity].
  destruct (400 <=? status_code r)%Z.
  { destruct data; reflexivity. }
  destruct data; try reflexivity.
  unfold bind at 1. cbn [attr_get ret]. rewrite Hp.
  destruct (py_eq_str (py_get entries "status") "ready"); reflexivity.
Qed.

Lemma getTaskResult_after_pending task_id interval s tr pend r rest :
  Forall (fun r => is_pending r = true) pend ->
  is_pending r = false ->
  exists s' tr',
    Tasks.getTaskResult client task_id interval
      {| session := s; remote := pend ++ r :: rest; trace := tr |}
    = (poll_outcome r, {| session := s'; remote := rest; trace := tr' |})
    /\ actions tr'
       = actions tr ++ poll_rounds (List.length pend) client task_id interval
           ++ [poll_sent client task_id].
Proof.
  intros Hpend Hr. unfold Tasks.getTaskResult. cbn [remote].
  rewrite length_app. cbn [List.length].
  replace (S (List.length pend + S (List.length rest)))
    with (List.length pend + S (S (List.length rest))) by lia.
  destruct (loop_pending_prefix client key_ok task_id interval pend Hpend
              (S (S (List.length rest))) s (r :: rest) tr)
    as (s1 & tr1 & Hloop & Hact1).
  rewrite Hloop, (loop_last_step _ _ _ _ _ _ _ Hr).
  eexists _, _. split; [reflexivity|].
  unfold actions in *. rewrite map_app, Hact1. cbn [map action_of].
  now rewrite <- app_assoc.
Qed.

Lemma pending_span (rs : list Response) :
  exists pend rest,
    rs = pend ++ rest
    /\ Forall (fun r => is_pending r = true) pend
    /\ match rest with [] => True | r :: _ => is_pending r = false end.
Proof.
  induction rs as [|r rs (pend & rest & -> & Hp & Hr)].
  - now exists [], [].
  - destruct (is_pending r) eqn:E.
    + exists (r :: pend), rest. repeat split; [now constructor|exact Hr].
    + exists [], (r :: pend ++ rest). repeat split; [constructor|exact E].
Qed.

Lemma post_outcome_not_blocked r : post_outcome r <> Blocked.
Proof.
  unfold post_outcome. destruct (json_body r) as [data|]; [|discriminate].
  destruct (400 <=? status_code r)%Z; [|discriminate].
  destruct data; discriminate.
Qed.

Lemma poll_outcome_not_blocked r : poll_outcome r <> Blocked.
Proof.
  unfold poll_outcome. pose proof (post_outcome_not_blocked r).
  destruct (post_outcome r) as [data|e|]; try discriminate; [|contradiction].
  destruct data; try discriminate.
  destruct (py_eq_str _ _); discriminate.
Qed.

(** X2.  A response without a JSON body is an [APIError] that quotes its status
    code, whatever the code is, 200 included: [_post] and [createTask]
    raise it, and so does [getTaskResult] when it meets such a response
    after any number of PENDING ones, without a retry. *)
Theorem invalid_json_raises r :
  json_body r = None ->
  (forall url payload proxy s rs tr,
      fst (Client._post client url payload proxy
             {| session := s; remote := r :: rs; trace := tr |})
      = Raise (invalid_response r))
  /\ (forall task_type kwargs s rs tr,
         fst (Tasks.createTask client task_type kwargs
                {| session := s; remote := r :: rs; trace := tr |})
         = Raise (invalid_response r))
  /\ (forall task_id interval s tr pend rest,
         Forall (fun r => is_pending r = true) pend ->
         exists s' tr',
           Tasks.getTaskResult client task_id interval
             {| session := s; remote := pend ++ r :: rest; trace := tr |}
           = (Raise (invalid_response r),
              {| session := s'; remote := rest; trace := tr' |})
           /\ actions tr'
              = actions tr ++ poll_rounds (List.length pend) client task_id interval
                  ++ [poll_sent client task_id]).
Proof.
  intros Hj.
  assert (Hpost : post_outcome r = Raise (invalid_response r))
    by (unfold post_outcome; now rewrite Hj).
  repeat split.
  - intros. now rewrite _post_run.
  - intros. rewrite createTask_run. cbn [fst]. unfold create_outcome. now rewrite Hpost.
  - intros task_id interval s tr pend rest Hpend.
    assert (Hr : is_pending r = false)
      by (unfold is_pending, answer; rewrite Hj; now destruct (400 <=? _)%Z).
    destruct (getTaskResult_after_pending task_id interval s tr pend r rest Hpend Hr)
      as (s' & tr' & Hrun & Hact).
    exists s', tr'. split; [|exact Hact].
    rewrite Hrun. unfold poll_outcome. now rewrite Hpost.
Qed.

Lemma error_message_truthy d : truthy (error_message d) = true.
Proof.
  unfold error_message.
  destruct (truthy (py_get d "error_description")) eqn:E1; [exact E1|].
  destruct (truthy (py_get d "error")) eqn:E2; [exact E2|]. reflexivity.
Qed.

(** X3.  An error status with a JSON object is an [APIError] whose message is
    [error_description] when that is true, else [error] when that is true,
    else a fixed text; the message is never false or empty.  [_post] and
    [createTask] raise it, and [getTaskResult] raises it after any number
    of PENDING responses. *)
Theorem error_status_raises r d :
  (400 <= status_code r)%Z ->
  json_body r = Some (VDict d) ->
  truthy (error_message d) = true
  /\ (forall url payload proxy s rs tr,
         fst (Client._post client url payload proxy
                {| session := s; remote := r :: rs; trace := tr |})
         = Raise (APIError (error_message d)))
  /\ (forall task_type kwargs s rs tr,
         fst (Tasks.createTask client task_type kwargs
                {| session := s; remote := r :: rs; trace := tr |})
         = Raise (APIError (error_message d)))
  /\ (forall task_id interval s tr pend rest,
         Forall (fun r => is_pending r = true) pend ->
         exists s' tr',
           Tasks.getTaskResult client task_id interval
             {| session := s; remote := pend ++ r :: rest; trace := tr |}
           = (Raise (APIError (error_message d)),
              {| session := s'; remote := rest; trace := tr' |})
           /\ actions tr'
              = actions tr ++ poll_rounds (List.length pend) client task_id interval
                  ++ [poll_sent client task_id]).
Proof.
  intros Hs Hj. apply Z.leb_le in Hs.
  assert (Hpost : post_outcome r = Raise (APIError (error_message d)))
    by (unfold post_outcome; now rewrite Hj, Hs).
  split; [apply error_message_truthy|]. repeat split.
  - intros. now rewrite _post_run.
  - intros. rewrite createTask_run. cbn [fst]. unfold create_outcome. now rewrite Hpost.
  - intros task_id interval s tr pend rest Hpend.
    assert (Hr : is_pending r = false)
      by (unfold is_pending, answer; now rewrite Hs).
    destruct (getTaskResult_after_pending task_id interval s tr pend r rest Hpend Hr)
      as (s' & tr' & Hrun & Hact).
    exists s', tr'. split; [|exact Hact].
    rewrite Hrun. unfold poll_outcome. now rewrite Hpost.
Qed.

(** X4.  A JSON body that is not an object is not validated: with a success
    status [_post] returns it as it is, and [createTask] and
    [getTaskResult] then fail with [AttributeError] on its [get]; with an
    error status [_post] itself fails with [AttributeError]. *)
Theorem non_object_body_raises_AttributeError r v :
  json_body r = Some v ->
  (forall d, v <> VDict d) ->
  (forall url payload proxy s rs tr,
      fst (Client._post client url payload proxy
             {| session := s; remote := r :: rs; trace := tr |})
      = if (400 <=? status_code r)%Z then Raise AttributeError else Return v)
  /\ (forall task_type kwargs s rs tr,
         fst (Tasks.createTask client task_type kwargs
                {| session := s; remote := r :: rs; trace := tr |})
         = Raise AttributeError)
  /\ (forall task_id interval s tr pend rest,
         Forall (fun r => is_pending r = true) pend ->
         fst (Tasks.getTaskResult client task_id interval
                {| session := s; remote := pend ++ r :: rest; trace := tr |})
         = Raise AttributeError).
Proof.
  intros Hj Hv.
  assert (Hpost : post_outcome r
                  = if (400 <=? status_code r)%Z then Raise AttributeError
                    else Return v).
  { unfold post_outcome. rewrite Hj. destruct (400 <=? status_code r)%Z; [|reflexivity].
    destruct v; try reflexivity. now elim (Hv entries). }
  repeat split.
  - intros. now rewrite _post_run.
  - intros. rewrite createTask_run. cbn [fst]. unfold create_outcome. rewrite Hpost.
    destruct (400 <=? status_code r)%Z; [reflexivity|].
    destruct v; try reflexivity. now elim (Hv entries).
  - intros task_id interval s tr pend rest Hpend.
    assert (Hr : is_pending r = false).
    { unfold is_pending, answer. rewrite Hj. destruct (400 <=? _)%Z; [reflexivity|].
      destruct v; try reflexivity. now elim (Hv entries). }
    destruct (getTaskResult_after_pending task_id interval s tr pend r rest Hpend Hr)
      as (s' & tr' & Hrun & _).
    rewrite Hrun. cbn [fst]. unfold poll_outcome. rewrite Hpost.
    destruct (400 <=? status_code r)%Z; [reflexivity|].
    destruct v; try reflexivity. now elim (Hv entries).
Qed.

(** X5.  [createTask] returns a value only for a response that [_post] accepts
    and that is an object: the value is then the [taskId] field of that
    object, or [None] when the field is missing.  An error response never
    yields a task identifier. *)
Theorem createTask_returns_iff task_type kwargs s r rs tr v :
  fst (Tasks.createTask client task_type kwargs
         {| session := s; remote := r :: rs; trace := tr |})
  = Return v
  <-> exists d, answer r = Some d /\ v = py_get d "taskId".
Proof.
  rewrite createTask_run. cbn [fst].
  unfold create_outcome, post_outcome, answer.
  destruct (json_body r) as [data|].
  - destruct (400 <=? status_code r)%Z.
    + split; [destruct data; discriminate|]. intros (d & [=] & _).
    + destruct data; try (split; [discriminate|intros (d & [=] & _)]).
      split.
      * intros [= <-]. now exists entries.
      * intros (d & [= <-] & ->). reflexivity.
  - split; [discriminate|].
    destruct (400 <=? status_code r)%Z; intros (d & [=] & _).
Qed.

(** X6.  Polling is strictly sequential on every script of responses: the events
    of a call are [n] rounds of one request and one sleep, then one more
    request; the [n] responses read in those rounds are PENDING, one more
    response is read when there is one, and the call is still waiting
    exactly when the script has run out. *)
Theorem getTaskResult_sequential task_id interval w :
  exists n,
    (n <= List.length (remote w))%nat
    /\ Forall (fun r => is_pending r = true) (firstn n (remote w))
    /\ actions (trace (snd (Tasks.getTaskResult client task_id interval w)))
       = actions (trace w) ++ poll_rounds n client task_id interval
           ++ [poll_sent client task_id]
    /\ remote (snd (Tasks.getTaskResult client task_id interval w))
       = skipn (S n) (remote w)
    /\ (fst (Tasks.getTaskResult client task_id interval w) = Blocked
        <-> n = List.length (remote w)).
Proof.
  destruct w as [s rs tr]. cbn [remote trace].
  destruct (pending_span rs) as (pend & rest & -> & Hpend & Hrest).
  exists (List.length pend).
  assert (Hfirst : firstn (List.length pend) (pend ++ rest) = pend)
    by (rewrite firstn_app, Nat.sub_diag, firstn_all; cbn; apply app_nil_r).
  rewrite Hfirst, length_app.
  destruct rest as [|r rest].
  - rewrite app_nil_r.
    destruct (getTaskResult_pending_blocks client key_ok task_id interval s tr pend Hpend)
      as (s' & tr' & Hrun & Hact).
    rewrite Hrun. cbn [fst snd trace remote List.length].
    repeat split; try assumption; try lia.
    rewrite skipn_all2; [reflexivity|lia].
  - destruct (getTaskResult_after_pending task_id interval s tr pend r rest Hpend Hrest)
      as (s' & tr' & Hrun & Hact).
    rewrite Hrun. cbn [fst snd trace remote List.length].
    repeat split; try assumption; try lia.
    + replace (S (List.length pend)) with (List.length pend + 1)%nat by lia.
      rewrite skipn_app, skipn_all2 by lia.
      replace (List.length pend + 1 - List.length pend)%nat with 1%nat by lia.
      reflexivity.
    + intros H. now apply poll_outcome_not_blocked in H.
Qed.

(** X7.  [getTaskResult] returns a value only when the first response that is
    not PENDING is an accepted object with status "ready": the value is
    its [solution] field. *)
Theorem getTaskResult_returns_only_ready task_id interval w v :
  fst (Tasks.getTaskResult client task_id interval w) = Return v ->
  exists pend r rest d,
    remote w = pend ++ r :: rest
    /\ Forall (fun r => is_pending r = true) pend
    /\ answer r = Some d
    /\ py_get d "status" = VStr "ready"
    /\ v = py_get d "solution".
Proof.
  destruct w as [s rs tr]. cbn [remote]. intros Hret.
  destruct (pending_span rs) as (pend & rest & -> & Hpend & Hrest).
  destruct rest as [|r rest].
  - rewrite app_nil_r in Hret.
    destruct (getTaskResult_pending_blocks client key_ok task_id interval s tr pend Hpend)
      as (s' & tr' & Hrun & _).
    rewrite Hrun in Hret. discriminate.
  - destruct (getTaskResult_after_pending task_id interval s tr pend r rest Hpend Hrest)
      as (s' & tr' & Hrun & _).
    rewrite Hrun in Hret. cbn [fst] in Hret.
    unfold poll_outcome, post_outcome in Hret.
    destruct (json_body r) as [data|] eqn:Hj; [|discriminate].
    destruct (400 <=? status_code r)%Z eqn:Hs; [destruct data; discriminate|].
    destruct data; try discriminate.
    destruct (py_eq_str (py_get entries "status") "ready") eqn:Hready; [|discriminate].
    injection Hret as <-.
    exists pend, r, rest, entries. repeat split; try assumption.
    + unfold answer. now rewrite Hs, Hj.
    + now apply py_eq_str_true.
Qed.
End ApiClient.

(** ** Dictionaries *)

Lemma dict_get_set {A} k a (v : A) d :
  dict_get k (dict_set a v d) = if String.eqb a k then Some v else dict_get k d.
Proof.
  induction d as [|[k' v'] d IH]; cbn.
  - reflexivity.
  - destruct (String.eqb_spec k' a) as [->|Hne]; cbn.
    + destruct (String.eqb a k); reflexivity.
    + rewrite IH. destruct (String.eqb_spec a k) as [->|Hak]; [|reflexivity].
      destruct (String.eqb_spec k' k); [contradiction|reflexivity].
Qed.

Lemma dict_get_absent {A} k (d : dict A) : ~ In k (dict_keys d) -> dict_get k d = None.
Proof.
  induction d as [|[k' v'] d IH]; cbn; [reflexivity|].
  intros H. destruct (String.eqb_spec k' k) as [->|Hne]; [tauto|].
  apply IH. tauto.
Qed.

(** With unique names in [e], a lookup after [d.update(e)] answers from [e]
    first. *)
Lemma dict_get_update {A} k (e : dict A) :
  NoDup (dict_keys e) ->
  forall d, dict_get k (dict_update d e)
            = match dict_get k e with Some v => Some v | None => dict_get k d end.
Proof.
  unfold dict_update. induction e as [|[a v] e IH]; intros Hnd d; cbn; [reflexivity|].
  inversion Hnd as [|? ? Hnotin Hnd']; subst.
  rewrite (IH Hnd'), dict_get_set.
  destruct (String.eqb_spec a k) as [->|Hne].
  - now rewrite (dict_get_absent k e Hnotin).
  - reflexivity.
Qed.

Lemma dict_update_not_empty {A} (e d : dict A) : d <> [] -> dict_update d e <> [].
Proof.
  unfold dict_update. revert d. induction e as [|[a v] e IH]; intros d Hd; cbn; [exact Hd|].
  apply IH. destruct d as [|[k' v'] d]; [now elim Hd|].
  cbn. destruct (String.eqb k' a); discriminate.
Qed.

(** ** Akamai: posting sensor data and SBSD payloads *)

Section AkamaiPosts.
Context {RT : Runtime}.

(** X8.  [post_sensor] returns [None] for every status other than 201, a 200
    included and whatever the body says, and for a 201 response that sets
    no [_abck] cookie, even when the session already holds one.  It has
    then sent one POST with the sensor data and read one response. *)
Theorem post_sensor_returns_None
    client akamai_url sensor_data user_agent website_url proxy s r rest tr :
  status_code r <> 201%Z \/ missing (dict_get "_abck" (cookies r)) ->
  exists rq,
    AkamaiWeb.post_sensor client akamai_url sensor_data user_agent website_url proxy
      {| session := s; remote := r :: rest; trace := tr |}
    = (Return VNone,
       {| session := received s r; remote := rest; trace := tr ++ [EvRequest rq] |})
    /\ req_url rq = akamai_url
    /\ req_json rq = Some (VDict [("sensor_data", sensor_data)])
    /\ browser_request POST proxy (EvRequest rq).
Proof.
  intros H.
  unfold AkamaiWeb.post_sensor, Client.post, bind, session_request, received,
    get_session, ret.
  cbn [remote session trace session_headers session_cookies].
  eexists. split.
  - destruct (status_code r =? 201)%Z eqn:Est; cbn [negb].
    + apply Z.eqb_eq in Est. destruct H as [H|H]; [contradiction|].
      apply nonempty_missing in H. rewrite H. reflexivity.
    + destruct (json_body r) as [[]|]; try reflexivity.
      destruct (py_eq_str _ _); reflexivity.
  - cbn. repeat split.
Qed.

(** X9.  On a 201 response that sets [_abck], [post_sensor] returns a dictionary
    with the keys [_abck], [bm_sz] and [cookies], in this order: the cookie
    is under [_abck], and there is no key [abck], the one the docstring
    names.  [cookies] is the jar of the session after the response; with
    unique cookie names in the response, [_abck] and [bm_sz] are the values
    that jar holds, [bm_sz] being [None] when it holds none. *)
Theorem post_sensor_result
    client akamai_url sensor_data user_agent website_url proxy s r rest tr abck :
  status_code r = 201%Z ->
  dict_get "_abck" (cookies r) = Some abck ->
  abck <> EmptyString ->
  NoDup (dict_keys (cookies r)) ->
  let jar := session_cookies (received s r) in
  exists d,
    fst (AkamaiWeb.post_sensor client akamai_url sensor_data user_agent website_url
           proxy {| session := s; remote := r :: rest; trace := tr |})
    = Return (VDict d)
    /\ dict_keys d = ["_abck"; "bm_sz"; "cookies"]
    /\ dict_get "abck" d = None
    /\ py_get d "_abck" = VStr abck
    /\ py_get d "_abck" = cookie_value (dict_get "_abck" jar)
    /\ py_get d "bm_sz" = cookie_value (dict_get "bm_sz" jar)
    /\ py_get d "cookies" = AkamaiWeb.cookies_value jar.
Proof.
  intros Hst Habck Hne Hnd jar.
  unfold AkamaiWeb.post_sensor, Client.post, bind, session_request,
    get_session, ret.
  cbn [remote session trace session_headers session_cookies].
  rewrite Hst, Habck. cbn [Z.eqb Pos.eqb negb Akamai.nonempty].
  destruct (String.eqb_spec abck EmptyString); [contradiction|].
  cbn [fst session session_cookies].
  eexists. split; [reflexivity|].
  subst jar. unfold received. cbn [session_cookies].
  repeat split.
  - unfold py_get. cbn. rewrite (dict_get_update "_abck" _ Hnd), Habck. reflexivity.
  - unfold py_get. cbn. rewrite (dict_get_update "bm_sz" _ Hnd).
    unfold AkamaiWeb.cookie_or, Akamai.nonempty.
    destruct (dict_get "bm_sz" (cookies r)) as [v|]; [|reflexivity].
    destruct (String.eqb_spec v EmptyString) as [->|]; reflexivity.
Qed.

(** X10.  With a payload that decodes, [post_sbsd] sends one POST to the post URL
    without its query, with the decoded text as the [body] of a JSON
    object.  It returns [None] for a status other than 200 and for an empty
    jar; otherwise it returns the jar of the session, so that in a session
    that already holds a cookie every 200 response yields a result, whether
    or not it sets a cookie. *)
Theorem post_sbsd_result
    client sbsd_payload post_url user_agent website_url proxy s r rest tr decoded :
  Base64.decode_text sbsd_payload = Some decoded ->
  let jar := session_cookies (received s r) in
  let run :=
    AkamaiSBSD.post_sbsd client sbsd_payload post_url user_agent website_url proxy
      {| session := s; remote := r :: rest; trace := tr |} in
  (exists rq,
      snd run = {| session := received s r; remote := rest;
                   trace := tr ++ [EvRequest rq] |}
      /\ req_url rq
         = (scheme (urlparse post_url) ++ "://" ++ netloc (urlparse post_url)
              ++ path (urlparse post_url))%string
      /\ req_json rq = Some (VDict [("body", VStr decoded)])
      /\ browser_request POST proxy (EvRequest rq))
  /\ (status_code r <> 200%Z -> fst run = Return VNone)
  /\ (status_code r = 200%Z -> jar = [] -> fst run = Return VNone)
  /\ (status_code r = 200%Z -> jar <> [] ->
      fst run = Return (VDict [("cookies", AkamaiWeb.cookies_value jar)]))
  /\ (status_code r = 200%Z -> session_cookies s <> [] ->
      fst run = Return (VDict [("cookies", AkamaiWeb.cookies_value jar)])).
Proof.
  intros Hdec jar run.
  assert (Hrun : run
                 = (if (status_code r =? 200)%Z then
                      match jar with
                      | [] => Return VNone
                      | _ => Return (VDict [("cookies", AkamaiWeb.cookies_value jar)])
                      end
                    else Return VNone,
                    {| session := received s r; remote := rest;
                       trace := tr ++ [EvRequest
                         {| req_method := POST;
                            req_url := (scheme (urlparse post_url) ++ "://"
                                          ++ netloc (urlparse post_url)
                                          ++ path (urlparse post_url))%string;
                            req_headers :=
                              AkamaiSBSD.post_headers
                                (Akamai._extract_sec_ch_ua user_agent) user_agent
                                (Akamai.origin_of website_url) website_url;
                            req_json := Some (VDict [("body", VStr decoded)]);
                            req_proxy := proxy_arg proxy;
                            req_impersonate := "chrome133a";
                            req_verify := Some false;
                            req_session := s |}] |})).
  { subst run jar.
    unfold AkamaiSBSD.post_sbsd, Client.post, bind, session_request, received,
      get_session, ret, AkamaiWeb.cookies_value.
    rewrite Hdec.
    cbn [remote session trace session_headers session_cookies Client.json_arg truthy].
    destruct (status_code r =? 200)%Z; cbn [negb]; [|reflexivity].
    cbn [session session_cookies].
    destruct (dict_update (session_cookies s) (cookies r)); reflexivity. }
  rewrite Hrun. cbn [fst snd]. repeat split.
  - eexists. split; [reflexivity|]. cbn. repeat split.
  - intros H. apply Z.eqb_neq in H. now rewrite H.
  - intros H Hj. apply Z.eqb_eq in H. now rewrite H, Hj.
  - intros H Hj. apply Z.eqb_eq in H. rewrite H. destruct jar; [now elim Hj|reflexivity].
  - intros H Hs. apply Z.eqb_eq in H. rewrite H.
    assert (Hj : jar <> []) by (apply dict_update_not_empty; exact Hs).
    destruct jar; [now elim Hj|reflexivity].
Qed.

(** X11.  A payload written with the characters of the base64 alphabet and no
    padding is refused whenever its length is not a multiple of four:
    [post_sbsd] returns [None], sends nothing and leaves the session as it
    was. *)
Theorem post_sbsd_unpadded
    client sbsd_payload post_url user_agent website_url proxy w :
  unpadded sbsd_payload = true ->
  (String.length sbsd_payload mod 4 <> 0)%nat ->
  AkamaiSBSD.post_sbsd client sbsd_payload post_url user_agent website_url proxy w
  = (Return VNone, w).
Proof.
  intros Hu Hlen. apply (b64decode_unpadded _ Hu) in Hlen.
  unfold AkamaiSBSD.post_sbsd, Base64.decode_text. now rewrite Hlen.
Qed.
End AkamaiPosts.

(** ** Akamai: the extractors on every script of responses *)

Section AkamaiRuns.
Context {RT : Runtime}.

Ltac run_extractor :=
  unfold AkamaiWeb.fetch_and_extract, AkamaiSBSD.fetch_and_extract, Client.get,
    bind, session_headers_clear, session_request, get_session, ret, received, cleared;
  cbn [remote session trace session_headers session_cookies].

(** X12.  Whatever the remote side answers, an extractor sends at most two
    requests and never sleeps; each request is a GET without a body, sent
    without certificate verification, as chrome133a whatever the client
    was built with, and through the proxy of the call; it reads one
    response for each request that was answered, and the session ends
    without headers. *)
Theorem fetch_and_extract_requests client website_url user_agent proxy w :
  let sends run :=
    exists added,
      trace (snd run) = trace w ++ added
      /\ (List.length added <= 2)%nat
      /\ Forall (browser_request GET proxy) added
      /\ Forall (fun e => match e with
                          | EvRequest rq => req_json rq = None
                          | EvSleep _ => False
                          end) added
      /\ (remote (snd run) = skipn (List.length added) (remote w))
      /\ session_headers (session (snd run)) = [] in
  sends (AkamaiWeb.fetch_and_extract client website_url user_agent proxy w)
  /\ sends (AkamaiSBSD.fetch_and_extract client website_url user_agent proxy w).
Proof.
  destruct w as [s rs tr]. cbn zeta. split.
  - run_extractor.
    destruct rs as [|r rs].
    { eexists [_]. cbn. repeat split; repeat constructor. }
    destruct (negb (status_code r =? 200)%Z).
    { eexists [_]. cbn. repeat split; repeat constructor. }
    destruct (AkamaiWeb._get_akamai_url (text r) website_url) as [[b u]|].
    2:{ eexists [_]. cbn. repeat split; repeat constructor. }
    destruct (String.eqb u EmptyString).
    { eexists [_]. cbn. repeat split; repeat constructor. }
    destruct (Akamai.nonempty (dict_get "_abck" (cookies r))).
    2:{ eexists [_]. cbn. repeat split; repeat constructor. }
    cbn [remote session trace].
    destruct rs as [|r2 rs].
    { eexists [_; _]. cbn. rewrite <- app_assoc. repeat split; repeat constructor. }
    cbn [remote session trace session_cookies session_headers].
    destruct (negb (status_code r2 =? 200)%Z).
    { eexists [_; _]. cbn. rewrite <- app_assoc. repeat split; repeat constructor. }
    destruct (Akamai.nonempty _);
      eexists [_; _]; cbn; rewrite <- app_assoc; repeat split; repeat constructor.
  - run_extractor.
    destruct rs as [|r rs].
    { eexists [_]. cbn. repeat split; repeat constructor. }
    destruct (negb (status_code r =? 200)%Z).
    { eexists [_]. cbn. repeat split; repeat constructor. }
    destruct (Akamai.nonempty (AkamaiSBSD._get_sbsd_url _ _)).
    2:{ eexists [_]. cbn. repeat split; repeat constructor. }
    cbn [remote session trace].
    destruct rs as [|r2 rs].
    { eexists [_; _]. cbn. rewrite <- app_assoc. repeat split; repeat constructor. }
    cbn [remote session trace session_cookies session_headers].
    destruct (negb (status_code r2 =? 200)%Z).
    { eexists [_; _]. cbn. rewrite <- app_assoc. repeat split; repeat constructor. }
    destruct (Akamai.nonempty _); [|destruct (Akamai.nonempty _)];
      eexists [_; _]; cbn; rewrite <- app_assoc; repeat split; repeat constructor.
Qed.

(** X13.  When the navigation response is accepted, the Akamai-Web extractor
    fetches the script with the cookies of the navigation response in the
    jar, with [referer] and [origin] set and the three navigation headers
    removed.  The result is [None] unless the script response has status
    200 and the jar then holds a [bm_sz] that is not empty; [abck] is the
    value the navigation response has set, also when the script response
    sets another, and [bm_sz] is read from the jar. *)
Theorem web_fetch_and_extract_result
    client website_url user_agent proxy s r1 r2 rest tr base_url akamai_url abck :
  status_code r1 = 200%Z ->
  AkamaiWeb._get_akamai_url (text r1) website_url = Some (base_url, akamai_url) ->
  akamai_url <> EmptyString ->
  dict_get "_abck" (cookies r1) = Some abck ->
  abck <> EmptyString ->
  let jar := session_cookies (received (received (cleared s) r1) r2) in
  let run :=
    AkamaiWeb.fetch_and_extract client website_url user_agent proxy
      {| session := s; remote := r1 :: r2 :: rest; trace := tr |} in
  (exists rq1 rq2,
      snd run = {| session := received (received (cleared s) r1) r2; remote := rest;
                   trace := tr ++ [EvRequest rq1; EvRequest rq2] |}
      /\ req_url rq1 = website_url
      /\ req_url rq2 = akamai_url
      /\ req_session rq2 = received (cleared s) r1
      /\ dict_get "referer" (req_headers rq2) = Some website_url
      /\ dict_get "origin" (req_headers rq2) = Some base_url
      /\ dict_get "user-agent" (req_headers rq2) = Some user_agent
      /\ dict_get "upgrade-insecure-requests" (req_headers rq2) = None
      /\ dict_get "sec-fetch-user" (req_headers rq2) = None
      /\ dict_get "priority" (req_headers rq2) = None)
  /\ (status_code r2 <> 200%Z -> fst run = Return VNone)
  /\ (status_code r2 = 200%Z -> missing (dict_get "bm_sz" jar) ->
      fst run = Return VNone)
  /\ (forall bm_sz,
        status_code r2 = 200%Z -> dict_get "bm_sz" jar = Some bm_sz ->
        bm_sz <> EmptyString ->
        fst run = Return (VDict [("base_url", VStr base_url);
                                 ("akamai_url", VStr akamai_url);
                                 ("script_data", VStr (text r2));
                                 ("abck", VStr abck);
                                 ("bm_sz", VStr bm_sz)])).
Proof.
  intros H1 Hurl Hune Habck Hane jar run.
  assert (Hrun : exists rq1 rq2,
             run = (if (status_code r2 =? 200)%Z then
                      match Akamai.nonempty (dict_get "bm_sz" jar) with
                      | Some bm_sz =>
                          Return (VDict [("base_url", VStr base_url);
                                         ("akamai_url", VStr akamai_url);
                                         ("script_data", VStr (text r2));
                                         ("abck", VStr abck);
                                         ("bm_sz", VStr bm_sz)])
                      | None => Return VNone
                      end
                    else Return VNone,
                    {| session := received (received (cleared s) r1) r2;
                       remote := rest;
                       trace := tr ++ [EvRequest rq1; EvRequest rq2] |})
             /\ req_url rq1 = website_url
             /\ req_url rq2 = akamai_url
             /\ req_session rq2 = received (cleared s) r1
             /\ req_headers rq2
                = Akamai.script_headers
                    (Akamai.navigation_headers (Akamai._extract_sec_ch_ua user_agent)
                       user_agent
                       "text/html,application/xhtml+xml,application/xml;q=0.9,image/avif,image/webp,image/apng,*/*;q=0.8,application/signed-exchange;v=b3;q=0.7")
                    website_url base_url).
  { subst run jar. run_extractor.
    rewrite H1. cbn [Z.eqb Pos.eqb negb]. rewrite Hurl.
    destruct (String.eqb_spec akamai_url EmptyString); [contradiction|].
    rewrite Habck. cbn [Akamai.nonempty].
    destruct (String.eqb_spec abck EmptyString); [contradiction|].
    cbn [remote session trace session_headers session_cookies].
    eexists _, _. split.
    - destruct (status_code r2 =? 200)%Z; cbn [negb].
      + cbn [session session_cookies].
        destruct (Akamai.nonempty _); rewrite <- app_assoc; reflexivity.
      + rewrite <- app_assoc. reflexivity.
    - repeat split; reflexivity. }
  destruct Hrun as (rq1 & rq2 & Hrun & Hu1 & Hu2 & Hs2 & Hh2).
  rewrite Hrun. cbn [fst snd]. repeat split.
  - exists rq1, rq2. rewrite Hh2. repeat split; assumption || reflexivity.
  - intros H. apply Z.eqb_neq in H. now rewrite H.
  - intros H Hm. apply Z.eqb_eq in H. apply nonempty_missing in Hm. now rewrite H, Hm.
  - intros bm_sz H Hb Hbne. apply Z.eqb_eq in H. rewrite H, Hb. cbn [Akamai.nonempty].
    now destruct (String.eqb_spec bm_sz EmptyString).
Qed.

(** X14.  When the navigation response has a status other than 200, or holds no
    script tag of the SBSD pattern, the SBSD extractor returns [None]; the
    navigation GET is the only request it has sent and the next response is
    left unread.  No cookie is looked at on this path. *)
Theorem sbsd_fetch_and_extract_short_circuit
    client website_url user_agent proxy s r rest tr :
  status_code r <> 200%Z \/ search AkamaiSBSD.script_at (text r) = None ->
  exists rq,
    AkamaiSBSD.fetch_and_extract client website_url user_agent proxy
      {| session := s; remote := r :: rest; trace := tr |}
    = (Return VNone,
       {| session := received (cleared s) r; remote := rest;
          trace := tr ++ [EvRequest rq] |})
    /\ req_method rq = GET /\ req_url rq = website_url.
Proof.
  intros H. run_extractor. eexists. split.
  - destruct (status_code r =? 200)%Z eqn:Est; cbn [negb]; [|reflexivity].
    apply Z.eqb_eq in Est. destruct H as [H|H]; [contradiction|].
    unfold AkamaiSBSD._get_sbsd_url. now rewrite H.
  - split; reflexivity.
Qed.
End AkamaiRuns.

(** ** Text lemmas *)

Lemma starts_with_split p s : starts_with p s = true -> exists rest, s = (p ++ rest)%string.
Proof.
  revert s. induction p as [|a p IH]; intros s H; cbn in *.
  - now exists s.
  - destruct s as [|b s]; [discriminate|].
    apply andb_prop in H as [Hab Hp]. apply Ascii.eqb_eq in Hab. subst b.
    destruct (IH s Hp) as (rest & ->). now exists rest.
Qed.

Lemma drop_app p rest : drop (String.length p) (p ++ rest)%string = rest.
Proof. induction p as [|a p IH]; cbn; [reflexivity|exact IH]. Qed.

Lemma take_drop_while p s :
  s = (take_while p s ++ drop (String.length (take_while p s)) s)%string.
Proof.
  induction s as [|c s IH]; cbn; [reflexivity|].
  destruct (p c); cbn; [now rewrite <- IH|reflexivity].
Qed.

Lemma take_while_all p s : all_chars p (take_while p s) = true.
Proof.
  induction s as [|c s IH]; cbn; [reflexivity|].
  destruct (p c) eqn:E; cbn; [now rewrite E|reflexivity].
Qed.

Lemma take_while_app p v rest :
  all_chars p v = true ->
  match rest with String c _ => p c = false | EmptyString => True end ->
  take_while p (v ++ rest)%string = v.
Proof.
  intros Hv Hrest. induction v as [|c v IH]; cbn in *.
  - destruct rest as [|c rest]; [reflexivity|]. cbn. now rewrite Hrest.
  - apply andb_prop in Hv as [Hc Hv]. now rewrite Hc, (IH Hv).
Qed.

Lemma search_found f s r :
  search f s = Some r -> exists pre suf, s = (pre ++ suf)%string /\ f suf = Some r.
Proof.
  induction s as [|c s IH]; cbn.
  - destruct (f EmptyString) eqn:E; [|discriminate].
    intros [= <-]. now exists EmptyString, EmptyString.
  - destruct (f (String c s)) eqn:E.
    + intros [= <-]. now exists EmptyString, (String c s).
    + intros H. destruct (IH H) as (pre & suf & -> & Hf).
      now exists (String c pre), suf.
Qed.

Lemma search_skip f pre tail :
  (forall a b, pre = (a ++ b)%string -> b <> EmptyString -> f (b ++ tail)%string = None) ->
  search f (pre ++ tail)%string = search f tail.
Proof.
  induction pre as [|c pre IH]; intros H; [reflexivity|].
  assert (Hc : f (String c (pre ++ tail)%string) = None)
    by (apply (H EmptyString (String c pre)); [reflexivity|discriminate]).
  cbn [String.append search]. rewrite Hc. apply IH.
  intros a b -> Hb. apply (H (String c a) b); [reflexivity|exact Hb].
Qed.

Lemma occurs_app p pre rest : occurs p (pre ++ p ++ rest)%string = true.
Proof.
  induction pre as [|c pre IH].
  - cbn [String.append]. destruct (p ++ rest)%string eqn:E.
    + cbn. destruct p; [reflexivity|discriminate].
    + cbn [occurs]. rewrite <- E, starts_with_app. reflexivity.
  - cbn [String.append occurs]. rewrite IH. apply orb_true_r.
Qed.

(** A separator that holds the character [c] at its head at most cannot
    begin inside [pre] and run into a text that starts with [c]. *)
Lemma starts_with_before c sep pre tail :
  all_chars (fun a => negb (Ascii.eqb a c)) sep = true ->
  starts_with sep (pre ++ String c tail)%string = starts_with sep pre.
Proof.
  revert sep. induction pre as [|b pre IH]; intros sep H.
  - destruct sep as [|a sep]; [reflexivity|]. cbn in *.
    apply andb_prop in H as [H _]. apply negb_true_iff in H. now rewrite H.
  - destruct sep as [|a sep]; [reflexivity|]. cbn in *.
    apply andb_prop in H as [_ H]. now rewrite (IH sep H).
Qed.

Lemma clear_before_char c sep pre tail :
  all_chars (fun a => negb (Ascii.eqb a c))
    (match sep with String _ t => t | EmptyString => EmptyString end) = true ->
  occurs sep pre = false ->
  clear_before sep pre (String c tail) = true.
Proof.
  intros Hsep. induction pre as [|b pre IH]; intros H; [reflexivity|].
  cbn [occurs] in H. apply orb_false_elim in H as [H1 H2].
  cbn [clear_before]. rewrite (IH H2), andb_true_r. apply negb_true_iff.
  destruct sep as [|a sep]; [discriminate|].
  cbn [String.append starts_with] in *.
  now rewrite (starts_with_before c sep pre tail Hsep).
Qed.

(** ** The [sec-ch-ua] header *)

(** X15.  The header carries the digits that follow the first [Chrome/] of the
    user agent, up to the first character that is no digit: the major
    version.  A user agent without [Chrome/] gets the version 122.  The
    character after the digits is taken to be ASCII, the pattern [\d]
    being modelled on ASCII digits. *)
Theorem extract_sec_ch_ua_version user_agent :
  (occurs "Chrome/" user_agent = false ->
   Akamai._extract_sec_ch_ua user_agent = brands "122")
  /\ (forall pre version rest,
         user_agent = (pre ++ "Chrome/" ++ version ++ rest)%string ->
         occurs "Chrome/" pre = false ->
         version <> EmptyString ->
         all_chars is_digit version = true ->
         no_digit_ahead rest = true ->
         Akamai._extract_sec_ch_ua user_agent = brands version).
Proof.
  split.
  - intros H. unfold Akamai._extract_sec_ch_ua.
    assert (Hs : search Akamai.chrome_at user_agent = None).
    { induction user_agent as [|c s IH].
      - reflexivity.
      - cbn [occurs] in H. apply orb_false_elim in H as [H1 H2].
        cbn [search]. unfold Akamai.chrome_at at 1. rewrite H1. now apply IH. }
    now rewrite Hs.
  - intros pre version rest -> Hpre Hne Hdig Hrest.
    unfold Akamai._extract_sec_ch_ua.
    assert (Hs : search Akamai.chrome_at (pre ++ "Chrome/" ++ version ++ rest)%string
                 = Some version).
    { rewrite search_skip.
      - assert (Hat : Akamai.chrome_at ("Chrome/" ++ version ++ rest)%string
                      = Some version).
        { unfold Akamai.chrome_at. rewrite starts_with_app.
          change 7%nat with (String.length "Chrome/"). rewrite drop_app.
          rewrite take_while_app.
          - destruct (String.eqb_spec version EmptyString); [contradiction|reflexivity].
          - exact Hdig.
          - destruct rest as [|c rest]; [exact I|].
            cbn [no_digit_ahead] in Hrest. apply andb_prop in Hrest as [Hrest _].
            now apply negb_true_iff in Hrest. }
        change ("Chrome/" ++ version ++ rest)%string
          with (String "C" ("hrome/" ++ version ++ rest)%string) in *.
        cbn [search]. now rewrite Hat.
      - intros a b -> Hb. unfold Akamai.chrome_at.
        assert (Hclear : clear_before "Chrome/" (a ++ b)%string
                           (String "C" ("hrome/" ++ version ++ rest)) = true)
          by (apply clear_before_char; [reflexivity|exact Hpre]).
        assert (Hst : starts_with "Chrome/" (b ++ "Chrome/" ++ version ++ rest)%string
                      = false).
        { clear Hpre. induction a as [|c a IH].
          - cbn [String.append] in Hclear. destruct b as [|c b]; [now elim Hb|].
            cbn [clear_before] in Hclear. apply andb_prop in Hclear as [H _].
            now apply negb_true_iff in H.
          - cbn [String.append clear_before] in Hclear.
            apply andb_prop in Hclear as [_ H]. now apply IH. }
        now rewrite Hst. }
    now rewrite Hs.
Qed.

(** ** The script patterns *)

Lemma append_assoc_s (a b c : string) : ((a ++ b) ++ c = a ++ b ++ c)%string.
Proof. induction a as [|x a IH]; cbn; [reflexivity|now rewrite IH]. Qed.

Lemma segments_path_chars s :
  AkamaiWeb.segments s = true -> all_chars AkamaiWeb.is_path_char s = true.
Proof.
  induction s as [|c s IH]; [reflexivity|]. cbn [AkamaiWeb.segments all_chars].
  unfold AkamaiWeb.is_path_char.
  destruct (is_char 47 c); cbn [orb andb].
  - destruct s as [|d s]; [discriminate|].
    intros H. apply andb_prop in H as [_ H]. now apply IH.
  - intros H. apply andb_prop in H as [-> H]. now apply IH.
Qed.

Lemma lazy_src_found s r :
  AkamaiWeb.lazy_src s = Some r ->
  exists mid suf,
    s = (mid ++ suf)%string
    /\ all_chars (fun c => negb (Ascii.eqb c nl)) mid = true
    /\ AkamaiWeb.src_here suf = Some r.
Proof.
  induction s as [|c s IH]; cbn [AkamaiWeb.lazy_src].
  - destruct (AkamaiWeb.src_here EmptyString) eqn:E; [|discriminate].
    intros [= <-]. now exists EmptyString, EmptyString.
  - destruct (AkamaiWeb.src_here (String c s)) eqn:E.
    + intros [= <-]. now exists EmptyString, (String c s).
    + destruct (Ascii.eqb c nl) eqn:Ec; [discriminate|].
      intros H. destruct (IH H) as (mid & suf & -> & Hmid & Hsrc).
      exists (String c mid), suf. cbn [String.append all_chars]. now rewrite Ec, Hmid.
Qed.

Lemma src_here_found suf run :
  AkamaiWeb.src_here suf = Some run ->
  AkamaiWeb.path_ok run = true
  /\ exists post, suf = ("src=" ++ dq ++ run ++ dq ++ ">" ++ post)%string.
Proof.
  unfold AkamaiWeb.src_here.
  destruct (starts_with ("src=" ++ dq) suf) eqn:E; [|discriminate].
  destruct (starts_with_split _ _ E) as (t & ->).
  change (drop 5 (("src=" ++ dq) ++ t)%string) with t.
  destruct (AkamaiWeb.path_ok (take_while AkamaiWeb.is_path_char t)) eqn:Hok;
    [|discriminate].
  destruct (starts_with (dq ++ ">") _) eqn:Hq; [|discriminate].
  cbn [andb]. intros [= <-]. split; [exact Hok|].
  destruct (starts_with_split _ _ Hq) as (post & Hpost).
  exists post. rewrite (take_drop_while AkamaiWeb.is_path_char t) at 1.
  rewrite Hpost. reflexivity.
Qed.

Lemma folds_to_suffix a s r : folds_to a s = Some r -> exists x, s = (x ++ r)%string.
Proof.
  unfold folds_to. destruct s as [|b [|c s]]; try discriminate.
  destruct (_ && _ && _).
  { intros [= <-]. now exists (String b (String c EmptyString)). }
  destruct (_ && _ && _).
  { intros [= <-]. now exists (String b (String c EmptyString)). }
  destruct s as [|d s]; [discriminate|].
  destruct (_ && _ && _ && _); [|discriminate].
  intros [= <-]. now exists (String b (String c (String d EmptyString))).
Qed.

Lemma match_ci_suffix p : forall s r, match_ci p s = Some r -> exists x, s = (x ++ r)%string.
Proof.
  induction p as [|a p IH]; intros s r; cbn [match_ci].
  - intros [= <-]. now exists EmptyString.
  - destruct s as [|b s]; [discriminate|].
    destruct (Ascii.eqb (lower a) (lower b)).
    + intros H. destruct (IH _ _ H) as (x & ->). now exists (String b x).
    + destruct (folds_to a (String b s)) as [t|] eqn:Ef; [|discriminate].
      intros H. destruct (IH _ _ H) as (x & ->).
      destruct (folds_to_suffix _ _ _ Ef) as (y & ->).
      exists (y ++ x)%string. now rewrite append_assoc_s.
Qed.

Lemma greedy_src_found s m :
  AkamaiSBSD.greedy_src s = Some m ->
  exists a b, s = (a ++ b)%string /\ AkamaiSBSD.src_here b = Some m.
Proof.
  induction s as [|c s IH]; cbn [AkamaiSBSD.greedy_src]; [discriminate|].
  destruct (if is_char 62 c then None else AkamaiSBSD.greedy_src s) as [r|] eqn:E.
  - intros [= <-]. destruct (is_char 62 c); [discriminate|].
    destruct (IH E) as (a & b & -> & Hb). now exists (String c a), b.
  - intros H. now exists EmptyString, (String c s).
Qed.

Lemma take_while_stops p t d rest :
  drop (String.length (take_while p t)) t = String d rest -> p d = false.
Proof.
  induction t as [|c t IH]; cbn; [discriminate|].
  destruct (p c) eqn:E; cbn; [exact IH|].
  intros [= <- _]. exact E.
Qed.

Lemma occurs_ci_not_empty p s : occurs_ci_before_more p s = true -> s <> EmptyString.
Proof.
  intros H ->. cbn in H. destruct p; cbn in H; discriminate.
Qed.

Lemma sbsd_src_here_found b m :
  AkamaiSBSD.src_here b = Some m ->
  all_chars AkamaiSBSD.not_quote m = true
  /\ occurs_ci_before_more "/.well-known/sbsd/" m = true
  /\ exists x q q' rest,
       b = (x ++ String q (m ++ String q' rest))%string
       /\ is_quote q = true /\ is_quote q' = true.
Proof.
  unfold AkamaiSBSD.src_here.
  destruct (match_ci "src=" b) as [[|q t]|] eqn:Em; try discriminate.
  destruct (is_quote q) eqn:Hq; [|discriminate].
  destruct (drop _ t) as [|q' rest] eqn:Hd; [discriminate|].
  destruct (occurs_ci_before_more _ _) eqn:Ho; [|discriminate].
  intros [= <-]. split; [apply take_while_all|]. split; [exact Ho|].
  destruct (match_ci_suffix _ _ _ Em) as (x & ->).
  exists x, q, q', rest. repeat split; [|exact Hq|].
  - rewrite (take_drop_while AkamaiSBSD.not_quote t) at 1. now rewrite Hd.
  - apply take_while_stops in Hd. unfold AkamaiSBSD.not_quote in Hd.
    now apply negb_false_iff in Hd.
Qed.

Section ScriptPatterns.
Context {RT : Runtime}.

(** X16.  What [_get_akamai_url] extracts is a path that the page holds as the
    whole [src] of an opening script tag of type text/javascript, the
    attribute being on the line of the tag and the last one of the tag.
    The path is made of segments of letters, digits, hyphens and
    underscores, each after a slash: a path with a dot, a query or a host
    is never extracted.  The URL is this path joined to the origin of the
    site. *)
Theorem get_akamai_url_sound html website_url base_url akamai_url :
  AkamaiWeb._get_akamai_url html website_url = Some (base_url, akamai_url) ->
  exists pre mid path post,
    html = (pre ++ AkamaiWeb.script_tag ++ mid
              ++ "src=" ++ dq ++ path ++ dq ++ ">" ++ post)%string
    /\ all_chars (fun c => negb (Ascii.eqb c nl)) mid = true
    /\ AkamaiWeb.path_ok path = true
    /\ all_chars AkamaiWeb.is_path_char path = true
    /\ base_url = Akamai.origin_of website_url
    /\ akamai_url = urljoin base_url path.
Proof.
  unfold AkamaiWeb._get_akamai_url.
  destruct (search AkamaiWeb.script_at html) as [path|] eqn:Hs; [|discriminate].
  destruct (String.eqb path EmptyString); [discriminate|].
  intros [= <- <-].
  destruct (search_found _ _ _ Hs) as (pre & suf & -> & Hat).
  unfold AkamaiWeb.script_at in Hat.
  destruct (starts_with AkamaiWeb.script_tag suf) eqn:Htag; [|discriminate].
  destruct (starts_with_split _ _ Htag) as (x & ->).
  rewrite drop_app in Hat.
  destruct (lazy_src_found _ _ Hat) as (mid & suf' & -> & Hmid & Hsrc).
  destruct (src_here_found _ _ Hsrc) as (Hok & post & ->).
  exists pre, mid, path, post. repeat split; try assumption.
  apply segments_path_chars. unfold AkamaiWeb.path_ok in Hok.
  destruct path as [|c p]; [discriminate|].
  now apply andb_prop in Hok as [_ Hok].
Qed.

(** X17.  What [_get_sbsd_url] extracts is a text the page holds between two
    quotes, of either kind each; it holds no quote itself, and it holds
    the segment /.well-known/sbsd/, in any case of the letters, with at
    least one character after it.  The text before the segment is not
    constrained.  The URL is this text joined to the base URL. *)
Theorem get_sbsd_url_sound html base_url sbsd_url :
  AkamaiSBSD._get_sbsd_url html base_url = Some sbsd_url ->
  exists before q src q' after,
    html = (before ++ String q (src ++ String q' after))%string
    /\ is_quote q = true /\ is_quote q' = true
    /\ all_chars AkamaiSBSD.not_quote src = true
    /\ occurs_ci_before_more "/.well-known/sbsd/" src = true
    /\ src <> EmptyString
    /\ sbsd_url = urljoin base_url src.
Proof.
  unfold AkamaiSBSD._get_sbsd_url.
  destruct (search AkamaiSBSD.script_at html) as [m|] eqn:Hs; [|discriminate].
  intros [= <-].
  destruct (search_found _ _ _ Hs) as (pre & suf & -> & Hat).
  unfold AkamaiSBSD.script_at in Hat.
  destruct (match_ci "<script" suf) as [[|c s']|] eqn:Em; try discriminate.
  destruct (is_char 62 c); [discriminate|].
  destruct (match_ci_suffix _ _ _ Em) as (x & ->).
  destruct (greedy_src_found _ _ Hat) as (a & b & -> & Hb).
  destruct (sbsd_src_here_found _ _ Hb) as (Hall & Hocc & y & q & q' & rest & -> & Hq & Hq').
  exists (pre ++ x ++ String c (a ++ y))%string, q, m, q', rest.
  repeat split; try assumption.
  - rewrite !append_assoc_s. cbn [String.append]. now rewrite !append_assoc_s.
  - now apply occurs_ci_not_empty in Hocc.
Qed.
End ScriptPatterns.

(** ** The values of a task payload *)

Lemma py_get_set k a v d :
  py_get (dict_set a v d) k = if String.eqb a k then v else py_get d k.
Proof. unfold py_get. rewrite dict_get_set. now destruct (String.eqb a k). Qed.

Lemma py_get_put k f src kwargs task :
  py_get (Tasks.put f src kwargs task) k
  = if String.eqb f k then py_get kwargs src else py_get task k.
Proof. apply py_get_set. Qed.

Lemma py_get_put_if k f src kwargs task :
  py_get (Tasks.put_if f src kwargs task) k
  = if String.eqb f k && dict_in src kwargs then py_get kwargs src else py_get task k.
Proof.
  unfold Tasks.put_if. destruct (dict_in src kwargs).
  - now rewrite py_get_set, andb_true_r.
  - now rewrite andb_false_r.
Qed.

Lemma py_get_not_in kwargs k : dict_in k kwargs = false -> py_get kwargs k = VNone.
Proof. unfold dict_in, py_get. now destruct (dict_get k kwargs). Qed.

Ltac payload_values kwargs :=
  unfold Tasks.createTask_task; decide_literals;
  repeat (rewrite py_get_put || rewrite py_get_put_if || rewrite py_get_set);
  decide_literals; cbn [andb];
  repeat match goal with
         | |- context [dict_in ?a kwargs] =>
             let E := fresh "E" in
             destruct (dict_in a kwargs) eqn:E; cbn [andb];
             try rewrite (py_get_not_in _ _ E)
         end;
  reflexivity.

(** X18.  The payload carries the task type under [type], and under every field
    of the table what the caller passed for it, [None] when the caller
    passed nothing: no field is checked, converted or defaulted. *)
Theorem createTask_task_values task_type kwargs :
  py_get (Tasks.createTask_task task_type kwargs) "type" = VStr task_type
  /\ forall field,
       In field (Table.required task_type ++ Table.optional task_type) ->
       py_get (Tasks.createTask_task task_type kwargs) field
       = py_get kwargs (Table.kwarg field).
Proof.
  unfold Table.required, Table.optional.
  repeat match goal with
         | |- context [String.eqb task_type ?l] =>
             destruct (String.eqb_spec task_type l) as [->|?]
         end;
    (split;
     [ try payload_values kwargs
     | intros field Hf; cbn [app In] in Hf;
       repeat (destruct Hf as [<-|Hf]); try contradiction;
       unfold Table.kwarg; decide_literals; try payload_values kwargs ]).
  unfold Tasks.createTask_task.
  repeat match goal with
         | H : task_type <> ?l |- context [String.eqb task_type ?l] =>
             destruct (String.eqb_spec task_type l); [contradiction|]
         end.
  reflexivity.
Qed.

(** X19.  A task type outside the eight the code knows is not refused: the
    payload is the type alone, whatever the caller passed. *)
Theorem createTask_task_unknown_type task_type kwargs :
  ~ In task_type ("KasadaCaptchaSolver" :: Table.other_types) ->
  Tasks.createTask_task task_type kwargs = [("type", VStr task_type)].
Proof.
  intros H. unfold Tasks.createTask_task.
  repeat match goal with
         | |- context [String.eqb task_type ?l] =>
             destruct (String.eqb_spec task_type l) as [->|?];
             [exfalso; apply H; cbn; tauto|]
         end.
  reflexivity.
Qed.

(** ** DataDome: the object and the URL *)

Lemma append_nil_r (s : string) : (s ++ EmptyString)%string = s.
Proof. induction s as [|c s IH]; cbn; [reflexivity|now rewrite IH]. Qed.

Lemma py_split_hd sep s : exists a l, py_split sep s = a :: l.
Proof.
  destruct (py_split sep s) as [|a l] eqn:E; [now apply split_from_cons in E|].
  now exists a, l.
Qed.

(** When the first marker of the page is followed by [obj] and the closing
    tag, and [obj] holds neither, the text handed to [json.loads] is [obj]
    with its single quotes turned into double quotes. *)
Lemma js_object_between pre obj post :
  occurs Datadome.marker pre = false ->
  occurs Datadome.marker obj = false ->
  occurs Datadome.closing obj = false ->
  Datadome.js_object (pre ++ Datadome.marker ++ obj ++ Datadome.closing ++ post)%string
  = Some (requoted obj).
Proof.
  intros Hpre Hobj Hclose. unfold Datadome.js_object, requoted.
  rewrite (split_at_first _ _ _ marker_not_empty (marker_clear _ _ Hpre)).
  cbn [nth_error].
  destruct (py_split_hd Datadome.marker (obj ++ Datadome.closing ++ post)%string)
    as (part & l & Hs).
  rewrite Hs. cbn [nth_error].
  assert (Hpart : part = (obj ++ Datadome.closing
                            ++ hd EmptyString (py_split Datadome.marker post))%string).
  { change part with (hd EmptyString (part :: l)). rewrite <- Hs.
    rewrite hd_split_prefix.
    - f_equal. apply (hd_split_prefix Datadome.marker Datadome.closing). reflexivity.
    - change (Datadome.closing ++ post)%string
        with (String "<" ("/script>" ++ post)%string).
      apply clear_before_char; [reflexivity|exact Hobj]. }
  rewrite Hpart.
  rewrite (split_at_first _ _ _ closing_not_empty); [reflexivity|].
  change (Datadome.closing ++ hd EmptyString (py_split Datadome.marker post))%string
    with (String "<" ("/script>" ++ hd EmptyString (py_split Datadome.marker post))%string).
  apply clear_before_char; [reflexivity|exact Hclose].
Qed.

Lemma escaped_chars c :
  quoted_char (UrlEncode.hexdigit (code c / 16)) = true
  /\ quoted_char (UrlEncode.hexdigit (code c mod 16)) = true.
Proof. destruct c as [[] [] [] [] [] [] [] []]; split; vm_compute; reflexivity. Qed.

Lemma quoted_char_no_separator c :
  quoted_char c = true -> is_char 61 c = false /\ is_char 38 c = false.
Proof.
  destruct c as [[] [] [] [] [] [] [] []]; vm_compute; intros H; split;
    reflexivity || discriminate H.
Qed.

Lemma quote_plus_chars s : all_chars quoted_char (UrlEncode.quote_plus s) = true.
Proof.
  induction s as [|c s IH]; [reflexivity|]. cbn [UrlEncode.quote_plus].
  destruct (UrlEncode.always_safe c) eqn:Es.
  - cbn [all_chars]. unfold quoted_char at 1. now rewrite Es, IH.
  - destruct (is_char 32 c).
    + cbn [all_chars]. now rewrite IH.
    + cbn [all_chars]. destruct (escaped_chars c) as [-> ->]. now rewrite IH.
Qed.

Lemma all_chars_app p a b :
  all_chars p (a ++ b)%string = all_chars p a && all_chars p b.
Proof.
  induction a as [|c a IH]; cbn; [reflexivity|]. now rewrite IH, andb_assoc.
Qed.

Lemma count_char_app n a b :
  count_char n (a ++ b)%string = (count_char n a + count_char n b)%nat.
Proof. induction a as [|c a IH]; cbn; [reflexivity|]. rewrite IH. lia. Qed.

Lemma quote_plus_count s :
  count_char 61 (UrlEncode.quote_plus s) = 0%nat
  /\ count_char 38 (UrlEncode.quote_plus s) = 0%nat.
Proof.
  pose proof (quote_plus_chars s) as H.
  induction (UrlEncode.quote_plus s) as [|c t IH]; [split; reflexivity|].
  cbn [all_chars] in H. apply andb_prop in H as [Hc Ht].
  destruct (quoted_char_no_separator c Hc) as [H1 H2].
  destruct (IH Ht) as [IH1 IH2]. cbn [count_char]. now rewrite H1, H2, IH1, IH2.
Qed.

Lemma all_quoted_query s : all_chars quoted_char s = true -> all_chars query_char s = true.
Proof.
  induction s as [|c s IH]; [reflexivity|]. cbn [all_chars].
  intros H. apply andb_prop in H as [Hc Hs]. rewrite (IH Hs). unfold query_char. now rewrite Hc.
Qed.

Section DataDomeUrls.
Context {RT : Runtime}.

Lemma pair_text_shape kv :
  all_chars query_char (pair_text kv) = true
  /\ count_char 61 (pair_text kv) = 1%nat
  /\ count_char 38 (pair_text kv) = 0%nat.
Proof.
  unfold pair_text.
  destruct (quote_plus_count (fst kv)) as [Hk1 Hk2].
  destruct (quote_plus_count (py_str (snd kv))) as [Hv1 Hv2].
  repeat split.
  - rewrite !all_chars_app, (all_quoted_query _ (quote_plus_chars (fst kv))),
      (all_quoted_query _ (quote_plus_chars (py_str (snd kv)))). reflexivity.
  - rewrite !count_char_app, Hk1, Hv1. reflexivity.
  - rewrite !count_char_app, Hk2, Hv2. reflexivity.
Qed.

Lemma join_amp_shape (params : dict value) :
  all_chars query_char (UrlEncode.join_amp (map pair_text params)) = true
  /\ count_char 61 (UrlEncode.join_amp (map pair_text params)) = List.length params
  /\ count_char 38 (UrlEncode.join_amp (map pair_text params))
     = (List.length params - 1)%nat.
Proof.
  induction params as [|kv params (IH1 & IH2 & IH3)]; [repeat split|].
  destruct (pair_text_shape kv) as (H1 & H2 & H3).
  destruct params as [|kv' params].
  - cbn [map UrlEncode.join_amp List.length]. repeat split; assumption.
  - cbn [map UrlEncode.join_amp] in *. cbn [List.length] in *.
    rewrite !all_chars_app, !count_char_app, H1, H2, H3, IH1, IH2, IH3.
    cbn. repeat split; lia.
Qed.

Lemma build_url_shape base params u :
  Datadome.build_url base params = Return (VStr u) ->
  exists query,
    u = (base ++ query)%string
    /\ all_chars query_char query = true
    /\ count_char 61 query = List.length params
    /\ count_char 38 query = (List.length params - 1)%nat.
Proof.
  unfold Datadome.build_url, UrlEncode.urlencode.
  destruct (existsb _ params); [discriminate|].
  intros [= <-]. eexists. split; [reflexivity|].
  apply (join_amp_shape params).
Qed.

(** X20.  The result depends on the page through the object alone: when the
    first marker of the page is followed by the object and the closing
    tag, the text before the marker and the text after the tag do not
    matter, and [json.loads] is given the object with every single quote,
    also one inside a string, turned into a double quote. *)
Theorem datadome_object_only pre obj post datadome_cookie referer :
  occurs Datadome.marker pre = false ->
  occurs Datadome.marker obj = false ->
  occurs Datadome.closing obj = false ->
  let page := (pre ++ Datadome.marker ++ obj ++ Datadome.closing ++ post)%string in
  let bare := (Datadome.marker ++ obj ++ Datadome.closing)%string in
  Datadome.parse_object page = Json.loads (requoted obj)
  /\ Datadome.parse_slider_url page datadome_cookie referer
     = Datadome.parse_slider_url bare datadome_cookie referer
  /\ Datadome.parse_interstitial_url page datadome_cookie referer
     = Datadome.parse_interstitial_url bare datadome_cookie referer.
Proof.
  intros Hpre Hobj Hclose page bare.
  assert (Hpage : Datadome.parse_object page = Json.loads (requoted obj)).
  { unfold Datadome.parse_object. subst page.
    now rewrite (js_object_between pre obj post Hpre Hobj Hclose). }
  assert (Hbare : Datadome.parse_object bare = Json.loads (requoted obj)).
  { unfold Datadome.parse_object. subst bare.
    pose proof (js_object_between EmptyString obj EmptyString eq_refl Hobj Hclose) as H.
    cbn [String.append] in H. rewrite append_nil_r in H. now rewrite H. }
  split; [exact Hpage|].
  unfold Datadome.parse_slider_url, Datadome.parse_interstitial_url.
  rewrite Hpage, Hbare. split; reflexivity.
Qed.

(** X21.  A URL that a parse function returns is its fixed base and a query of
    eight parameters, with seven separators between them, whatever the
    page, the cookie and the referer hold: every key and value is escaped,
    so that none of them can add a parameter or end the query. *)
Theorem datadome_url_parameters html datadome_cookie referer u :
  (Datadome.parse_slider_url html datadome_cookie referer = Return (VStr u) ->
   exists query,
     u = (slider_base ++ query)%string
     /\ all_chars query_char query = true
     /\ count_char 61 query = 8%nat
     /\ count_char 38 query = 7%nat)
  /\ (Datadome.parse_interstitial_url html datadome_cookie referer = Return (VStr u) ->
      exists query,
        u = (interstitial_base ++ query)%string
        /\ all_chars query_char query = true
        /\ count_char 61 query = 8%nat
        /\ count_char 38 query = 7%nat).
Proof.
  unfold Datadome.parse_slider_url, Datadome.parse_interstitial_url.
  destruct (Datadome.parse_object html) as [[| | | | | |parsed]|];
    try (split; discriminate).
  split.
  - destruct (py_eq_str (py_get parsed "t") "bv"); [discriminate|].
    intros H. apply build_url_shape in H. exact H.
  - intros H. apply build_url_shape in H. exact H.
Qed.

(** X22.  The interstitial function never returns [None]: it does not look at
    the field [t], and a page on which the slider function reports a
    blocked address still gets a URL from it. *)
Theorem parse_interstitial_url_never_None html datadome_cookie referer :
  Datadome.parse_interstitial_url html datadome_cookie referer <> Return VNone
  /\ (Datadome.parse_slider_url html datadome_cookie referer = Return VNone ->
      (exists u,
          Datadome.parse_interstitial_url html datadome_cookie referer
          = Return (VStr u))
      \/ Datadome.parse_interstitial_url html datadome_cookie referer
         = Raise UnicodeEncodeError).
Proof.
  unfold Datadome.parse_slider_url, Datadome.parse_interstitial_url.
  destruct (Datadome.parse_object html) as [[| | | | | |parsed]|];
    try (split; discriminate).
  split; [apply build_url_not_None|].
  intros _. unfold Datadome.build_url.
  destruct (UrlEncode.urlencode _) as [q|]; [left; eexists|right]; reflexivity.
Qed.

(** X23.  A marker followed by JSON that is not an object, a list or a number
    say, is not reported as a parse error: both functions fail with
    [AttributeError], exactly then. *)
Theorem datadome_non_object html datadome_cookie referer :
  (Datadome.parse_slider_url html datadome_cookie referer = Raise AttributeError
   <-> exists v, Datadome.parse_object html = Some v /\ is_object v = false)
  /\ (Datadome.parse_interstitial_url html datadome_cookie referer = Raise AttributeError
      <-> exists v, Datadome.parse_object html = Some v /\ is_object v = false).
Proof.
  unfold Datadome.parse_slider_url, Datadome.parse_interstitial_url, Datadome.build_url.
  destruct (Datadome.parse_object html) as [v|].
  - destruct v as [| | | | | |parsed];
      try (split; (split; [intros _; eexists; split; reflexivity|reflexivity])).
    split; split.
    + destruct (py_eq_str _ _); [discriminate|].
      destruct (UrlEncode.urlencode _); discriminate.
    + intros (v & [= <-] & H). discriminate H.
    + destruct (UrlEncode.urlencode _); discriminate.
    + intros (v & [= <-] & H). discriminate H.
  - split; (split; [discriminate|intros (v & [=] & _)]).
Qed.
End DataDomeUrls.

(** ** A client that was built *)

Section BuiltClient.
Context {RT : Runtime}.

Lemma post_outcome_not_missing_key r msg :
  post_outcome r <> Raise (MissingAPIKeyError msg).
Proof.
  unfold post_outcome, invalid_response.
  destruct (json_body r) as [data|]; [|discriminate].
  destruct (400 <=? status_code r)%Z; [|discriminate].
  destruct data; discriminate.
Qed.

(** X24.  The key is checked once: a client that [__init__] has returned holds
    the key it was given, and no call of [_post], [createTask] or
    [getTaskResult] on it raises [MissingAPIKeyError], whatever the remote
    side answers. *)
Theorem built_client_keeps_key api_key base_url impersonate client :
  Client.__init__ api_key base_url impersonate = Return client ->
  Client.api_key client = api_key
  /\ forall w msg,
       (forall url payload proxy,
           fst (Client._post client url payload proxy w)
           <> Raise (MissingAPIKeyError msg))
       /\ (forall task_type kwargs,
              fst (Tasks.createTask client task_type kwargs w)
              <> Raise (MissingAPIKeyError msg))
       /\ (forall task_id interval,
              fst (Tasks.getTaskResult client task_id interval w)
              <> Raise (MissingAPIKeyError msg)).
Proof.
  intros Hinit. pose proof (init_key_ok _ _ _ _ Hinit) as key_ok.
  split.
  { unfold Client.__init__ in Hinit.
    destruct (Client.key_missing api_key); [discriminate|]. now injection Hinit as <-. }
  intros [s rs tr] msg. repeat split.
  - intros url payload proxy. destruct rs as [|r rs].
    + unfold Client._post. rewrite key_ok. unfold bind, session_request. cbn. discriminate.
    + rewrite (_post_run client key_ok). cbn [fst]. apply post_outcome_not_missing_key.
  - intros task_type kwargs. destruct rs as [|r rs].
    + unfold Tasks.createTask, Client._post. rewrite key_ok.
      unfold bind, session_request. cbn. discriminate.
    + rewrite (createTask_run client key_ok). cbn [fst]. unfold create_outcome.
      pose proof (post_outcome_not_missing_key r msg) as H.
      destruct (post_outcome r) as [data|e|]; try discriminate.
      * destruct data; discriminate.
      * exact H.
  - intros task_id interval.
    destruct (pending_span rs) as (pend & rest & -> & Hpend & Hrest).
    destruct rest as [|r rest].
    + rewrite app_nil_r.
      destruct (getTaskResult_pending_blocks client key_ok task_id interval s tr pend Hpend)
        as (s' & tr' & Hrun & _).
      rewrite Hrun. discriminate.
    + destruct (getTaskResult_after_pending client key_ok task_id interval s tr pend r rest
                  Hpend Hrest) as (s' & tr' & Hrun & _).
      rewrite Hrun. cbn [fst]. unfold poll_outcome.
      pose proof (post_outcome_not_missing_key r msg) as H.
      destruct (post_outcome r) as [data|e|]; try discriminate.
      * destruct data; try discriminate. destruct (py_eq_str _ _); discriminate.
      * exact H.
Qed.
End BuiltClient.

(** ** The further statements at concrete inputs *)

(** Witness of X1: a client whose key is blank: [createTask] raises and the scripted
    response stays unread. *)
Lemma api_calls_without_key_witness :
  Client.key_missing (Client.api_key Scenario.blank_client) = true
  /\ Tasks.createTask (RT := Plain.runtime) Scenario.blank_client
       "KasadaCaptchaSolver" Example.kasada_kwargs (Example.start [Example.ready])
     = (Raise missing_key, Example.start [Example.ready]).
Proof.
  split; [reflexivity|].
  apply (proj1 (proj2 (api_calls_without_key (RT := Plain.runtime)
                         Scenario.blank_client (Example.start [Example.ready])
                         eq_refl))).
Defined.

(** Witness of X2: a gateway error page in place of JSON. *)
Lemma invalid_json_raises_witness :
  Client.key_missing (Client.api_key Example.client) = false
  /\ json_body Scenario.bad_gateway = None
  /\ fst (Tasks.createTask (RT := Plain.runtime) Example.client
            "KasadaCaptchaSolver" Example.kasada_kwargs
            {| session := Example.fresh; remote := [Scenario.bad_gateway]; trace := [] |})
     = Raise (APIError (VStr "Invalid response from API (502)")).
Proof.
  split; [reflexivity|]. split; [reflexivity|].
  apply (proj1 (proj2 (invalid_json_raises (RT := Plain.runtime) Example.client
                         eq_refl Scenario.bad_gateway eq_refl))).
Defined.

(** Witness of X3: an error response whose [error_description] is empty: the message is
    its [error]. *)
Lemma error_status_raises_witness :
  Client.key_missing (Client.api_key Example.client) = false
  /\ (400 <= status_code Scenario.refused)%Z
  /\ fst (Client._post (RT := Plain.runtime) Example.client Tasks.create_url [] None
            {| session := Example.fresh; remote := [Scenario.refused]; trace := [] |})
     = Raise (APIError (VStr "invalid_key")).
Proof.
  split; [reflexivity|]. split; [cbn; lia|].
  apply (proj1 (proj2 (error_status_raises (RT := Plain.runtime) Example.client
                         eq_refl Scenario.refused
                         [("error_description", VStr EmptyString);
                          ("error", VStr "invalid_key")]
                         ltac:(cbn; lia) eq_refl))).
Defined.

(** Witness of X4: a success response whose body is a list. *)
Lemma non_object_body_raises_AttributeError_witness :
  Client.key_missing (Client.api_key Example.client) = false
  /\ json_body Scenario.listing = Some (VList [])
  /\ fst (Tasks.getTaskResult (RT := Plain.runtime) Example.client (VStr "task-1") 1
            {| session := Example.fresh;
               remote := [Example.pending] ++ Scenario.listing :: [Example.ready];
               trace := [] |})
     = Raise AttributeError.
Proof.
  split; [reflexivity|]. split; [reflexivity|].
  apply (proj2 (proj2 (non_object_body_raises_AttributeError (RT := Plain.runtime)
                         Example.client eq_refl Scenario.listing (VList [])
                         eq_refl ltac:(discriminate)))).
  repeat constructor.
Defined.

(** Witness of X5: a response that holds a task identifier. *)
Lemma createTask_returns_iff_witness :
  Client.key_missing (Client.api_key Example.client) = false
  /\ (fst (Tasks.createTask (RT := Plain.runtime) Example.client
             "KasadaCaptchaSolver" Example.kasada_kwargs
             {| session := Example.fresh; remote := [Scenario.created]; trace := [] |})
      = Return (VStr "task-1")
      <-> exists d, answer Scenario.created = Some d
                    /\ VStr "task-1" = py_get d "taskId").
Proof.
  split; [reflexivity|].
  apply (createTask_returns_iff (RT := Plain.runtime) Example.client eq_refl).
Defined.

(** Witness of X6: two PENDING responses, a failed one and one left unread. *)
Lemma getTaskResult_sequential_witness :
  Client.key_missing (Client.api_key Example.client) = false
  /\ exists n,
       (n <= List.length
               (remote (Example.start [Example.pending; Example.pending;
                                       Example.failed; Example.ready])))%nat
       /\ Forall (fun r => is_pending r = true)
            (firstn n (remote (Example.start [Example.pending; Example.pending;
                                              Example.failed; Example.ready])))
       /\ actions (trace (snd (Tasks.getTaskResult (RT := Plain.runtime)
                                 Example.client (VStr "task-1") 1
                                 (Example.start [Example.pending; Example.pending;
                                                 Example.failed; Example.ready]))))
          = actions (trace (Example.start [Example.pending; Example.pending;
                                           Example.failed; Example.ready]))
              ++ poll_rounds n Example.client (VStr "task-1") 1
              ++ [poll_sent Example.client (VStr "task-1")]
       /\ remote (snd (Tasks.getTaskResult (RT := Plain.runtime)
                         Example.client (VStr "task-1") 1
                         (Example.start [Example.pending; Example.pending;
                                         Example.failed; Example.ready])))
          = skipn (S n) (remote (Example.start [Example.pending; Example.pending;
                                                Example.failed; Example.ready]))
       /\ (fst (Tasks.getTaskResult (RT := Plain.runtime)
                  Example.client (VStr "task-1") 1
                  (Example.start [Example.pending; Example.pending;
                                  Example.failed; Example.ready]))
           = Blocked
           <-> n = List.length
                     (remote (Example.start [Example.pending; Example.pending;
                                             Example.failed; Example.ready]))).
Proof.
  split; [reflexivity|].
  apply (getTaskResult_sequential (RT := Plain.runtime) Example.client eq_refl
           (VStr "task-1") 1%N
           (Example.start [Example.pending; Example.pending;
                           Example.failed; Example.ready])).
Defined.

(** Witness of X7: a PENDING response and then a ready one. *)
Lemma getTaskResult_returns_only_ready_witness :
  Client.key_missing (Client.api_key Example.client) = false
  /\ fst (Tasks.getTaskResult (RT := Plain.runtime) Example.client (VStr "task-1") 1
            (Example.start [Example.pending; Example.ready]))
     = Return (VDict [("payload", VStr "abc")])
  /\ exists pend r rest d,
       remote (Example.start [Example.pending; Example.ready]) = pend ++ r :: rest
       /\ Forall (fun r => is_pending r = true) pend
       /\ answer r = Some d
       /\ py_get d "status" = VStr "ready"
       /\ VDict [("payload", VStr "abc")] = py_get d "solution".
Proof.
  split; [reflexivity|]. split; [reflexivity|].
  apply (getTaskResult_returns_only_ready (RT := Plain.runtime) Example.client
           eq_refl (VStr "task-1") 1%N
           (Example.start [Example.pending; Example.ready])
           (VDict [("payload", VStr "abc")])).
  reflexivity.
Defined.

(** Witness of X24: the client of the examples, as [__init__] builds it. *)
Lemma built_client_keeps_key_witness :
  Client.__init__ "sk-example" "https://salamoonder.com/api" "chrome133a"
  = Return Example.client
  /\ Client.api_key Example.client = "sk-example"
  /\ forall w msg,
       (forall url payload proxy,
           fst (Client._post (RT := Plain.runtime) Example.client url payload proxy w)
           <> Raise (MissingAPIKeyError msg))
       /\ (forall task_type kwargs,
              fst (Tasks.createTask (RT := Plain.runtime) Example.client
                     task_type kwargs w)
              <> Raise (MissingAPIKeyError msg))
       /\ (forall task_id interval,
              fst (Tasks.getTaskResult (RT := Plain.runtime) Example.client
                     task_id interval w)
              <> Raise (MissingAPIKeyError msg)).
Proof.
  split; [reflexivity|].
  apply (built_client_keeps_key (RT := Plain.runtime) "sk-example"
           "https://salamoonder.com/api" "chrome133a" Example.client).
  reflexivity.
Defined.

(** Witness of X19: the name the docstring of [createTask] gives the Reese84 type is not
    the one the code compares with: the payload holds no field. *)
Lemma createTask_task_unknown_type_witness :
  ~ In "IncapsulaReese84" ("KasadaCaptchaSolver" :: Table.other_types)
  /\ Tasks.createTask_task "IncapsulaReese84" Scenario.reese_kwargs
     = [("type", VStr "IncapsulaReese84")].
Proof.
  assert (H : ~ In "IncapsulaReese84" ("KasadaCaptchaSolver" :: Table.other_types)).
  { cbn. intros H. repeat (destruct H as [H|H]; [discriminate H|]). exact H. }
  split; [exact H|].
  apply (createTask_task_unknown_type "IncapsulaReese84" Scenario.reese_kwargs H).
Defined.

(** Witness of X15: the user agent of the examples: the major version of a full version
    number. *)
Lemma extract_sec_ch_ua_version_witness :
  Example.agent = ("Mozilla/5.0 " ++ "Chrome/" ++ "141" ++ ".0.0.0 Safari/537.36")%string
  /\ Akamai._extract_sec_ch_ua Example.agent = brands "141".
Proof.
  split; [reflexivity|].
  apply (proj2 (extract_sec_ch_ua_version Example.agent)
           "Mozilla/5.0 " "141" ".0.0.0 Safari/537.36");
    reflexivity || discriminate.
Defined.

(** Witness of X16: the page of the examples. *)
Lemma get_akamai_url_sound_witness :
  AkamaiWeb._get_akamai_url (RT := Plain.runtime) Example.akamai_html Example.site
  = Some ("https://www.example.com", "https://www.example.com/a1/b2")
  /\ exists pre mid path post,
       Example.akamai_html
       = (pre ++ AkamaiWeb.script_tag ++ mid
              ++ "src=" ++ dq ++ path ++ dq ++ ">" ++ post)%string
       /\ all_chars (fun c => negb (Ascii.eqb c nl)) mid = true
       /\ AkamaiWeb.path_ok path = true
       /\ all_chars AkamaiWeb.is_path_char path = true
       /\ "https://www.example.com" = Akamai.origin_of (RT := Plain.runtime) Example.site
       /\ "https://www.example.com/a1/b2"
          = urljoin (Runtime := Plain.runtime) "https://www.example.com" path.
Proof.
  split; [reflexivity|].
  apply (get_akamai_url_sound (RT := Plain.runtime) Example.akamai_html Example.site
           "https://www.example.com" "https://www.example.com/a1/b2").
  reflexivity.
Defined.

(** Witness of X17: the SBSD page of the examples. *)
Lemma get_sbsd_url_sound_witness :
  AkamaiSBSD._get_sbsd_url (RT := Plain.runtime) Example.sbsd_html
    "https://www.example.com"
  = Some Example.sbsd_post_url
  /\ exists before q src q' after,
       Example.sbsd_html = (before ++ String q (src ++ String q' after))%string
       /\ is_quote q = true /\ is_quote q' = true
       /\ all_chars AkamaiSBSD.not_quote src = true
       /\ occurs_ci_before_more "/.well-known/sbsd/" src = true
       /\ src <> EmptyString
       /\ Example.sbsd_post_url
          = urljoin (Runtime := Plain.runtime) "https://www.example.com" src.
Proof.
  split; [reflexivity|].
  apply (get_sbsd_url_sound (RT := Plain.runtime) Example.sbsd_html
           "https://www.example.com" Example.sbsd_post_url).
  reflexivity.
Defined.

(** Witness of X13: a script response that sets a newer [_abck]: the result keeps the one
    of the navigation response. *)
Lemma web_fetch_and_extract_result_witness :
  status_code Example.navigation = 200%Z
  /\ dict_get "_abck" (cookies Example.navigation) = Some "fresh"
  /\ dict_get "_abck" (cookies Scenario.renewing_script) = Some "newer"
  /\ fst (AkamaiWeb.fetch_and_extract (RT := Plain.runtime) Example.client
            Example.site Example.agent None
            {| session := Example.fresh;
               remote := [Example.navigation; Scenario.renewing_script];
               trace := [] |})
     = Return (VDict [("base_url", VStr "https://www.example.com");
                      ("akamai_url", VStr "https://www.example.com/a1/b2");
                      ("script_data", VStr (text Scenario.renewing_script));
                      ("abck", VStr "fresh");
                      ("bm_sz", VStr "B")]).
Proof.
  split; [reflexivity|]. split; [reflexivity|]. split; [reflexivity|].
  apply (proj2 (proj2 (proj2
           (web_fetch_and_extract_result (RT := Plain.runtime) Example.client
              Example.site Example.agent None Example.fresh Example.navigation
              Scenario.renewing_script [] [] "https://www.example.com"
              "https://www.example.com/a1/b2" "fresh"
              eq_refl eq_refl ltac:(discriminate) eq_refl ltac:(discriminate))))
           "B");
    reflexivity || discriminate.
Defined.

(** Witness of X14: a navigation response with status 403. *)
Lemma sbsd_fetch_and_extract_short_circuit_witness :
  status_code Example.blocked_page <> 200%Z
  /\ exists rq,
       AkamaiSBSD.fetch_and_extract (RT := Plain.runtime) Example.client
         Example.site Example.agent None
         {| session := Example.fresh;
            remote := [Example.blocked_page; Example.script []]; trace := [] |}
       = (Return VNone,
          {| session := received (cleared Example.fresh) Example.blocked_page;
             remote := [Example.script []]; trace := [] ++ [EvRequest rq] |})
       /\ req_method rq = GET /\ req_url rq = Example.site.
Proof.
  assert (H : status_code Example.blocked_page <> 200%Z) by (cbn; lia).
  split; [exact H|].
  apply (sbsd_fetch_and_extract_short_circuit (RT := Plain.runtime) Example.client
           Example.site Example.agent None Example.fresh Example.blocked_page
           [Example.script []] [] (or_introl H)).
Defined.

(** Witness of X8: a 200 response whose body reports success. *)
Lemma post_sensor_returns_None_witness :
  status_code Scenario.ok_sensor <> 201%Z
  /\ exists rq,
       AkamaiWeb.post_sensor (RT := Plain.runtime) Example.client
         "https://www.example.com/a1/b2" (VStr "sensor") Example.agent Example.site None
         {| session := Example.fresh; remote := [Scenario.ok_sensor]; trace := [] |}
       = (Return VNone,
          {| session := received Example.fresh Scenario.ok_sensor; remote := [];
             trace := [] ++ [EvRequest rq] |})
       /\ req_url rq = "https://www.example.com/a1/b2"
       /\ req_json rq = Some (VDict [("sensor_data", VStr "sensor")])
       /\ browser_request POST None (EvRequest rq).
Proof.
  assert (H : status_code Scenario.ok_sensor <> 201%Z) by (cbn; lia).
  split; [exact H|].
  apply (post_sensor_returns_None (RT := Plain.runtime) Example.client
           "https://www.example.com/a1/b2" (VStr "sensor") Example.agent Example.site
           None Example.fresh Scenario.ok_sensor [] [] (or_introl H)).
Defined.

(** Witness of X9: a 201 response that sets [_abck] alone, in a session that holds a
    [bm_sz]. *)
Lemma post_sensor_result_witness :
  status_code Scenario.accepted_sensor = 201%Z
  /\ dict_get "_abck" (cookies Scenario.accepted_sensor) = Some "new"
  /\ exists d,
       fst (AkamaiWeb.post_sensor (RT := Plain.runtime) Example.client
              "https://www.example.com/a1/b2" (VStr "sensor") Example.agent
              Example.site None
              {| session := Example.stale; remote := [Scenario.accepted_sensor];
                 trace := [] |})
       = Return (VDict d)
       /\ dict_keys d = ["_abck"; "bm_sz"; "cookies"]
       /\ dict_get "abck" d = None
       /\ py_get d "_abck" = VStr "new"
       /\ py_get d "_abck"
          = cookie_value
              (dict_get "_abck"
                 (session_cookies (received Example.stale Scenario.accepted_sensor)))
       /\ py_get d "bm_sz"
          = cookie_value
              (dict_get "bm_sz"
                 (session_cookies (received Example.stale Scenario.accepted_sensor)))
       /\ py_get d "cookies"
          = AkamaiWeb.cookies_value
              (session_cookies (received Example.stale Scenario.accepted_sensor)).
Proof.
  split; [reflexivity|]. split; [reflexivity|].
  apply (post_sensor_result (RT := Plain.runtime) Example.client
           "https://www.example.com/a1/b2" (VStr "sensor") Example.agent Example.site
           None Example.stale Scenario.accepted_sensor [] [] "new"
           eq_refl eq_refl ltac:(discriminate)).
  repeat constructor. cbn. tauto.
Defined.

(** Witness of X10: a 200 response that sets no cookie, in a session that holds two. *)
Lemma post_sbsd_result_witness :
  Base64.decode_text "aGVsbG8=" = Some "hello"
  /\ cookies Scenario.empty_ok = []
  /\ fst (AkamaiSBSD.post_sbsd (RT := Plain.runtime) Example.client "aGVsbG8="
            Example.sbsd_post_url Example.agent Example.site None
            {| session := Example.stale; remote := [Scenario.empty_ok]; trace := [] |})
     = Return (VDict [("cookies",
                       AkamaiWeb.cookies_value
                         (session_cookies (received Example.stale Scenario.empty_ok)))]).
Proof.
  split; [reflexivity|]. split; [reflexivity|].
  apply (proj2 (proj2 (proj2 (proj2
           (post_sbsd_result (RT := Plain.runtime) Example.client "aGVsbG8="
              Example.sbsd_post_url Example.agent Example.site None Example.stale
              Scenario.empty_ok [] [] "hello" eq_refl)))));
    reflexivity || discriminate.
Defined.

(** Witness of X11: the base64 of hello with its padding removed. *)
Lemma post_sbsd_unpadded_witness :
  unpadded "aGVsbG8" = true
  /\ (String.length "aGVsbG8" mod 4 <> 0)%nat
  /\ AkamaiSBSD.post_sbsd (RT := Plain.runtime) Example.client "aGVsbG8"
       Example.sbsd_post_url Example.agent Example.site None (Example.start [])
     = (Return VNone, Example.start []).
Proof.
  assert (H : (String.length "aGVsbG8" mod 4 <> 0)%nat) by (cbn; lia).
  split; [reflexivity|]. split; [exact H|].
  apply (post_sbsd_unpadded (RT := Plain.runtime) Example.client "aGVsbG8"
           Example.sbsd_post_url Example.agent Example.site None (Example.start [])
           eq_refl H).
Defined.

(** Witness of X20: the example object inside a page. *)
Lemma datadome_object_only_witness :
  occurs Datadome.marker "<html><script>" = false
  /\ occurs Datadome.marker example_object = false
  /\ occurs Datadome.closing example_object = false
  /\ Datadome.parse_object
       ("<html><script>" ++ Datadome.marker ++ example_object
          ++ Datadome.closing ++ "</html>")%string
     = Json.loads (requoted example_object)
  /\ Datadome.parse_slider_url (RT := Plain.runtime)
       ("<html><script>" ++ Datadome.marker ++ example_object
          ++ Datadome.closing ++ "</html>")%string "D" "https://x/"
     = Datadome.parse_slider_url (RT := Plain.runtime)
         (Datadome.marker ++ example_object ++ Datadome.closing)%string
         "D" "https://x/"
  /\ Datadome.parse_interstitial_url (RT := Plain.runtime)
       ("<html><script>" ++ Datadome.marker ++ example_object
          ++ Datadome.closing ++ "</html>")%string "D" "https://x/"
     = Datadome.parse_interstitial_url (RT := Plain.runtime)
         (Datadome.marker ++ example_object ++ Datadome.closing)%string
         "D" "https://x/".
Proof.
  split; [reflexivity|]. split; [reflexivity|]. split; [reflexivity|].
  apply (datadome_object_only (RT := Plain.runtime) "<html><script>" example_object
           "</html>" "D" "https://x/" eq_refl eq_refl eq_refl).
Defined.

(** Witness of X21: the URL of the example. *)
Lemma datadome_url_parameters_witness :
  Datadome.parse_slider_url (RT := Plain.runtime) example_snippet "D" "https://x/"
  = Return (VStr example_url)
  /\ exists query,
       example_url = (slider_base ++ query)%string
       /\ all_chars query_char query = true
       /\ count_char 61 query = 8%nat
       /\ count_char 38 query = 7%nat.
Proof.
  assert (H : Datadome.parse_slider_url (RT := Plain.runtime) example_snippet
                "D" "https://x/"
              = Return (VStr example_url)) by (vm_compute; reflexivity).
  split; [exact H|].
  apply (proj1 (datadome_url_parameters (RT := Plain.runtime) example_snippet
                  "D" "https://x/" example_url) H).
Defined.
